(** * fastest-server: the Android command line facade and the session server

    A shallow embedding of [lib/AndroidCommandLineTools.js] and of the
    [Server] class that drives it, together with the properties of the
    bring-up, reset, polling and proxy code.

    Conventions of the embedding.
    - A JavaScript string is a [string]; each character stands for one
      UTF-16 code unit below 256.
    - A value that is either [undefined] or a string is a [JsStr].
    - Everything outside the repository (child_process, path, yaquest,
      the JSON body parser and the route matcher of express, the
      completion order of concurrent commands) is one record [Env] of
      oracles; the oracles see the whole history of effects, so any
      deterministic environment is an instance.
    - Every call into the environment completes, and a spawned child
      does not end the server: the properties are about the runs in
      which a handler gets to its end.
    - A call either returns a promise that is fulfilled, returns a
      promise that is rejected, or throws before it returns anything:
      [Returned], [Rejected], [Thrown]. *)

From Stdlib Require Import String Ascii List ZArith NArith Lia Bool Arith.
From Stdlib Require Import DecimalString.
From Equations Require Import Equations.
Import ListNotations.
Open Scope string_scope.

(** ** JavaScript values and string primitives *)

Module Js.

(** [undefined] or a string. *)
Definition JsStr := option string.

(** [!!v] *)
Definition truthy (v : JsStr) : bool :=
  match v with
  | Some s => negb (s =? "")
  | None => false
  end.

(** [a || b] *)
Definition or (a b : JsStr) : JsStr := if truthy a then a else b.

(** [`${v}`] *)
Definition show (v : JsStr) : string :=
  match v with
  | Some s => s
  | None => "undefined"
  end.

(** [`${n}`] for a non-negative integer. *)
Definition showN (n : N) : string := NilZero.string_of_uint (N.to_uint n).

(** [a || d] on numbers: [undefined] and [0] are falsy. *)
Definition orN (a : option N) (d : N) : N :=
  match a with
  | Some 0%N | None => d
  | Some n => n
  end.

(** Code units that [String.prototype.trim] removes and the regular
    expression class [\s] matches: TAB, LF, VT, FF, CR, SPACE, NBSP. *)
Definition isSpace (c : ascii) : bool :=
  let n := N_of_ascii c in
  ((9 <=? n) && (n <=? 13) || (n =? 32) || (n =? 160))%N.

(** [String.prototype.toLowerCase] on one code unit below 256. *)
Definition lowerChar (c : ascii) : ascii :=
  let n := N_of_ascii c in
  if ((65 <=? n) && (n <=? 90)
      || (192 <=? n) && (n <=? 222) && negb (n =? 215))%N
  then ascii_of_N (n + 32) else c.

Fixpoint toLowerCase (s : string) : string :=
  match s with
  | EmptyString => EmptyString
  | String c s' => String (lowerChar c) (toLowerCase s')
  end.

(** [s.indexOf(p)], searched from position [k]. *)
Fixpoint indexOfFrom (p s : string) (k : Z) : Z :=
  if String.prefix p s then k
  else match s with
       | EmptyString => (-1)%Z
       | String _ s' => indexOfFrom p s' (k + 1)%Z
       end.

Definition indexOf (s p : string) : Z := indexOfFrom p s 0%Z.

Fixpoint dropSpace (s : string) : string :=
  match s with
  | EmptyString => EmptyString
  | String c s' => if isSpace c then dropSpace s' else s
  end.

Fixpoint revString (s acc : string) : string :=
  match s with
  | EmptyString => acc
  | String c s' => revString s' (String c acc)
  end.

(** [s.trim()] *)
Definition trim (s : string) : string :=
  revString (dropSpace (revString (dropSpace s) "")) "".

(** [s.split(/\r?\n/)]: [cur] holds the current piece reversed. *)
Fixpoint splitLinesAux (s cur : string) : list string :=
  match s with
  | EmptyString => [revString cur ""]
  | String c s' =>
      if (c =? "010")%char then revString cur "" :: splitLinesAux s' ""
      else if (c =? "013")%char then
        match s' with
        | String d s'' =>
            if (d =? "010")%char then revString cur "" :: splitLinesAux s'' ""
            else splitLinesAux s' (String c cur)
        | EmptyString => splitLinesAux s' (String c cur)
        end
      else splitLinesAux s' (String c cur)
  end.

Definition splitLines (s : string) : list string := splitLinesAux s "".

(** [s.split(/\s/)] *)
Fixpoint splitSpaceAux (s cur : string) : list string :=
  match s with
  | EmptyString => [revString cur ""]
  | String c s' =>
      if isSpace c then revString cur "" :: splitSpaceAux s' ""
      else splitSpaceAux s' (String c cur)
  end.

Definition splitSpace (s : string) : list string := splitSpaceAux s "".

(** [a.findIndex(pred)], [-1] when nothing matches. *)
Fixpoint findIndexFrom {A} (pred : A -> bool) (l : list A) (k : Z) : Z :=
  match l with
  | [] => (-1)%Z
  | x :: l' => if pred x then k else findIndexFrom pred l' (k + 1)%Z
  end.

Definition findIndex {A} (pred : A -> bool) (l : list A) : Z :=
  findIndexFrom pred l 0%Z.

(** The clamping of a relative index of [Array.prototype.slice]. *)
Definition clampIndex (len i : Z) : Z :=
  if (i <? 0)%Z then Z.max (len + i) 0 else Z.min i len.

(** [a.slice(start, end)] *)
Definition slice {A} (l : list A) (start stop : Z) : list A :=
  let len := Z.of_nat (length l) in
  let k := clampIndex len start in
  let final := clampIndex len stop in
  firstn (Z.to_nat (Z.max (final - k) 0)) (skipn (Z.to_nat k) l).

(** [a.slice(start)] *)
Definition sliceFrom {A} (l : list A) (start : Z) : list A :=
  slice l start (Z.of_nat (length l)).

(** [a.includes(v)] on an array of strings. *)
Definition includes (l : list string) (v : JsStr) : bool :=
  match v with
  | Some s => existsb (String.eqb s) l
  | None => false
  end.

(** [a >= b] on a value that is [undefined] or a string, against a
    string: code units are compared lexicographically; [undefined]
    converts to NaN and the comparison is false. *)
Definition ge (a : JsStr) (b : string) : bool :=
  match a with
  | Some s => negb (String.ltb s b)
  | None => false
  end.

End Js.

(** ** Errors, effects and the environment *)

Inductive Nullish := JsNull | JsUndefined.

Record Response := mkResponse { status : N; resBody : string }.

(** The error values the code creates or receives. *)
Inductive JsError :=
| Error_ (message : string)                      (* new Error(message) *)
| TypeErrorRead (base : Nullish) (prop : string) (* base.prop on null/undefined *)
| TypeErrorArg (name : string)                   (* path.join(undefined, ...) *)
| External (message : string) (res : option Response).
                    (* raised by child_process, yaquest or body-parser *)

(** [err.res] *)
Definition err_res (e : JsError) : option Response :=
  match e with
  | External _ r => r
  | _ => None
  end.

(** Every effect the code has on the outside world, in the order in
    which it is issued. *)
Inductive Event :=
| EvExec (cmd : string)
| EvSpawn (file : string) (args : list Js.JsStr) (stdio : string)
| EvSleep (ms : N)
| EvRequest (method url : string) (body : option string).

(** The arguments child_process.exec hands to its callback. *)
Record ExecRaw := mkRaw {
  raw_err : option JsError;
  raw_stdout : string;
  raw_stderr : string }.

Record ExecResult := mkResult { stdout : string; stderr : string }.

Inductive HttpOutcome :=
| HttpResolved (r : Response)
| HttpRejected (e : JsError).

Record Caps := mkCaps {
  deviceName : Js.JsStr;
  avdName : Js.JsStr;
  packageName : Js.JsStr;
  app : Js.JsStr;
  platformVersion : Js.JsStr }.

(** [this.caps]: [null] before the first session, otherwise whatever
    [req.body.desiredCapabilities] was. *)
Inductive CapsVal := CNull | CUndefined | CObj (c : Caps).

(** A request as it reaches the server, before any middleware ran. *)
Record Inbound := mkInbound {
  in_method : string;
  in_path : string;
  in_contentType : Js.JsStr;   (* the Content-Type header *)
  in_payload : string }.       (* the bytes of the body *)

(** What [bodyParser.json()] does with a request: it sets [req.body]
    and calls [next()], or it passes an error to [next]. *)
Inductive Parsed :=
| BodySet (body : string) (desiredCapabilities : CapsVal)
| ParseFailed (err : JsError).

Record Env := mkEnv {
  ANDROID_HOME : Js.JsStr;                       (* process.env.ANDROID_HOME *)
  path_join : list string -> string;             (* path.join *)
  child_exec : list Event -> string -> ExecRaw;  (* child_process.exec *)
  yaquest : list Event -> string -> string -> option string -> HttpOutcome;
                                                 (* request[method](url).send(body) *)
  first_rejection : list Event -> nat;           (* which rejection Promise.all sees first *)
  route_match : string -> string -> bool;        (* express: pattern, path *)
  bodyParser_json : Inbound -> Parsed }.         (* body-parser: json() *)

(** ** The data of the server *)

Record AppInfo := mkAppInfo { requestedPermissions : list string }.

Record Config := mkConfig {
  port : N;
  appServerPort : N;
  localAppServerPort : N;
  rootPath : string;
  sdkPath : Js.JsStr }.

(** The mutable fields of the server ([appInfo] is [null] as [None])
    and the history of effects. *)
Record State := mkState {
  caps : CapsVal;
  appInfo : option AppInfo;
  trace : list Event }.

(** The request as the handlers see it, with the [req.body] that
    [bodyParser.json()] has set. *)
Record Request := mkRequest {
  req_method : string;
  req_path : string;
  req_body : string;
  req_desiredCapabilities : CapsVal }.  (* req.body.desiredCapabilities *)

(** The termination measure of the two polling loops: how many
    retries the bound still allows after round [count]. *)
Definition retriesLeft (bound count : nat) : nat := bound - count.
Arguments retriesLeft : simpl never.

(** ** Promises and synchronous exceptions *)

Inductive Outcome (A : Type) :=
| Returned (a : A)
| Rejected (e : JsError)
| Thrown (e : JsError).
Arguments Returned {A} a.
Arguments Rejected {A} e.
Arguments Thrown {A} e.

Definition M (A : Type) := State -> Outcome A * State.

Definition ret {A} (a : A) : M A := fun s => (Returned a, s).
Definition throw {A} (e : JsError) : M A := fun s => (Thrown e, s).
Definition reject {A} (e : JsError) : M A := fun s => (Rejected e, s).

Definition log (ev : Event) (s : State) : State :=
  mkState (caps s) (appInfo s) (trace s ++ [ev]).

(** The result of a callback that ran inside [then] or [catch]: an
    exception becomes a rejection. *)
Definition settle {A} (r : Outcome A * State) : Outcome A * State :=
  match r with
  | (Thrown e, s) => (Rejected e, s)
  | other => other
  end.

(** [p.then(f)], for a call [p] that may throw before it returns. *)
Definition then_ {A B} (p : M A) (f : A -> M B) : M B :=
  fun s =>
    match p s with
    | (Returned a, s') => settle (f a s')
    | (Rejected e, s') => (Rejected e, s')
    | (Thrown e, s') => (Thrown e, s')
    end.

(** [p.catch(g)] *)
Definition catch_ {A} (p : M A) (g : JsError -> M A) : M A :=
  fun s =>
    match p s with
    | (Rejected e, s') => settle (g e s')
    | other => other
    end.

(** A promise whose value the caller does not look at. *)
Definition void {A} (p : M A) : M unit :=
  fun s =>
    match p s with
    | (Returned _, s') => (Returned tt, s')
    | (Rejected e, s') => (Rejected e, s')
    | (Thrown e, s') => (Thrown e, s')
    end.

Notation "p '>>then' f" := (then_ p f) (at level 61, left associativity).

Definition DANGEROUS_PERMISSIONS : list string := [
  "android.permission.READ_CALENDAR";
  "android.permission.WRITE_CALENDAR";
  "android.permission.CAMERA";
  "android.permission.READ_CONTACTS";
  "android.permission.WRITE_CONTACTS";
  "android.permission.GET_ACCOUNTS";
  "android.permission.ACCESS_FINE_LOCATION";
  "android.permission.ACCESS_COARSE_LOCATION";
  "android.permission.RECORD_AUDIO";
  "android.permission.READ_PHONE_STATE";
  "android.permission.CALL_PHONE";
  "android.permission.READ_CALL_LOG";
  "android.permission.WRITE_CALL_LOG";
  "android.permission.ADD_VOICEMAIL";
  "android.permission.USE_SIP";
  "android.permission.PROCESS_OUTGOING_CALLS";
  "android.permission.BODY_SENSORS";
  "android.permission.SEND_SMS";
  "android.permission.RECEIVE_SMS";
  "android.permission.READ_SMS";
  "android.permission.RECEIVE_WAP_PUSH";
  "android.permission.RECEIVE_MMS";
  "android.permission.READ_EXTERNAL_STORAGE";
  "android.permission.WRITE_EXTERNAL_STORAGE" ].

(** [DANGEROUS_PERMISSIONS.includes(permission)] *)
Definition isDangerous (permission : string) : bool :=
  Js.includes DANGEROUS_PERMISSIONS (Some permission).

(** ** Parsing of the tool output *)

(** The [then] callback of [listRunningDevices]. *)
Definition parseDevices (out : string) : list string :=
  let lines := Js.splitLines out in
  filter (fun device => Js.truthy (Some device))
    (map (fun line =>
            let parts := Js.splitSpace (Js.trim line) in
            Js.trim (hd "" parts))
         (Js.sliceFrom lines 1)).

(** The [then] callback of [listPackages]. *)
Definition parsePackages (out : string) : list string :=
  filter (fun it => Js.truthy (Some it)) (map Js.trim (Js.splitLines out)).

(** The [then] callback of [packageInfo]. *)
Definition parsePackageInfo (out : string) : AppInfo :=
  let rows := map Js.trim (Js.splitLines out) in
  let startIdx :=
    (Js.findIndex (fun row => String.eqb row "requested permissions:") rows
     + 1)%Z in
  let endIndex :=
    Js.findIndex (fun row => String.eqb row "install permissions:") rows in
  mkAppInfo (Js.slice rows startIdx endIndex).

(** The decision of [exec] once the command has finished. *)
Definition classify (raw : ExecRaw) : Outcome ExecResult :=
  match raw_err raw with
  | Some err => Rejected err
  | None =>
      if (Js.indexOf (Js.toLowerCase (raw_stdout raw)) "error" =? 0)%Z
      then Rejected (Error_ (raw_stdout raw))
      else if (Js.indexOf (Js.toLowerCase (raw_stderr raw)) "error" =? 0)%Z
      then Rejected (Error_ (raw_stderr raw))
      else Returned (mkResult (raw_stdout raw) (raw_stderr raw))
  end.

(** ** AndroidCommandLineTools *)

Record Tools := mkTools {
  t_sdkPath : Js.JsStr;
  t_deviceName : Js.JsStr;
  t_avdName : Js.JsStr }.

Section Program.

Variable env : Env.

(** [new AndroidCommandLineTools({sdkPath, deviceName, avdName})] *)
Definition newTools (sdk device avd : Js.JsStr) : Tools :=
  mkTools (Js.or sdk (ANDROID_HOME env)) device avd.

(** The getters [adbPath] and [emulatorPath]: path.join refuses a
    first argument that is not a string. *)
Definition toolPath (t : Tools) (dir file : string) : JsError + string :=
  match t_sdkPath t with
  | Some sdk => inr (path_join env [sdk; dir; file])
  | None => inl (TypeErrorArg "path")
  end.

Definition adbPath (t : Tools) := toolPath t "platform-tools" "adb".
Definition emulatorPath (t : Tools) := toolPath t "emulator" "emulator".

(** [exec(cmd)] *)
Definition exec (cmd : string) : M ExecResult :=
  fun s => (classify (child_exec env (trace s) cmd), log (EvExec cmd) s).

(** [execAdb({cmd, deviceName})] *)
Definition execAdb (t : Tools) (cmd : string) (device : Js.JsStr)
  : M ExecResult :=
  let device := Js.or device (t_deviceName t) in
  if negb (Js.truthy device) then throw (Error_ "missing deviceName")
  else match adbPath t with
       | inl e => throw e
       | inr adb => exec (adb ++ " -s " ++ Js.show device ++ " " ++ cmd)
       end.

(** [spawn(file, args, {stdio})]: the call returns a ChildProcess that
    the code drops. What becomes of the child afterwards, also its
    'error' event when the binary cannot be started, is outside the
    embedding. *)
Definition spawn (file : string) (args : list Js.JsStr) (stdio : string)
  : M unit :=
  fun s => (Returned tt, log (EvSpawn file args stdio) s).

Definition listRunningDevices (t : Tools) : M (list string) :=
  execAdb t "devices" None
  >>then (fun res => ret (parseDevices (stdout res))).

Definition installApp (t : Tools) (device package apkPath : Js.JsStr)
  : M ExecResult :=
  let device := Js.or device (t_deviceName t) in
  catch_ (void (execAdb t ("uninstall " ++ Js.show package) device))
         (fun _ => ret tt)
  >>then (fun _ => execAdb t ("install " ++ Js.show apkPath) device).

Definition listPackages (t : Tools) (device : Js.JsStr) : M (list string) :=
  let device := Js.or device (t_deviceName t) in
  execAdb t "shell pm list packages" device
  >>then (fun res => ret (parsePackages (stdout res))).

Definition packageInfo (t : Tools) (device package : Js.JsStr) : M AppInfo :=
  let device := Js.or device (t_deviceName t) in
  execAdb t ("shell dumpsys package " ++ Js.show package) device
  >>then (fun res => ret (parsePackageInfo (stdout res))).

Definition clearApp (t : Tools) (device package : Js.JsStr) : M ExecResult :=
  let device := Js.or device (t_deviceName t) in
  execAdb t ("shell pm clear " ++ Js.show package) device.

Definition startApp (t : Tools) (device package : Js.JsStr) : M ExecResult :=
  let device := Js.or device (t_deviceName t) in
  execAdb t ("shell monkey -p " ++ Js.show package
             ++ " -c android.intent.category.LAUNCHER 1") device.

Definition tcpPortForward (t : Tools) (device : Js.JsStr)
  (hostPort devicePort : N) : M ExecResult :=
  let device := Js.or device (t_deviceName t) in
  execAdb t ("forward tcp:" ++ Js.showN hostPort
             ++ " tcp:" ++ Js.showN devicePort) device.

Definition reverseTcpPortForward (t : Tools) (device : Js.JsStr)
  (hostPort devicePort : N) : M ExecResult :=
  let device := Js.or device (t_deviceName t) in
  execAdb t ("reverse tcp:" ++ Js.showN devicePort
             ++ " tcp:" ++ Js.showN hostPort) device.

(** [calls.map(c => c())] for calls that each start a command: the
    commands start one after the other, nothing waits; an exception
    stops the map. [inl] is a promise that will reject. *)
Fixpoint startAll {A} (calls : list (M A)) (s : State)
  : Outcome (list (JsError + A)) * State :=
  match calls with
  | [] => (Returned [], s)
  | c :: rest =>
      match c s with
      | (Thrown e, s1) => (Thrown e, s1)
      | (o, s1) =>
          match startAll rest s1 with
          | (Returned ps, s2) =>
              (Returned (match o with
                         | Returned a => inr a
                         | Rejected e | Thrown e => inl e
                         end :: ps), s2)
          | other => other
          end
      end
  end.

Fixpoint rejections {A} (ps : list (JsError + A)) : list JsError :=
  match ps with
  | [] => []
  | inl e :: ps' => e :: rejections ps'
  | inr _ :: ps' => rejections ps'
  end.

Fixpoint fulfilments {A} (ps : list (JsError + A)) : list A :=
  match ps with
  | [] => []
  | inl _ :: ps' => fulfilments ps'
  | inr a :: ps' => a :: fulfilments ps'
  end.

(** [Promise.all(ps)]: all values, or the rejection that arrives
    first. *)
Definition promiseAll {A} (ps : list (JsError + A)) : M (list A) :=
  fun s =>
    match rejections ps with
    | [] => (Returned (fulfilments ps), s)
    | e :: es =>
        (Rejected (nth (first_rejection env (trace s) mod length (e :: es))
                       (e :: es) e), s)
    end.

Definition grantCmd (package : Js.JsStr) (permission : string) : string :=
  "shell pm grant " ++ Js.show package ++ " " ++ permission.

Definition grantPermissions (t : Tools) (device package : Js.JsStr)
  (permissions : list string) : M (list ExecResult) :=
  let device := Js.or device (t_deviceName t) in
  let dangerous := filter isDangerous permissions in
  fun s =>
    match startAll (map (fun permission =>
                           execAdb t (grantCmd package permission) device)
                        dangerous) s with
    | (Returned ps, s1) => promiseAll ps s1
    | (Rejected e, s1) => (Rejected e, s1)
    | (Thrown e, s1) => (Thrown e, s1)
    end.

(** The body of one round of [waitUntilRunning] up to its [catch]. *)
Definition probeBoot (t : Tools) : M unit :=
  listPackages t None
  >>then (fun list =>
            if (length list =? 0)%nat then throw (Error_ "") else ret tt).

Equations? waitUntilRunning (t : Tools) (attempt : nat) (s : State)
  : Outcome unit * State by wf (retriesLeft 60 attempt) lt :=
  waitUntilRunning t attempt s with probeBoot t s => {
    | (Rejected err, s1) with lt_dec attempt 60 => {
        | left Hlt =>
            settle (waitUntilRunning t (S attempt) (log (EvSleep 1000) s1));
        | right _ => (Rejected err, s1) };
    | other => other }.
Proof. unfold retriesLeft. lia. Qed.

Definition startDevice (t : Tools) (avd : Js.JsStr) : M unit :=
  let avd := Js.or avd (t_avdName t) in
  fun s =>
    match emulatorPath t with
    | inl e => (Thrown e, s)
    | inr emulator =>
        match spawn emulator [Some "-avd"; Js.or avd (t_avdName t)]
                    "ignore" s with
        | (_, s1) => waitUntilRunning t 0 s1
        end
    end.

(** ** Server *)

(** [new Server({port, appServerPort, localAppServerPort, rootPath,
    sdkPath})] *)
Definition newServer (port appServerPort localAppServerPort : option N)
  (rootPath sdkPath : Js.JsStr) : Config :=
  mkConfig (Js.orN port 4723) (Js.orN appServerPort 7100)
           (Js.orN localAppServerPort 6100)
           (if Js.truthy rootPath then Js.show rootPath else "/wd/hub")
           sdkPath.

(** The fields the constructor sets to [null], and no effect yet. *)
Definition initialState : State := mkState CNull None [].

Definition setCaps (c : CapsVal) (s : State) : State :=
  mkState c (appInfo s) (trace s).

Definition setAppInfo (info : AppInfo) (s : State) : State :=
  mkState (caps s) (Some info) (trace s).

Definition appServerUrl (cfg : Config) (path : string) : string :=
  "http://localhost:" ++ Js.showN (localAppServerPort cfg) ++ path.

(** [waitForAppServerStart(count)]: [delay(200)], then the ping, then
    the decision on the reflected result. *)
Equations? waitForAppServerStart (cfg : Config) (count : nat) (s : State)
  : Outcome unit * State by wf (retriesLeft 50 count) lt :=
  waitForAppServerStart cfg count s
    with yaquest env (trace (log (EvSleep 200) s)) "get"
           (appServerUrl cfg "/ping") None => {
    | HttpResolved _ =>
        (Returned tt,
         log (EvRequest "get" (appServerUrl cfg "/ping") None)
             (log (EvSleep 200) s));
    | HttpRejected reason with lt_dec count 50 => {
        | left Hlt =>
            settle (waitForAppServerStart cfg (S count)
                      (log (EvRequest "get" (appServerUrl cfg "/ping") None)
                           (log (EvSleep 200) s)));
        | right _ =>
            (Rejected reason,
             log (EvRequest "get" (appServerUrl cfg "/ping") None)
                 (log (EvSleep 200) s)) } }.
Proof. unfold retriesLeft. lia. Qed.

Inductive ResBody :=
| Payload (body : string)
| ErrorReport (err : JsError).   (* {error: err.message, stack: err.stack} *)

(** What a request handler does with its [res] and [next]. *)
Inductive Handled :=
| CallsNext                               (* next() *)
| CallsNextErr (err : JsError)            (* next(err) *)
| Responds (code : N) (body : ResBody)    (* res.status(code).send(body) *)
| Throws (err : JsError).                 (* an exception leaves the handler *)

(** The tail [.then(() => next()).catch(err => next(err))]. *)
Definition finish (r : Outcome unit * State) : Handled * State :=
  match r with
  | (Returned _, s) => (CallsNext, s)
  | (Rejected err, s) => (CallsNextErr err, s)
  | (Thrown err, s) => (Throws err, s)
  end.

(** The chain of [createSession] up to and including [packageInfo]. *)
Definition discoverApp (c : Caps) (cmd : Tools) : M AppInfo :=
  listRunningDevices cmd
  >>then (fun runningDevices =>
            if negb (Js.includes runningDevices (deviceName c))
            then startDevice cmd None
            else ret tt)
  >>then (fun _ => void (installApp cmd None (packageName c) (app c)))
  >>then (fun _ => packageInfo cmd None (packageName c)).

(** The whole chain of [createSession]. *)
Definition bringUp (cfg : Config) (c : Caps) (cmd : Tools) : M unit :=
  discoverApp c cmd
  >>then (fun info s =>
            if Js.ge (platformVersion c) "6.0"
            then void (grantPermissions cmd None (packageName c)
                         (requestedPermissions info)) (setAppInfo info s)
            else ret tt (setAppInfo info s))
  >>then (fun _ => void (startApp cmd None (packageName c)))
  >>then (fun _ => void (tcpPortForward cmd None (localAppServerPort cfg)
                           (appServerPort cfg)))
  >>then (fun _ => waitForAppServerStart cfg 0).

Definition createSession (cfg : Config) (req : Request) (s : State)
  : Handled * State :=
  let caps := req_desiredCapabilities req in
  let s := setCaps caps s in
  match caps with
  | CObj c =>
      finish (bringUp cfg c
                (newTools (sdkPath cfg) (deviceName c) (avdName c)) s)
  | CNull => (Throws (TypeErrorRead JsNull "deviceName"), s)
  | CUndefined => (Throws (TypeErrorRead JsUndefined "deviceName"), s)
  end.

(** The chain of [resetApp]. *)
Definition resetSteps (cfg : Config) (c : Caps) (appInfo : option AppInfo)
  (cmd : Tools) : M unit :=
  clearApp cmd (deviceName c) (packageName c)
  >>then (fun _ =>
            if Js.ge (platformVersion c) "6.0"
            then match appInfo with
                 | Some info =>
                     void (grantPermissions cmd None (packageName c)
                             (requestedPermissions info))
                 | None => throw (TypeErrorRead JsNull "requestedPermissions")
                 end
            else ret tt)
  >>then (fun _ => void (startApp cmd None (packageName c)))
  >>then (fun _ => waitForAppServerStart cfg 0).

Definition resetApp (cfg : Config) (req : Request) (s : State)
  : Handled * State :=
  match caps s with
  | CObj c =>
      finish (resetSteps cfg c (appInfo s)
                (newTools (sdkPath cfg) (deviceName c) (avdName c)) s)
  | CNull => (Throws (TypeErrorRead JsNull "deviceName"), s)
  | CUndefined => (Throws (TypeErrorRead JsUndefined "deviceName"), s)
  end.

Definition forwardRequestToAppServer (cfg : Config) (req : Request)
  (s : State) : Handled * State :=
  let method := Js.toLowerCase (req_method req) in
  let url := appServerUrl cfg (req_path req) in
  let s1 := log (EvRequest method url (Some (req_body req))) s in
  match yaquest env (trace s) method url (Some (req_body req)) with
  | HttpResolved deviceRes =>
      (Responds (status deviceRes) (Payload (resBody deviceRes)), s1)
  | HttpRejected err =>
      match err_res err with
      | Some r => (Responds (status r) (Payload (resBody r)), s1)
      | None => (CallsNextErr err, s1)
      end
  end.

(** [handleError]: an error object is never falsy. *)
Definition handleError (err : JsError) : Handled :=
  Responds 500 (ErrorReport err).

(** express hands an error passed to [next] or thrown by a handler to
    the error middleware. *)
Definition toErrorHandler (r : Handled * State) : Handled * State :=
  match r with
  | (CallsNextErr err, s) | (Throws err, s) => (handleError err, s)
  | other => other
  end.

Definition isPost (req : Request) : bool :=
  Js.toLowerCase (req_method req) =? "post".

Definition sessionRoute (cfg : Config) : string := rootPath cfg ++ "/session".
Definition resetRoute (cfg : Config) : string :=
  rootPath cfg ++ "/session/:id/appium/app/reset".

(** Whether the request is handled by one of the two control routes. *)
Definition isControl (cfg : Config) (req : Request) : bool :=
  isPost req
  && (route_match env (sessionRoute cfg) (req_path req)
      || route_match env (resetRoute cfg) (req_path req)).

(** The handlers that [createExpress] installs behind the body parser,
    run on a request whose body has been parsed. *)
Definition dispatch (cfg : Config) (req : Request) (s : State)
  : Handled * State :=
  match (if isPost req && route_match env (sessionRoute cfg) (req_path req)
         then createSession cfg req s else (CallsNext, s)) with
  | (CallsNext, s1) =>
      match (if isPost req
                && route_match env (resetRoute cfg) (req_path req)
             then resetApp cfg req s1 else (CallsNext, s1)) with
      | (CallsNext, s2) => toErrorHandler (forwardRequestToAppServer cfg req s2)
      | other => toErrorHandler other
      end
  | other => toErrorHandler other
  end.

(** [req] once the parser has set [req.body]. *)
Definition parsedRequest (inbound : Inbound) (body : string)
  (desiredCapabilities : CapsVal) : Request :=
  mkRequest (in_method inbound) (in_path inbound) body desiredCapabilities.

(** The stack that [createExpress] builds, run on one inbound request:
    [bodyParser.json()] comes first, and an error it passes to [next]
    skips the handlers and reaches the error middleware. *)
Definition createExpress (cfg : Config) (inbound : Inbound) (s : State)
  : Handled * State :=
  match bodyParser_json env inbound with
  | BodySet body caps => dispatch cfg (parsedRequest inbound body caps) s
  | ParseFailed err => toErrorHandler (CallsNextErr err, s)
  end.

End Program.

(** ** The events a run adds, and their kinds *)

(** The events that [s'] has and [s] did not have yet. *)
Definition issued (s s' : State) : list Event :=
  skipn (length (trace s)) (trace s').

Definition extend (evs : list Event) (s : State) : State :=
  mkState (caps s) (appInfo s) (trace s ++ evs).

Definition isExec (ev : Event) : bool :=
  match ev with EvExec _ => true | _ => false end.

Definition isSpawn (ev : Event) : bool :=
  match ev with EvSpawn _ _ _ => true | _ => false end.

Definition isFailure {A} (o : Outcome A) : bool :=
  match o with Returned _ => false | _ => true end.

(** The command line [execAdb] hands to [exec] for the device the
    tools were created for; [None] when [execAdb] throws instead. *)
Definition adbLine (env : Env) (t : Tools) (cmd : string) : option string :=
  if Js.truthy (t_deviceName t) then
    match adbPath env t with
    | inr adb => Some (adb ++ " -s " ++ Js.show (t_deviceName t) ++ " " ++ cmd)
    | inl _ => None
    end
  else None.

Definition adbEvent (env : Env) (t : Tools) (cmd : string) : Event :=
  EvExec (match adbLine env t cmd with Some l => l | None => "" end).

(** An [exec] event whose command line is an adb [shell pm grant]. *)
Definition isGrant (env : Env) (t : Tools) (ev : Event) : bool :=
  match ev, adbLine env t "shell pm grant " with
  | EvExec line, Some grant => String.prefix grant line
  | _, _ => false
  end.

(** The requirement of the specification on the start of a captured
    output: the text begins with the token, letters compared without
    regard to their case. *)
Definition sameLetter (a b : ascii) : bool :=
  let fold (c : ascii) :=
    let n := N_of_ascii c in
    if ((65 <=? n) && (n <=? 90))%N then ascii_of_N (n + 32) else c in
  (fold a =? fold b)%char.

Fixpoint beginsWithToken (token text : string) : bool :=
  match token, text with
  | EmptyString, _ => true
  | String a token', String b text' =>
      sameLetter a b && beginsWithToken token' text'
  | String _ _, EmptyString => false
  end.

(** The fault the specification rules out for a reset without a
    session: reading a property of [null] or [undefined]. *)
Definition isNullReference (e : JsError) : bool :=
  match e with TypeErrorRead _ _ => true | _ => false end.

(** The call throws "missing deviceName" and leaves the state, and so
    the history of effects, as it was. *)
Definition throwsMissingDevice {A} (m : M A) (s : State) : Prop :=
  m s = (Thrown (Error_ "missing deviceName"), s).

(** A call relates the state it starts from to the state it ends in. *)
Definition preservesRel (R : State -> State -> Prop) {A} (m : M A) : Prop :=
  forall s, R s (snd (m s)).

(** [s'] is [s] after some more events, none of the kind [F]. *)
Definition quiet (F : Event -> bool) (s s' : State) : Prop :=
  exists evs, trace s' = (trace s ++ evs)%list /\ filter F evs = [].

(** The last steps of both chains, nested to the right: launch, forward
    the port (bring-up only), wait for the app server. *)
Definition launchAndWait (env : Env) (cfg : Config) (c : Caps) (cmd : Tools)
  : M unit :=
  void (startApp env cmd None (packageName c))
  >>then (fun _ =>
            void (tcpPortForward env cmd None (localAppServerPort cfg)
                    (appServerPort cfg))
            >>then (fun _ => waitForAppServerStart env cfg 0)).

Definition relaunchAndWait (env : Env) (cfg : Config) (c : Caps)
  (cmd : Tools) : M unit :=
  void (startApp env cmd None (packageName c))
  >>then (fun _ => waitForAppServerStart env cfg 0).

(** The callback of [createSession] that receives the package info. *)
Definition storeAndGrant (env : Env) (c : Caps) (cmd : Tools)
  (info : AppInfo) : M unit :=
  fun s =>
    if Js.ge (platformVersion c) "6.0"
    then void (grantPermissions env cmd None (packageName c)
                 (requestedPermissions info)) (setAppInfo info s)
    else ret tt (setAppInfo info s).

(** The callback of [resetApp] that follows [clearApp]. *)
Definition regrant (env : Env) (c : Caps) (appInfo : option AppInfo)
  (cmd : Tools) : M unit :=
  if Js.ge (platformVersion c) "6.0"
  then match appInfo with
       | Some info =>
           void (grantPermissions env cmd None (packageName c)
                   (requestedPermissions info))
       | None => throw (TypeErrorRead JsNull "requestedPermissions")
       end
  else ret tt.

(** The promises of commands started one after the other from the
    history [tr]. *)
Fixpoint startedOutcomes (env : Env) (lines : list string)
  (tr : list Event) : list (JsError + ExecResult) :=
  match lines with
  | [] => []
  | line :: rest =>
      match classify (child_exec env tr line) with
      | Returned r => inr r
      | Rejected e | Thrown e => inl e
      end :: startedOutcomes env rest (tr ++ [EvExec line])
  end.

(** The state keeps a field. *)
Definition sameCaps (s s' : State) : Prop := caps s' = caps s.
Definition sameAppInfo (s s' : State) : Prop := appInfo s' = appInfo s.

(** What one round of [waitUntilRunning] makes of the answer to
    [pm list packages] asked at history [tr]. *)
Definition bootProbeOutcome (env : Env) (line : string) (tr : list Event)
  : Outcome unit :=
  match classify (child_exec env tr line) with
  | Returned res =>
      if (length (parsePackages (stdout res)) =? 0)%nat
      then Rejected (Error_ "") else Returned tt
  | Rejected e => Rejected e
  | Thrown e => Thrown e
  end.

(** What one round of [waitForAppServerStart] makes of the ping sent
    at history [tr]. *)
Definition pingOutcome (env : Env) (cfg : Config) (tr : list Event)
  : Outcome unit :=
  match yaquest env tr "get" (appServerUrl cfg "/ping") None with
  | HttpResolved _ => Returned tt
  | HttpRejected reason => Rejected reason
  end.

Definition isRequest (ev : Event) : bool :=
  match ev with EvRequest _ _ _ => true | _ => false end.

(** [createSession] from the install step on, nested to the right. *)
Definition installAndFinish (env : Env) (cfg : Config) (c : Caps)
  (cmd : Tools) : M unit :=
  void (installApp env cmd None (packageName c) (app c))
  >>then (fun _ =>
            packageInfo env cmd None (packageName c)
            >>then (fun info =>
                      storeAndGrant env c cmd info
                      >>then (fun _ => launchAndWait env cfg c cmd))).

(** The one emulator process [startDevice] spawns for tools whose SDK
    path is set: the emulator binary with the configured image. *)
Definition emulatorSpawn (env : Env) (t : Tools) : Event :=
  EvSpawn (path_join env [Js.show (t_sdkPath t); "emulator"; "emulator"])
          [Some "-avd"; t_avdName t] "ignore".

(** The grant commands a chain runs for stored capabilities and
    package info: one per requested permission that is dangerous, in
    the order of the request, and none below platform version "6.0". *)
Definition expectedGrants (env : Env) (t : Tools) (c : Caps) (info : AppInfo)
  : list Event :=
  if Js.ge (platformVersion c) "6.0"
  then map (fun permission =>
              adbEvent env t (grantCmd (packageName c) permission))
           (filter isDangerous (requestedPermissions info))
  else [].

(** ** Concrete inputs: the scenarios of [tests/tests.js] *)

Definition nl : string := String "010" "".

Definition devicesOutput : string :=
  "List of devices attached" ++ nl ++ "        emulator-5554 somecrap".

Definition otherDeviceOutput : string :=
  "List of devices attached" ++ nl ++ "        emulator-007 somecrap".

Definition dumpsysOutput : string :=
  nl ++ "          requested permissions:"
  ++ nl ++ "          android.permission.RECORD_AUDIO"
  ++ nl ++ "          android.permission.USE_SIP"
  ++ nl ++ "          install permissions:"
  ++ nl ++ "        ".

Definition plainDumpsysOutput : string :=
  nl ++ "          requested permissions:"
  ++ nl ++ "          fi.some.permission"
  ++ nl ++ "          fi.some.other.permission"
  ++ nl ++ "          install permissions:"
  ++ nl ++ "        ".

Definition testAdb : string := "/foo/bar/platform-tools/adb -s emulator-5554 ".

Definition testCaps : Caps :=
  mkCaps (Some "emulator-5554") (Some "super-duper-avd") (Some "fi.foo.bar")
         (Some "/path/to/app.apk") (Some "6.0").

(** The body parser on the requests used below: a body that is not
    declared as JSON is left unread and [req.body] is the empty
    object; a JSON text has to open with a brace or a bracket. *)
Definition testParser (inbound : Inbound) : Parsed :=
  if negb (Js.show (in_contentType inbound) =? "application/json")
  then BodySet "{}" CUndefined
  else if in_payload inbound =? "" then BodySet "{}" CUndefined
  else if in_payload inbound =? "{desiredCapabilities}"
  then BodySet "{desiredCapabilities}" (CObj testCaps)
  else if String.prefix "{" (in_payload inbound)
          || String.prefix "[" (in_payload inbound)
  then BodySet (in_payload inbound) CUndefined
  else ParseFailed
         (External ("Unexpected token "
                    ++ String.substring 0 1 (in_payload inbound)
                    ++ " in JSON at position 0") None).

Definition testRoutes (pattern path : string) : bool :=
  if pattern =? "/wd/hub/session" then path =? "/wd/hub/session"
  else path =? "/wd/hub/session/session-id/appium/app/reset".

(** Every command and every request succeeds; [devices] answers
    [listed] and [dumpsys package] answers [dumped]. *)
Definition testEnvWith (listed dumped : string) : Env :=
  mkEnv None (String.concat "/")
    (fun _ cmd =>
       if cmd =? testAdb ++ "devices" then mkRaw None listed ""
       else if cmd =? testAdb ++ "shell pm list packages"
       then mkRaw None "not.our.package" ""
       else if cmd =? testAdb ++ "shell dumpsys package fi.foo.bar"
       then mkRaw None dumped ""
       else mkRaw None "" "")
    (fun _ _ _ _ => HttpResolved (mkResponse 200 "{}"))
    (fun _ => 0)
    testRoutes testParser.

Definition testEnv (listed : string) : Env := testEnvWith listed dumpsysOutput.

(** No command and no request ever succeeds. *)
Definition deadEnv : Env :=
  mkEnv None (String.concat "/")
    (fun _ _ => mkRaw (Some (External "spawn ENOENT" None)) "" "")
    (fun _ _ _ _ => HttpRejected (External "ECONNREFUSED" None))
    (fun _ => 0)
    testRoutes testParser.

Definition testConfig : Config :=
  newServer (Some 4723%N) None (Some 6100%N) None (Some "/foo/bar").

Definition sessionRequest : Request :=
  mkRequest "POST" "/wd/hub/session" "{desiredCapabilities}" (CObj testCaps).

Definition resetRequest : Request :=
  mkRequest "POST" "/wd/hub/session/session-id/appium/app/reset" "{}"
            CUndefined.

Definition elementsRequest : Request :=
  mkRequest "POST" "/wd/hub/session/session-id/elements"
            "{using: xpath, value: some selector}" CUndefined.

Definition testTools : Tools :=
  newTools (testEnv devicesOutput) (Some "/foo/bar") (Some "emulator-5554")
           (Some "super-duper-avd").

(** The state of the server after the bring-up of
    [it('should grant missing dangerous permissions')], with the
    history cleared as the test suite does between steps. *)
Definition sessionState : State :=
  mkState (CObj testCaps)
          (Some (mkAppInfo ["android.permission.RECORD_AUDIO";
                            "android.permission.USE_SIP"]))
          [].

(** A second session request, for another package. *)
Definition otherCaps : Caps :=
  mkCaps (Some "emulator-5554") None (Some "fi.other.app")
         (Some "/path/to/other.apk") (Some "6.0").

Definition otherRequest : Request :=
  mkRequest "POST" "/wd/hub/session" "{desiredCapabilities}" (CObj otherCaps).

(** The tool exits with status 0 and reports its failure as text. *)
Definition sniffEnv : Env :=
  mkEnv None (String.concat "/")
    (fun _ cmd =>
       if cmd =? "adb install app.apk"
       then mkRaw None "" "Error: device offline"
       else mkRaw None "ERROR: no devices/emulators found" "")
    (fun _ _ _ _ => HttpResolved (mkResponse 200 "{}"))
    (fun _ => 0)
    testRoutes testParser.

(** Tools created without a device name. *)
Definition noDeviceTools : Tools :=
  newTools (testEnv devicesOutput) (Some "/foo/bar") None None.

(** ** Notions for the properties of the parsers and the loops *)

(** Every code unit of the string satisfies [P]. *)
Fixpoint allChars (P : ascii -> bool) (s : string) : bool :=
  match s with
  | EmptyString => true
  | String c s' => P c && allChars P s'
  end.

Definition noSpace (s : string) : bool :=
  allChars (fun c => negb (Js.isSpace c)) s.

(** The string is empty or starts with a code unit that is not white
    space. *)
Definition startsClean (s : string) : bool :=
  match s with
  | EmptyString => true
  | String c _ => negb (Js.isSpace c)
  end.

(** The milliseconds the recorded timers add up to. *)
Fixpoint sleepTotal (evs : list Event) : N :=
  match evs with
  | [] => 0%N
  | EvSleep ms :: rest => (ms + sleepTotal rest)%N
  | _ :: rest => sleepTotal rest
  end.

(** The device answers the package query with an error until the
    history has [ready] events; the app server refuses the ping until
    then as well. *)
Definition slowEnv (ready : nat) : Env :=
  mkEnv None (String.concat "/")
    (fun tr cmd =>
       if (length tr <? ready)%nat
       then mkRaw (Some (External "device offline" None)) "" ""
       else mkRaw None "package:fi.foo.bar" "")
    (fun tr _ _ _ =>
       if (length tr <? ready)%nat
       then HttpRejected (External "ECONNREFUSED" None)
       else HttpResolved (mkResponse 200 "{}"))
    (fun _ => 0)
    testRoutes testParser.

(** Every command answers with two padded lines around a blank one. *)
Definition untidyOutput : string :=
  "  package:fi.foo.bar " ++ nl ++ nl ++ "package:fi.other.app".

Definition untidyEnv : Env :=
  mkEnv None (String.concat "/")
    (fun _ _ => mkRaw None untidyOutput "")
    (fun _ _ _ _ => HttpResolved (mkResponse 200 "{}"))
    (fun _ => 0)
    testRoutes testParser.

(** Tools with a device name but without any SDK path. *)
Definition noSdkTools : Tools :=
  newTools (testEnv devicesOutput) None (Some "emulator-5554") None.

(** The second grant of a bring-up fails; everything else succeeds. *)
Definition grantFailsEnv : Env :=
  mkEnv None (String.concat "/")
    (fun _ cmd =>
       if cmd =? testAdb ++ "shell pm grant fi.foo.bar "
                 ++ "android.permission.RECORD_AUDIO"
       then mkRaw (Some (External "grant refused" None)) "" ""
       else mkRaw None "" "")
    (fun _ _ _ _ => HttpResolved (mkResponse 200 "{}"))
    (fun _ => 0)
    testRoutes testParser.

(** The device is listed and the install reports a failure as text. *)
Definition installFailsEnv : Env :=
  mkEnv None (String.concat "/")
    (fun _ cmd =>
       if cmd =? testAdb ++ "devices" then mkRaw None devicesOutput ""
       else if cmd =? testAdb ++ "install /path/to/app.apk"
       then mkRaw None "Error: INSTALL_FAILED_INVALID_APK" ""
       else mkRaw None "" "")
    (fun _ _ _ _ => HttpResolved (mkResponse 200 "{}"))
    (fun _ => 0)
    testRoutes testParser.

(** A session request whose body has no [desiredCapabilities]. *)
(** The requests of the test suite, and two that are not JSON, as they
    arrive. *)
Definition sessionInbound : Inbound :=
  mkInbound "POST" "/wd/hub/session" (Some "application/json")
            "{desiredCapabilities}".

Definition elementsInbound : Inbound :=
  mkInbound "POST" "/wd/hub/session/session-id/elements"
            (Some "application/json") "{using: xpath, value: some selector}".

Definition plainTextInbound : Inbound :=
  mkInbound "POST" "/wd/hub/session/session-id/elements"
            (Some "text/plain") "hello".

Definition malformedInbound : Inbound :=
  mkInbound "POST" "/wd/hub/session/session-id/elements"
            (Some "application/json") "hello".

(** Outputs of [dumpsys package] in which the markers come in the
    other order, or one of them is missing. *)
Definition swappedDumpsysOutput : string :=
  nl ++ "  install permissions:"
  ++ nl ++ "  android.permission.CAMERA"
  ++ nl ++ "  requested permissions:"
  ++ nl ++ "  android.permission.USE_SIP".

Definition installOnlyOutput : string :=
  "Packages:"
  ++ nl ++ "  android.permission.CAMERA"
  ++ nl ++ "  install permissions:"
  ++ nl ++ "  android.permission.USE_SIP".

Definition truncatedDumpsysOutput : string :=
  nl ++ "  requested permissions:"
  ++ nl ++ "  android.permission.RECORD_AUDIO"
  ++ nl ++ "  android.permission.USE_SIP".

Definition emptySessionRequest : Request :=
  mkRequest "POST" "/wd/hub/session" "{}" CUndefined.

(** The server after a bring-up that failed before the package info
    was read: capabilities stored, package info still [null]. *)
Definition halfSessionState : State := mkState (CObj testCaps) None [].

(** * Properties *)

(** ** The scenarios of the test suite, run through the embedding *)

Example test_device_not_running :
  issued initialState
    (snd (createSession (testEnvWith otherDeviceOutput plainDumpsysOutput)
            testConfig sessionRequest initialState))
  = [EvExec (testAdb ++ "devices");
     EvSpawn "/foo/bar/emulator/emulator"
       [Some "-avd"; Some "super-duper-avd"] "ignore";
     EvExec (testAdb ++ "shell pm list packages");
     EvExec (testAdb ++ "uninstall fi.foo.bar");
     EvExec (testAdb ++ "install /path/to/app.apk");
     EvExec (testAdb ++ "shell dumpsys package fi.foo.bar");
     EvExec (testAdb
             ++ "shell monkey -p fi.foo.bar "
             ++ "-c android.intent.category.LAUNCHER 1");
     EvExec (testAdb ++ "forward tcp:6100 tcp:7100");
     EvSleep 200;
     EvRequest "get" "http://localhost:6100/ping" None].
Proof. vm_compute. reflexivity. Qed.

Example test_device_already_running :
  filter isExec
    (issued initialState
       (snd (createSession (testEnvWith devicesOutput plainDumpsysOutput)
               testConfig sessionRequest initialState)))
  = map (fun command => EvExec (testAdb ++ command))
      ["devices";
       "uninstall fi.foo.bar";
       "install /path/to/app.apk";
       "shell dumpsys package fi.foo.bar";
       "shell monkey -p fi.foo.bar -c android.intent.category.LAUNCHER 1";
       "forward tcp:6100 tcp:7100"].
Proof. vm_compute. reflexivity. Qed.

Example test_bring_up_stores_session :
  snd (createSession (testEnv devicesOutput) testConfig sessionRequest
         initialState)
  = extend (issued initialState
              (snd (createSession (testEnv devicesOutput) testConfig
                      sessionRequest initialState)))
           sessionState.
Proof. vm_compute. reflexivity. Qed.

Example test_should_reset_app :
  dispatch (testEnv devicesOutput) testConfig resetRequest sessionState
  = (Responds 200 (Payload "{}"),
     extend [EvExec (testAdb ++ "shell pm clear fi.foo.bar");
             EvExec (testAdb ++ "shell pm grant fi.foo.bar "
                     ++ "android.permission.RECORD_AUDIO");
             EvExec (testAdb ++ "shell pm grant fi.foo.bar "
                     ++ "android.permission.USE_SIP");
             EvExec (testAdb
                     ++ "shell monkey -p fi.foo.bar "
                     ++ "-c android.intent.category.LAUNCHER 1");
             EvSleep 200;
             EvRequest "get" "http://localhost:6100/ping" None;
             EvRequest "post"
               "http://localhost:6100/wd/hub/session/session-id/appium/app/reset"
               (Some "{}")]
            sessionState).
Proof. vm_compute. reflexivity. Qed.

(** The same request as it arrives, through the body parser. *)
Example test_session_through_parser :
  createExpress (testEnv devicesOutput) testConfig sessionInbound
    initialState
  = dispatch (testEnv devicesOutput) testConfig sessionRequest initialState.
Proof. reflexivity. Qed.

Example test_elements_through_parser :
  createExpress (testEnv devicesOutput) testConfig elementsInbound
    initialState
  = dispatch (testEnv devicesOutput) testConfig elementsRequest initialState.
Proof. reflexivity. Qed.

(** ** States and traces *)

Lemma log_extend ev s : log ev s = extend [ev] s.
Proof. reflexivity. Qed.

Lemma extend_nil s : extend [] s = s.
Proof. destruct s; unfold extend; simpl. now rewrite app_nil_r. Qed.

Lemma extend_extend evs1 evs2 s :
  extend evs2 (extend evs1 s) = extend (evs1 ++ evs2)%list s.
Proof. unfold extend; simpl. now rewrite app_assoc. Qed.

Lemma issued_app s s' evs :
  trace s' = (trace s ++ evs)%list -> issued s s' = evs.
Proof.
  unfold issued; intros ->.
  rewrite skipn_app, skipn_all, Nat.sub_diag. reflexivity.
Qed.

Lemma issued_extend s evs : issued s (extend evs s) = evs.
Proof. now apply issued_app. Qed.

Lemma settle_not_thrown {A} (r : Outcome A * State) :
  (forall e, fst r <> Thrown e) -> settle r = r.
Proof. destruct r as [[a|e|e] s]; simpl; intros H; [easy|easy|]. now destruct (H e). Qed.

(** ** The classification of a finished command (C6) *)

Lemma indexOfFrom_range p s k :
  (0 <= k)%Z ->
  Js.indexOfFrom p s k = (-1)%Z \/ (k <= Js.indexOfFrom p s k)%Z.
Proof.
  revert k; induction s as [|c s IH]; intros k Hk; cbn [Js.indexOfFrom].
  - destruct (String.prefix p ""); [right; lia | now left].
  - destruct (String.prefix p (String c s)); [right; lia|].
    destruct (IH (k + 1)%Z) as [H|H]; [lia | now left | right; lia].
Qed.

Lemma indexOf_zero s p :
  (Js.indexOf s p =? 0)%Z = String.prefix p s.
Proof.
  unfold Js.indexOf. destruct s as [|c s]; cbn [Js.indexOfFrom].
  - destruct (String.prefix p ""); reflexivity.
  - destruct (String.prefix p (String c s)); [reflexivity|].
    destruct (indexOfFrom_range p s (0 + 1)%Z) as [H|H];
      [lia | rewrite H; reflexivity |].
    apply Z.eqb_neq. lia.
Qed.

Lemma lowerChar_letter (a c : ascii) :
  a = "e"%char \/ a = "r"%char \/ a = "o"%char ->
  (a =? Js.lowerChar c)%char = sameLetter a c.
Proof.
  intros [ -> | [ -> | -> ] ];
    destruct c as [[] [] [] [] [] [] [] []]; vm_compute; reflexivity.
Qed.

Lemma prefix_lower_step (a c : ascii) (token text : string) :
  a = "e"%char \/ a = "r"%char \/ a = "o"%char ->
  String.prefix (String a token) (String (Js.lowerChar c) text)
  = sameLetter a c && String.prefix token text.
Proof.
  intros Ha. rewrite <- (lowerChar_letter a c Ha). cbn [String.prefix].
  destruct (ascii_dec a (Js.lowerChar c)) as [Heq|Hne].
  - apply Ascii.eqb_eq in Heq. now rewrite Heq.
  - apply Ascii.eqb_neq in Hne. now rewrite Hne.
Qed.

Lemma prefix_empty s : String.prefix "" s = true.
Proof. now destruct s. Qed.

Lemma begins_with_error s :
  (Js.indexOf (Js.toLowerCase s) "error" =? 0)%Z = beginsWithToken "error" s.
Proof.
  rewrite indexOf_zero.
  destruct s as [|c1 [|c2 [|c3 [|c4 [|c5 s]]]]];
    cbn [Js.toLowerCase beginsWithToken];
    repeat (rewrite prefix_lower_step by tauto);
    rewrite ?prefix_empty; try reflexivity;
    repeat match goal with
           | |- context [sameLetter ?a ?c] => destruct (sameLetter a c); simpl
           end; reflexivity.
Qed.

Lemma classify_not_thrown raw e : classify raw <> Thrown e.
Proof.
  unfold classify. destruct (raw_err raw); [discriminate|].
  repeat match goal with |- context [if ?b then _ else _] => destruct b end;
    discriminate.
Qed.

(** C6. [exec] never throws; the promise it returns is rejected exactly
    when the execution of the command reported an error, or the
    captured standard output begins with "error" in any letter case, or
    the captured standard error does; otherwise it is fulfilled with
    the two captured texts. One [exec] event is recorded either way. *)
Theorem exec_fails_iff (env : Env) (cmd : string) (s : State) :
  let raw := child_exec env (trace s) cmd in
  (forall e, fst (exec env cmd s) <> Thrown e)
  /\ (isFailure (fst (exec env cmd s)) = true
      <-> raw_err raw <> None
          \/ beginsWithToken "error" (raw_stdout raw) = true
          \/ beginsWithToken "error" (raw_stderr raw) = true)
  /\ (isFailure (fst (exec env cmd s)) = false ->
      fst (exec env cmd s)
      = Returned (mkResult (raw_stdout raw) (raw_stderr raw)))
  /\ snd (exec env cmd s) = extend [EvExec cmd] s.
Proof.
  intros raw. unfold exec; cbn [fst snd]. fold raw.
  split; [intros e; apply classify_not_thrown|].
  split; [|split; [|reflexivity]]; unfold classify;
    rewrite !begins_with_error;
    destruct (raw_err raw) as [err|];
    destruct (beginsWithToken "error" (raw_stdout raw));
    destruct (beginsWithToken "error" (raw_stderr raw));
    cbn [isFailure]; try discriminate; try reflexivity;
    try (split; [intros _; tauto | reflexivity]);
    try (split; [intros _; left; discriminate | reflexivity]);
    split; try discriminate;
    intros [H|[H|H]]; try discriminate; now destruct H.
Qed.

Lemma exec_fails_iff_witness :
  isFailure (fst (exec sniffEnv "adb devices" initialState)) = true
  /\ isFailure (fst (exec sniffEnv "adb install app.apk" initialState)) = true
  /\ fst (exec (testEnv devicesOutput) "adb devices" initialState)
     = Returned (mkResult "" "").
Proof.
  split; [|split].
  - apply (proj1 (proj2 (exec_fails_iff sniffEnv "adb devices" initialState))).
    right; left; reflexivity.
  - apply (proj1 (proj2 (exec_fails_iff sniffEnv "adb install app.apk"
                           initialState))).
    right; right; reflexivity.
  - apply (proj1 (proj2 (proj2 (exec_fails_iff (testEnv devicesOutput)
                                  "adb devices" initialState)))).
    reflexivity.
Defined.

(** ** The device name guard of [execAdb] (C10) *)

Lemma or_none v : Js.or None v = v.
Proof. reflexivity. Qed.

Lemma or_or a b : Js.or (Js.or a b) b = Js.or a b.
Proof.
  unfold Js.or. destruct (Js.truthy a) eqn:Ha; [now rewrite Ha|].
  now destruct (Js.truthy b).
Qed.

Lemma or_idem a : Js.or a a = a.
Proof. unfold Js.or. now destruct (Js.truthy a). Qed.

Lemma or_falsy a b :
  Js.truthy a = false -> Js.truthy b = false -> Js.truthy (Js.or a b) = false.
Proof. unfold Js.or. now intros -> ->. Qed.

Lemma execAdb_missing env t cmd device s :
  Js.truthy (Js.or device (t_deviceName t)) = false ->
  execAdb env t cmd device s = (Thrown (Error_ "missing deviceName"), s).
Proof. unfold execAdb. now intros ->. Qed.

Lemma execAdb_run env t cmd device adb s :
  Js.truthy (Js.or device (t_deviceName t)) = true ->
  adbPath env t = inr adb ->
  execAdb env t cmd device s
  = exec env (adb ++ " -s " ++ Js.show (Js.or device (t_deviceName t))
              ++ " " ++ cmd) s.
Proof. unfold execAdb. now intros -> ->. Qed.

Lemma then_thrown {A B} (p : M A) (f : A -> M B) s e :
  p s = (Thrown e, s) -> (p >>then f) s = (Thrown e, s).
Proof. unfold then_. now intros ->. Qed.

(** C10, as the code has it. With no device name given to the call and
    none configured, [listRunningDevices], [listPackages],
    [packageInfo], [installApp], [clearApp], [startApp] and
    [tcpPortForward] throw "missing deviceName" before any command is
    executed. [grantPermissions] does so when at least one of the given
    permissions is dangerous; when none is, it starts no command and
    its promise is fulfilled with the empty list. *)
Theorem missing_deviceName_guard (env : Env) (t : Tools)
  (device : Js.JsStr) (s : State) :
  Js.truthy (t_deviceName t) = false ->
  Js.truthy device = false ->
  throwsMissingDevice (listRunningDevices env t) s
  /\ throwsMissingDevice (listPackages env t device) s
  /\ (forall package, throwsMissingDevice (packageInfo env t device package) s)
  /\ (forall package apk,
        throwsMissingDevice (installApp env t device package apk) s)
  /\ (forall package, throwsMissingDevice (clearApp env t device package) s)
  /\ (forall package, throwsMissingDevice (startApp env t device package) s)
  /\ (forall hostPort devicePort,
        throwsMissingDevice
          (tcpPortForward env t device hostPort devicePort) s)
  /\ (forall package permissions,
        filter isDangerous permissions <> [] ->
        throwsMissingDevice
          (grantPermissions env t device package permissions) s)
  /\ (forall package permissions,
        filter isDangerous permissions = [] ->
        grantPermissions env t device package permissions s
        = (Returned [], s)).
Proof.
  intros Ht Hd.
  assert (Hor : Js.truthy (Js.or device (t_deviceName t)) = false)
    by now apply or_falsy.
  assert (Hor' : Js.truthy (Js.or (Js.or device (t_deviceName t))
                              (t_deviceName t)) = false)
    by now rewrite or_or.
  assert (Hnone : Js.truthy (Js.or None (t_deviceName t)) = false)
    by now rewrite or_none.
  unfold throwsMissingDevice.
  repeat split; intros.
  - unfold listRunningDevices. apply then_thrown. now apply execAdb_missing.
  - unfold listPackages. apply then_thrown. now apply execAdb_missing.
  - unfold packageInfo. apply then_thrown. now apply execAdb_missing.
  - unfold installApp. apply then_thrown. unfold catch_, void.
    now rewrite execAdb_missing.
  - unfold clearApp. now apply execAdb_missing.
  - unfold startApp. now apply execAdb_missing.
  - unfold tcpPortForward. now apply execAdb_missing.
  - unfold grantPermissions.
    destruct (filter isDangerous permissions) as [|p ps]; [easy|].
    cbn [map startAll]. now rewrite execAdb_missing.
  - unfold grantPermissions. now rewrite H.
Qed.

Lemma missing_deviceName_guard_witness :
  throwsMissingDevice (listRunningDevices (testEnv devicesOutput) noDeviceTools)
    initialState
  /\ grantPermissions (testEnv devicesOutput) noDeviceTools None
       (Some "fi.foo.bar") ["fi.some.permission"] initialState
     = (Returned [], initialState).
Proof.
  destruct (missing_deviceName_guard (testEnv devicesOutput) noDeviceTools
              None initialState eq_refl eq_refl)
    as (H1 & _ & _ & _ & _ & _ & _ & _ & H9).
  split; [exact H1 | apply H9; reflexivity].
Defined.

(** C10 as stated fails for [grantPermissions]: without any device
    name, a call whose permissions contain no dangerous one does not
    throw; it is fulfilled. *)
Lemma grantPermissions_without_device_succeeds :
  Js.truthy (t_deviceName noDeviceTools) = false
  /\ fst (grantPermissions (testEnv devicesOutput) noDeviceTools None
            (Some "fi.foo.bar")
            ["fi.some.permission"; "fi.some.other.permission"] initialState)
     = Returned []
  /\ ~ throwsMissingDevice
         (grantPermissions (testEnv devicesOutput) noDeviceTools None
            (Some "fi.foo.bar")
            ["fi.some.permission"; "fi.some.other.permission"])
         initialState.
Proof.
  split; [reflexivity|]. split; [reflexivity|].
  unfold throwsMissingDevice. vm_compute. discriminate.
Qed.

(** ** [installApp] (C7) *)

Lemma settle_classify raw s : settle (classify raw, s) = (classify raw, s).
Proof.
  apply settle_not_thrown. intros e. apply classify_not_thrown.
Qed.

Lemma installApp_run env t device package apk adb s :
  Js.truthy (Js.or device (t_deviceName t)) = true ->
  adbPath env t = inr adb ->
  installApp env t device package apk s
  = exec env (adb ++ " -s " ++ Js.show (Js.or device (t_deviceName t))
              ++ " install " ++ Js.show apk)
      (extend [EvExec (adb ++ " -s "
                       ++ Js.show (Js.or device (t_deviceName t))
                       ++ " uninstall " ++ Js.show package)] s).
Proof.
  intros Hd Ha. unfold installApp, then_, catch_, void.
  assert (Hd' : Js.truthy (Js.or (Js.or device (t_deviceName t))
                             (t_deviceName t)) = true) by now rewrite or_or.
  rewrite (execAdb_run env t _ _ adb s Hd' Ha), or_or.
  unfold exec at 1. rewrite log_extend.
  destruct (classify (child_exec env (trace s) _)) as [r|e|e] eqn:Hc;
    [| |now apply classify_not_thrown in Hc];
    cbn [settle ret];
    rewrite (execAdb_run env t _ _ adb _ Hd' Ha), or_or;
    unfold exec; apply settle_classify.
Qed.

(** C7, as the code has it. When a device name is available and the
    SDK path is set, [installApp] runs exactly two commands, the
    uninstall of the package and then the install of the artifact,
    whatever the uninstall reports; its result is the result of the
    install command, so it fails exactly when the install fails. *)
Theorem installApp_fails_iff_install_fails (env : Env) (t : Tools)
  (device package apk : Js.JsStr) (adb : string) (s : State) :
  Js.truthy (Js.or device (t_deviceName t)) = true ->
  adbPath env t = inr adb ->
  let line cmd :=
    adb ++ " -s " ++ Js.show (Js.or device (t_deviceName t)) ++ " " ++ cmd in
  let uninstall := line ("uninstall " ++ Js.show package) in
  let install := line ("install " ++ Js.show apk) in
  let installOutcome :=
    classify (child_exec env (trace s ++ [EvExec uninstall]) install) in
  issued s (snd (installApp env t device package apk s))
  = [EvExec uninstall; EvExec install]
  /\ fst (installApp env t device package apk s) = installOutcome
  /\ (isFailure (fst (installApp env t device package apk s)) = true
      <-> isFailure installOutcome = true).
Proof.
  intros Hd Ha line uninstall install installOutcome.
  rewrite (installApp_run env t device package apk adb s Hd Ha).
  unfold exec; cbn [fst snd]. rewrite log_extend, extend_extend.
  rewrite issued_extend. repeat split; auto.
Qed.

Lemma installApp_fails_iff_install_fails_witness :
  issued initialState
    (snd (installApp (testEnv devicesOutput) testTools None
            (Some "fi.foo.bar") (Some "/path/to/app.apk") initialState))
  = [EvExec (testAdb ++ "uninstall fi.foo.bar");
     EvExec (testAdb ++ "install /path/to/app.apk")].
Proof.
  exact (proj1 (installApp_fails_iff_install_fails (testEnv devicesOutput)
                  testTools None (Some "fi.foo.bar") (Some "/path/to/app.apk")
                  "/foo/bar/platform-tools/adb" initialState
                  eq_refl eq_refl)).
Defined.

(** C7 as stated fails without a device name: [installApp] fails, yet
    neither the uninstall nor the install command was ever run, and
    the failure of the uninstall step was not swallowed. *)
Lemma installApp_without_device_fails :
  installApp (testEnv devicesOutput) noDeviceTools None
    (Some "fi.foo.bar") (Some "/path/to/app.apk") initialState
  = (Thrown (Error_ "missing deviceName"), initialState)
  /\ issued initialState
       (snd (installApp (testEnv devicesOutput) noDeviceTools None
               (Some "fi.foo.bar") (Some "/path/to/app.apk") initialState))
     = [].
Proof. split; reflexivity. Qed.

(** ** What the operations leave untouched

    [R] relates the state before a call to the state after it; [Q]
    says which events the relation tolerates, and [allowed] which adb
    commands produce tolerated events. *)

Section Preservation.

Variable env : Env.
Variable R : State -> State -> Prop.
Variable Q : Event -> Prop.
Variable allowed : string -> bool.
Variable t : Tools.

Hypothesis R_refl : forall s, R s s.
Hypothesis R_trans : forall s1 s2 s3, R s1 s2 -> R s2 s3 -> R s1 s3.
Hypothesis R_log : forall ev s, Q ev -> R s (log ev s).
Hypothesis Q_sleep : forall ms, Q (EvSleep ms).
Hypothesis Q_request : forall m u b, Q (EvRequest m u b).
Hypothesis Q_adb :
  forall cmd line,
    allowed cmd = true -> adbLine env t cmd = Some line -> Q (EvExec line).

Abbreviation preserves := (preservesRel R).

Lemma preserves_ret {A} (a : A) : preserves (ret a).
Proof. intros s. apply R_refl. Qed.

Lemma preserves_throw {A} e : preserves (@throw A e).
Proof. intros s. apply R_refl. Qed.

Lemma snd_settle {A} (r : Outcome A * State) : snd (settle r) = snd r.
Proof. now destruct r as [[a|e|e] s]. Qed.

Lemma preserves_then {A B} (p : M A) (f : A -> M B) :
  preserves p -> (forall a, preserves (f a)) -> preserves (p >>then f).
Proof.
  intros Hp Hf s. unfold then_. specialize (Hp s).
  destruct (p s) as [[a|e|e] s1]; cbn [snd] in *; auto.
  rewrite snd_settle. eapply R_trans; [exact Hp | apply Hf].
Qed.

Lemma preserves_catch {A} (p : M A) (g : JsError -> M A) :
  preserves p -> (forall e, preserves (g e)) -> preserves (catch_ p g).
Proof.
  intros Hp Hg s. unfold catch_. specialize (Hp s).
  destruct (p s) as [[a|e|e] s1]; cbn [snd] in *; auto.
  rewrite snd_settle. eapply R_trans; [exact Hp | apply Hg].
Qed.

Lemma preserves_void {A} (p : M A) : preserves p -> preserves (void p).
Proof.
  intros Hp s. unfold void. specialize (Hp s).
  now destruct (p s) as [[a|e|e] s1].
Qed.

Lemma preserves_execAdb cmd device :
  allowed cmd = true ->
  Js.or device (t_deviceName t) = t_deviceName t ->
  preserves (execAdb env t cmd device).
Proof.
  intros Hc Hd s. unfold execAdb. rewrite Hd.
  destruct (Js.truthy (t_deviceName t)) eqn:Ht; cbn [negb];
    [|apply R_refl].
  destruct (adbPath env t) as [e|adb] eqn:Ha; [apply R_refl|].
  unfold exec; cbn [snd]. apply R_log, (Q_adb cmd); [exact Hc|].
  unfold adbLine. now rewrite Ht, Ha.
Qed.

Lemma own_device : Js.or None (t_deviceName t) = t_deviceName t.
Proof. reflexivity. Qed.

Lemma own_device_twice :
  Js.or (Js.or None (t_deviceName t)) (t_deviceName t) = t_deviceName t.
Proof. apply or_or. Qed.

Lemma preserves_listRunningDevices :
  allowed "devices" = true -> preserves (listRunningDevices env t).
Proof.
  intros H. apply preserves_then; [|intros; apply preserves_ret].
  now apply preserves_execAdb.
Qed.

Lemma preserves_listPackages :
  allowed "shell pm list packages" = true ->
  preserves (listPackages env t None).
Proof.
  intros H. apply preserves_then; [|intros; apply preserves_ret].
  apply preserves_execAdb; [exact H | apply own_device_twice].
Qed.

Lemma preserves_installApp package apk :
  allowed ("uninstall " ++ Js.show package) = true ->
  allowed ("install " ++ Js.show apk) = true ->
  preserves (installApp env t None package apk).
Proof.
  intros H1 H2. apply preserves_then.
  - apply preserves_catch; [|intros; apply preserves_ret].
    apply preserves_void, preserves_execAdb;
      [exact H1 | apply own_device_twice].
  - intros _. apply preserves_execAdb; [exact H2 | apply own_device_twice].
Qed.

Lemma preserves_packageInfo package :
  allowed ("shell dumpsys package " ++ Js.show package) = true ->
  preserves (packageInfo env t None package).
Proof.
  intros H. apply preserves_then; [|intros; apply preserves_ret].
  apply preserves_execAdb; [exact H | apply own_device_twice].
Qed.

Lemma preserves_startApp package :
  allowed ("shell monkey -p " ++ Js.show package
           ++ " -c android.intent.category.LAUNCHER 1") = true ->
  preserves (startApp env t None package).
Proof.
  intros H. apply preserves_execAdb; [exact H | apply own_device_twice].
Qed.

Lemma preserves_tcpPortForward hostPort devicePort :
  allowed ("forward tcp:" ++ Js.showN hostPort
           ++ " tcp:" ++ Js.showN devicePort) = true ->
  preserves (tcpPortForward env t None hostPort devicePort).
Proof.
  intros H. apply preserves_execAdb; [exact H | apply own_device_twice].
Qed.

Lemma preserves_clearApp package :
  allowed ("shell pm clear " ++ Js.show package) = true ->
  preserves (clearApp env t (t_deviceName t) package).
Proof.
  intros H. apply preserves_execAdb; [exact H|]. now rewrite or_or, or_idem.
Qed.

Lemma preserves_probeBoot :
  allowed "shell pm list packages" = true -> preserves (probeBoot env t).
Proof.
  intros H. apply preserves_then; [now apply preserves_listPackages|].
  intros l. destruct (length l =? 0)%nat;
    [apply preserves_throw | apply preserves_ret].
Qed.

Lemma preserves_waitUntilRunning attempt :
  allowed "shell pm list packages" = true ->
  preserves (waitUntilRunning env t attempt).
Proof.
  intros H. pose proof (preserves_probeBoot H) as Hprobe.
  assert (Hsleep : forall s, R s (log (EvSleep 1000) s))
    by (intros; apply R_log, Q_sleep).
  assert (Htrans := R_trans). clear H. unfold preserves in *.
  intros s. funelim (waitUntilRunning env t attempt s);
    pose proof (Hprobe s) as Hp;
    match goal with Hq : probeBoot _ _ _ = _ |- _ => rewrite Hq in Hp end;
    cbn [snd] in *; auto.
  rewrite snd_settle. eapply Htrans; [exact Hp|].
  eapply Htrans; [apply Hsleep|]. auto.
Qed.

Lemma preserves_startDevice avd :
  allowed "shell pm list packages" = true ->
  (forall file args stdio, Q (EvSpawn file args stdio)) ->
  preserves (startDevice env t avd).
Proof.
  intros H Hs s. unfold startDevice.
  destruct (emulatorPath env t) as [e|emulator]; [apply R_refl|].
  unfold spawn. eapply R_trans; [apply R_log, Hs|].
  now apply preserves_waitUntilRunning.
Qed.

Lemma preserves_waitForAppServerStart cfg count :
  preserves (waitForAppServerStart env cfg count).
Proof.
  assert (Hround : forall s u,
             R s (log (EvRequest "get" u None) (log (EvSleep 200) s))).
  { intros s u. eapply R_trans; apply R_log; auto. }
  assert (Htrans := R_trans). unfold preserves.
  intros s. funelim (waitForAppServerStart env cfg count s); cbn [snd];
    auto.
  rewrite snd_settle. eapply Htrans; [apply Hround|]. auto.
Qed.

Lemma preserves_startAll {A} (calls : list (M A)) :
  Forall preserves calls -> preserves (startAll calls).
Proof.
  induction 1 as [|c rest Hc _ IH]; intros s; cbn [startAll];
    [apply R_refl|].
  specialize (Hc s).
  destruct (c s) as [[a|e|e] s1]; cbn [snd] in *; auto;
    specialize (IH s1);
    destruct (startAll rest s1) as [[ps|e'|e'] s2]; cbn [snd] in *;
    eauto.
Qed.

Lemma preserves_promiseAll {A} (ps : list (JsError + A)) :
  preserves (promiseAll env ps).
Proof.
  intros s. unfold promiseAll. destruct (rejections ps); apply R_refl.
Qed.

Lemma preserves_grantPermissions package permissions :
  (forall permission, allowed (grantCmd package permission) = true) ->
  preserves (grantPermissions env t None package permissions).
Proof.
  intros H s. unfold grantPermissions.
  match goal with |- context [startAll ?calls s] =>
    assert (Hall : preserves (startAll calls)) end.
  { apply preserves_startAll, Forall_forall. intros c Hin.
    apply in_map_iff in Hin as (p & <- & _).
    apply preserves_execAdb; [apply H | apply own_device_twice]. }
  specialize (Hall s).
  match goal with |- context [startAll ?calls s] =>
    destruct (startAll calls s) as [[ps|e|e] s1] end; cbn [snd] in *; auto.
  eapply R_trans; [exact Hall | apply preserves_promiseAll].
Qed.

Lemma preserves_discoverApp c :
  allowed "devices" = true ->
  allowed "shell pm list packages" = true ->
  allowed ("uninstall " ++ Js.show (packageName c)) = true ->
  allowed ("install " ++ Js.show (app c)) = true ->
  allowed ("shell dumpsys package " ++ Js.show (packageName c)) = true ->
  (forall file args stdio, Q (EvSpawn file args stdio)) ->
  preserves (discoverApp env c t).
Proof.
  intros H1 H2 H3 H4 H5 Hs. unfold discoverApp.
  apply preserves_then; [apply preserves_then; [apply preserves_then|]|];
    intros.
  - now apply preserves_listRunningDevices.
  - destruct (negb _); [now apply preserves_startDevice|apply preserves_ret].
  - now apply preserves_void, preserves_installApp.
  - now apply preserves_packageInfo.
Qed.

Lemma preserves_launchAndWait cfg c :
  allowed ("shell monkey -p " ++ Js.show (packageName c)
           ++ " -c android.intent.category.LAUNCHER 1") = true ->
  allowed ("forward tcp:" ++ Js.showN (localAppServerPort cfg)
           ++ " tcp:" ++ Js.showN (appServerPort cfg)) = true ->
  preserves (launchAndWait env cfg c t).
Proof.
  intros H1 H2. unfold launchAndWait.
  apply preserves_then; [now apply preserves_void, preserves_startApp|].
  intros _. apply preserves_then;
    [now apply preserves_void, preserves_tcpPortForward|].
  intros _. apply preserves_waitForAppServerStart.
Qed.

Lemma preserves_relaunchAndWait cfg c :
  allowed ("shell monkey -p " ++ Js.show (packageName c)
           ++ " -c android.intent.category.LAUNCHER 1") = true ->
  preserves (relaunchAndWait env cfg c t).
Proof.
  intros H1. unfold relaunchAndWait.
  apply preserves_then; [now apply preserves_void, preserves_startApp|].
  intros _. apply preserves_waitForAppServerStart.
Qed.

Lemma preserves_storeAndGrant c info :
  (forall s, R s (setAppInfo info s)) ->
  (forall permission,
      allowed (grantCmd (packageName c) permission) = true) ->
  preserves (storeAndGrant env c t info).
Proof.
  intros Hset Hg s. unfold storeAndGrant.
  destruct (Js.ge (platformVersion c) "6.0"); [|apply Hset].
  eapply R_trans; [apply (Hset s)|].
  now apply preserves_void, preserves_grantPermissions.
Qed.

Lemma preserves_installAndFinish cfg c :
  (forall info s, R s (setAppInfo info s)) ->
  (forall cmd, allowed cmd = true) ->
  preserves (installAndFinish env cfg c t).
Proof.
  intros Hset Hall. unfold installAndFinish.
  apply preserves_then; [now apply preserves_void, preserves_installApp|].
  intros _. apply preserves_then; [now apply preserves_packageInfo|].
  intros info. apply preserves_then; [now apply preserves_storeAndGrant|].
  intros _. now apply preserves_launchAndWait.
Qed.

End Preservation.

(** ** The shape of the two chains *)

Lemma settle_settle {A} (r : Outcome A * State) : settle (settle r) = settle r.
Proof. now destruct r as [[a|e|e] s]. Qed.

Lemma then_assoc {A B C} (p : M A) (f : A -> M B) (g : B -> M C) s :
  ((p >>then f) >>then g) s = (p >>then (fun a => f a >>then g)) s.
Proof.
  unfold then_. destruct (p s) as [[a|e|e] s1]; try reflexivity.
  destruct (f a s1) as [[b|e|e] s2]; cbn [settle]; try reflexivity.
  now rewrite settle_settle.
Qed.

Lemma bringUp_split env cfg c cmd s :
  bringUp env cfg c cmd s
  = (discoverApp env c cmd
     >>then (fun info => storeAndGrant env c cmd info
                         >>then (fun _ => launchAndWait env cfg c cmd))) s.
Proof.
  unfold bringUp. rewrite 3 then_assoc. reflexivity.
Qed.

Lemma resetSteps_split env cfg c info cmd s :
  resetSteps env cfg c info cmd s
  = (clearApp env cmd (deviceName c) (packageName c)
     >>then (fun _ => regrant env c info cmd
                      >>then (fun _ => relaunchAndWait env cfg c cmd))) s.
Proof.
  unfold resetSteps. rewrite 2 then_assoc. reflexivity.
Qed.

(** ** Extensions of the history without events of one kind *)

Lemma quiet_refl F s : quiet F s s.
Proof. exists []. now rewrite app_nil_r. Qed.

Lemma quiet_trans F s1 s2 s3 : quiet F s1 s2 -> quiet F s2 s3 -> quiet F s1 s3.
Proof.
  intros (e1 & H1 & F1) (e2 & H2 & F2). exists (e1 ++ e2)%list.
  rewrite H2, H1, app_assoc, filter_app, F1, F2. now split.
Qed.

Lemma quiet_log F ev s : F ev = false -> quiet F s (log ev s).
Proof. intros H. exists [ev]. cbn. now rewrite H. Qed.

Lemma quiet_setAppInfo F info s : quiet F s (setAppInfo info s).
Proof. exists []. cbn. now rewrite app_nil_r. Qed.

Lemma quiet_issued F s s' : quiet F s s' -> filter F (issued s s') = [].
Proof. intros (evs & H & HF). now rewrite (issued_app _ _ _ H). Qed.

(** ** Relations that no event disturbs *)

Section AnyEvent.

Variable env : Env.
Variable R : State -> State -> Prop.
Variable t : Tools.

Hypothesis R_refl : forall s, R s s.
Hypothesis R_trans : forall s1 s2 s3, R s1 s2 -> R s2 s3 -> R s1 s3.
Hypothesis R_log : forall ev s, R s (log ev s).

Lemma any_discoverApp c : preservesRel R (discoverApp env c t).
Proof.
  apply (preserves_discoverApp env R (fun _ => True) (fun _ => true));
    auto.
Qed.

Lemma any_grantPermissions package permissions :
  preservesRel R (grantPermissions env t None package permissions).
Proof.
  apply (preserves_grantPermissions env R (fun _ => True) (fun _ => true));
    auto.
Qed.

Lemma any_launchAndWait cfg c : preservesRel R (launchAndWait env cfg c t).
Proof.
  apply (preserves_launchAndWait env R (fun _ => True) (fun _ => true));
    auto.
Qed.

End AnyEvent.

Lemma then_unfold {A B} (p : M A) (f : A -> M B) s :
  (p >>then f) s
  = match p s with
    | (Returned a, s') => settle (f a s')
    | (Rejected e, s') => (Rejected e, s')
    | (Thrown e, s') => (Thrown e, s')
    end.
Proof. reflexivity. Qed.

Lemma then_returned {A B} (p : M A) (f : A -> M B) s a s1 :
  p s = (Returned a, s1) -> (p >>then f) s = settle (f a s1).
Proof. unfold then_. now intros ->. Qed.

Lemma then_failed {A B} (p : M A) (f : A -> M B) s :
  isFailure (fst (p s)) = true ->
  snd ((p >>then f) s) = snd (p s)
  /\ isFailure (fst ((p >>then f) s)) = true.
Proof. unfold then_. now destruct (p s) as [[a|e|e] s1]. Qed.

Lemma snd_finish r : snd (finish r) = snd r.
Proof. now destruct r as [[a|e|e] s]. Qed.

(** ** The stored capabilities and metadata (C9) *)

Lemma bringUp_sameCaps env cfg c t s :
  caps (snd (bringUp env cfg c t s)) = caps s.
Proof.
  rewrite bringUp_split. revert s.
  change (preservesRel sameCaps
            (discoverApp env c t
             >>then (fun info => storeAndGrant env c t info
                                 >>then (fun _ => launchAndWait env cfg c t)))).
  assert (Ht : forall s1 s2 s3 : State,
             sameCaps s1 s2 -> sameCaps s2 s3 -> sameCaps s1 s3)
    by (unfold sameCaps; intros; congruence).
  apply preserves_then; try easy.
  - apply any_discoverApp; easy.
  - intros info. apply preserves_then; try easy.
    + intros s. unfold storeAndGrant.
      destruct (Js.ge (platformVersion c) "6.0"); [|reflexivity].
      change (sameCaps (setAppInfo info s)
                (snd (void (grantPermissions env t None (packageName c)
                              (requestedPermissions info))
                        (setAppInfo info s)))).
      apply (preserves_void sameCaps), (any_grantPermissions env sameCaps);
        easy.
    + intros _. apply any_launchAndWait; easy.
Qed.

Lemma afterDiscover_appInfo env cfg c t info s :
  appInfo (snd ((storeAndGrant env c t info
                 >>then (fun _ => launchAndWait env cfg c t)) s))
  = Some info.
Proof.
  assert (Ht : forall s1 s2 s3 : State,
             sameAppInfo s1 s2 -> sameAppInfo s2 s3 -> sameAppInfo s1 s3)
    by (unfold sameAppInfo; intros; congruence).
  assert (Hstore : appInfo (snd (storeAndGrant env c t info s)) = Some info).
  { unfold storeAndGrant.
    destruct (Js.ge (platformVersion c) "6.0"); [|reflexivity].
    change (sameAppInfo (setAppInfo info s)
              (snd (void (grantPermissions env t None (packageName c)
                            (requestedPermissions info))
                      (setAppInfo info s)))).
    apply (preserves_void sameAppInfo), (any_grantPermissions env sameAppInfo);
      easy. }
  unfold then_.
  destruct (storeAndGrant env c t info s) as [[u|e|e] s1]; cbn [snd] in *;
    auto.
  rewrite snd_settle.
  rewrite (any_launchAndWait env sameAppInfo t) by easy. exact Hstore.
Qed.

(** C9. [createSession] stores the capabilities of the request before
    anything else, so they are the stored ones whatever happens next,
    also when no command could be started at all. The stored metadata
    is replaced exactly when the chain gets as far as a parsed package
    info; when an earlier step fails, the metadata of the state before
    the request stays next to the new capabilities. *)
Theorem createSession_overwrites_state (env : Env) (cfg : Config)
  (req : Request) (s : State) :
  let s' := snd (createSession env cfg req s) in
  caps s' = req_desiredCapabilities req
  /\ match req_desiredCapabilities req with
     | CObj c =>
         match fst (discoverApp env c
                      (newTools env (sdkPath cfg) (deviceName c) (avdName c))
                      (setCaps (CObj c) s)) with
         | Returned info => appInfo s' = Some info
         | _ => appInfo s' = appInfo s
         end
     | _ => appInfo s' = appInfo s /\ trace s' = trace s
     end.
Proof.
  unfold createSession.
  destruct (req_desiredCapabilities req) as [| |c]; cbn [snd];
    [now repeat split | now repeat split|].
  rewrite snd_finish. split; [now rewrite bringUp_sameCaps|].
  rewrite bringUp_split.
  set (t := newTools env (sdkPath cfg) (deviceName c) (avdName c)).
  set (s0 := setCaps (CObj c) s).
  assert (Hd : appInfo (snd (discoverApp env c t s0)) = appInfo s).
  { change (appInfo s) with (appInfo s0).
    apply (any_discoverApp env sameAppInfo); unfold sameAppInfo; try easy.
    intros; congruence. }
  destruct (discoverApp env c t s0) as [[info|e|e] s1] eqn:Hrun;
    cbn [fst snd] in *.
  - rewrite (then_returned _ _ _ _ _ Hrun), snd_settle.
    apply afterDiscover_appInfo.
  - unfold then_. now rewrite Hrun.
  - unfold then_. now rewrite Hrun.
Qed.

(** A bring-up that fails at its first command, after an earlier
    session: the new capabilities next to the old package info. *)
Lemma createSession_overwrites_state_witness :
  caps (snd (createSession deadEnv testConfig otherRequest sessionState))
  = CObj otherCaps
  /\ appInfo (snd (createSession deadEnv testConfig otherRequest sessionState))
     = Some (mkAppInfo ["android.permission.RECORD_AUDIO";
                        "android.permission.USE_SIP"]).
Proof.
  destruct (createSession_overwrites_state deadEnv testConfig otherRequest
              sessionState) as [Hcaps Hinfo].
  split; [exact Hcaps | exact Hinfo].
Defined.

(** ** Reset without a session (C1) *)

(** C1, as the code has it. While the stored capabilities are still
    [null], [resetApp] fails at once and starts nothing, but the
    failure is the TypeError of reading [deviceName] from [null]:
    there is no dedicated error for the missing session. A reset
    request is answered with status 500 carrying that TypeError. *)
Theorem resetApp_without_session (env : Env) (cfg : Config) (req : Request)
  (s : State) :
  caps s = CNull ->
  resetApp env cfg req s = (Throws (TypeErrorRead JsNull "deviceName"), s)
  /\ (isPost req = true ->
      route_match env (sessionRoute cfg) (req_path req) = false ->
      route_match env (resetRoute cfg) (req_path req) = true ->
      dispatch env cfg req s
      = (Responds 500 (ErrorReport (TypeErrorRead JsNull "deviceName")), s)).
Proof.
  intros Hc.
  assert (Hr : resetApp env cfg req s
               = (Throws (TypeErrorRead JsNull "deviceName"), s))
    by (unfold resetApp; now rewrite Hc).
  split; [exact Hr|]. intros Hp Hs Hm.
  unfold dispatch. rewrite Hp, Hs, Hm. cbn [andb]. now rewrite Hr.
Qed.

Lemma resetApp_without_session_witness :
  dispatch (testEnv devicesOutput) testConfig resetRequest initialState
  = (Responds 500 (ErrorReport (TypeErrorRead JsNull "deviceName")),
     initialState).
Proof.
  apply (resetApp_without_session (testEnv devicesOutput) testConfig
           resetRequest initialState eq_refl); reflexivity.
Defined.

(** C1 as stated fails: the error reported for a reset before any
    session is a null reference fault. *)
Lemma reset_before_session_is_null_reference :
  exists e,
    dispatch (testEnv devicesOutput) testConfig resetRequest initialState
    = (Responds 500 (ErrorReport e), initialState)
    /\ isNullReference e = true.
Proof. exists (TypeErrorRead JsNull "deviceName"). split; reflexivity. Qed.

(** ** The proxy (C8) *)

(** The handlers behind the parser send a request that neither control
    route handles to the app server, once, and answer with what comes
    back. *)
Lemma dispatch_forwards (env : Env) (cfg : Config) (req : Request)
  (s : State) :
  isControl env cfg req = false ->
  let method := Js.toLowerCase (req_method req) in
  let url :=
    "http://localhost:" ++ Js.showN (localAppServerPort cfg) ++ req_path req in
  let body := Some (req_body req) in
  snd (dispatch env cfg req s) = extend [EvRequest method url body] s
  /\ fst (dispatch env cfg req s)
     = match yaquest env (trace s) method url body with
       | HttpResolved r => Responds (status r) (Payload (resBody r))
       | HttpRejected err =>
           match err_res err with
           | Some r => Responds (status r) (Payload (resBody r))
           | None => Responds 500 (ErrorReport err)
           end
       end.
Proof.
  intros Hc method url body. unfold isControl in Hc. unfold dispatch.
  destruct (isPost req); cbn [andb] in *.
  - apply orb_false_elim in Hc as [-> ->].
    unfold forwardRequestToAppServer, appServerUrl.
    fold method url body.
    destruct (yaquest env (trace s) method url body) as [r|err];
      [now split|].
    destruct (err_res err); now split.
  - unfold forwardRequestToAppServer, appServerUrl.
    fold method url body.
    destruct (yaquest env (trace s) method url body) as [r|err];
      [now split|].
    destruct (err_res err); now split.
Qed.

(** C8, as the code has it. The body of an inbound request goes
    through [bodyParser.json()] before anything else. When the parser
    passes an error on, the request is answered with status 500 and
    that error, and nothing is sent to the app server. Otherwise a
    request that neither control route handles is sent once to
    [http://localhost:<localAppServerPort><path>] with its method and
    with the body the parser has set, whatever the bytes of the inbound
    body were. A response of the app server is relayed with its status
    and body, also when yaquest reports it as an error that carries a
    response; a failure without a response is answered with status
    500. *)
Theorem proxy_relays (env : Env) (cfg : Config) (inbound : Inbound)
  (s : State) :
  let method := Js.toLowerCase (in_method inbound) in
  let url :=
    "http://localhost:" ++ Js.showN (localAppServerPort cfg)
    ++ in_path inbound in
  (forall err,
      bodyParser_json env inbound = ParseFailed err ->
      createExpress env cfg inbound s = (Responds 500 (ErrorReport err), s))
  /\ (forall parsed caps,
        bodyParser_json env inbound = BodySet parsed caps ->
        isControl env cfg (parsedRequest inbound parsed caps) = false ->
        let body := Some parsed in
        snd (createExpress env cfg inbound s)
        = extend [EvRequest method url body] s
        /\ fst (createExpress env cfg inbound s)
           = match yaquest env (trace s) method url body with
             | HttpResolved r => Responds (status r) (Payload (resBody r))
             | HttpRejected err =>
                 match err_res err with
                 | Some r => Responds (status r) (Payload (resBody r))
                 | None => Responds 500 (ErrorReport err)
                 end
             end).
Proof.
  intros method url. split.
  - intros err Hparse. unfold createExpress. now rewrite Hparse.
  - intros parsed caps Hparse Hc body. unfold createExpress. rewrite Hparse.
    exact (dispatch_forwards env cfg (parsedRequest inbound parsed caps) s Hc).
Qed.

Lemma proxy_relays_witness :
  createExpress (testEnv devicesOutput) testConfig elementsInbound
    initialState
  = (Responds 200 (Payload "{}"),
     extend [EvRequest "post"
               "http://localhost:6100/wd/hub/session/session-id/elements"
               (Some "{using: xpath, value: some selector}")]
            initialState)
  /\ createExpress (testEnv devicesOutput) testConfig malformedInbound
       initialState
     = (Responds 500
          (ErrorReport
             (External "Unexpected token h in JSON at position 0" None)),
        initialState).
Proof.
  split.
  - destruct (proj2 (proxy_relays (testEnv devicesOutput) testConfig
                       elementsInbound initialState)
                "{using: xpath, value: some selector}" CUndefined
                eq_refl eq_refl) as [H1 H2].
    rewrite (surjective_pairing (createExpress _ _ _ _)), H1, H2.
    reflexivity.
  - exact (proj1 (proxy_relays (testEnv devicesOutput) testConfig
                    malformedInbound initialState) _ eq_refl).
Defined.

(** C8 as stated fails: a body that is not declared as JSON is not
    forwarded as it came, the app server receives the empty object in
    its place; and a request whose JSON body does not parse is not
    forwarded at all. *)
Lemma unparsed_body_is_not_forwarded :
  isControl (testEnv devicesOutput) testConfig
    (parsedRequest plainTextInbound "{}" CUndefined) = false
  /\ (exists sent,
        issued initialState
          (snd (createExpress (testEnv devicesOutput) testConfig
                  plainTextInbound initialState))
        = [EvRequest "post"
             "http://localhost:6100/wd/hub/session/session-id/elements"
             (Some sent)]
        /\ sent <> in_payload plainTextInbound)
  /\ issued initialState
       (snd (createExpress (testEnv devicesOutput) testConfig
               malformedInbound initialState))
     = [].
Proof.
  split; [reflexivity|]. split; [|reflexivity].
  exists "{}". split; [reflexivity | discriminate].
Qed.

(** ** The two polling loops (C2) *)

Lemma execAdb_line env t cmd device line s :
  adbLine env t cmd = Some line ->
  Js.or device (t_deviceName t) = t_deviceName t ->
  execAdb env t cmd device s = exec env line s.
Proof.
  unfold adbLine, execAdb. intros H ->.
  destruct (Js.truthy (t_deviceName t)); [|discriminate].
  destruct (adbPath env t); [discriminate|]. now injection H as <-.
Qed.

Lemma execAdb_noline env t cmd device s :
  adbLine env t cmd = None ->
  Js.or device (t_deviceName t) = t_deviceName t ->
  exists e, execAdb env t cmd device s = (Thrown e, s).
Proof.
  unfold adbLine, execAdb. intros H ->.
  destruct (Js.truthy (t_deviceName t)); [|now eexists].
  destruct (adbPath env t); [now eexists | discriminate].
Qed.

Lemma probeBoot_run env t line s :
  adbLine env t "shell pm list packages" = Some line ->
  probeBoot env t s
  = (bootProbeOutcome env line (trace s), extend [EvExec line] s).
Proof.
  intros H. unfold probeBoot, listPackages, then_.
  rewrite (execAdb_line env t _ _ line s H) by apply or_or.
  unfold exec, bootProbeOutcome. rewrite log_extend.
  destruct (classify (child_exec env (trace s) line)) as [r|e|e];
    cbn [settle ret]; try reflexivity.
  now destruct (length (parsePackages (stdout r)) =? 0)%nat.
Qed.

Lemma probeBoot_noline env t s :
  adbLine env t "shell pm list packages" = None ->
  exists e, probeBoot env t s = (Thrown e, s).
Proof.
  intros H. unfold probeBoot, listPackages, then_.
  destruct (execAdb_noline env t "shell pm list packages"
              (Js.or None (t_deviceName t)) s H) as [e He];
    [apply or_or|].
  rewrite He. now exists e.
Qed.

Lemma waitUntilRunning_step env t attempt s :
  waitUntilRunning env t attempt s
  = match probeBoot env t s with
    | (Rejected err, s1) =>
        if (attempt <? 60)%nat
        then settle (waitUntilRunning env t (S attempt)
                       (log (EvSleep 1000) s1))
        else (Rejected err, s1)
    | other => other
    end.
Proof.
  simp waitUntilRunning.
  destruct (probeBoot env t s) as [[u|err|err] s1]; cbn -[Nat.ltb];
    try reflexivity.
  destruct (Nat.ltb_spec attempt 60) as [H|H];
    destruct (lt_dec attempt 60) as [H'|H']; try lia; reflexivity.
Qed.

Lemma waitForAppServerStart_step env cfg count s :
  waitForAppServerStart env cfg count s
  = let s2 := extend [EvSleep 200; EvRequest "get" (appServerUrl cfg "/ping")
                                     None] s in
    match pingOutcome env cfg (trace s ++ [EvSleep 200]) with
    | Rejected reason =>
        if (count <? 50)%nat
        then settle (waitForAppServerStart env cfg (S count) s2)
        else (Rejected reason, s2)
    | other => (other, s2)
    end.
Proof.
  assert (Hs2 : log (EvRequest "get" (appServerUrl cfg "/ping") None)
                   (log (EvSleep 200) s)
                 = extend [EvSleep 200;
                           EvRequest "get" (appServerUrl cfg "/ping") None] s)
    by (now rewrite !log_extend, extend_extend).
  simp waitForAppServerStart. unfold pingOutcome.
  change (trace (log (EvSleep 200) s)) with (trace s ++ [EvSleep 200])%list.
  destruct (yaquest env (trace s ++ [EvSleep 200]) "get"
              (appServerUrl cfg "/ping") None) as [r|reason];
    cbn -[appServerUrl Nat.ltb]; rewrite ?Hs2; try reflexivity.
  destruct (Nat.ltb_spec count 50) as [H|H];
    destruct (lt_dec count 50) as [H'|H']; try lia;
    cbn -[appServerUrl Nat.ltb]; rewrite ?Hs2; reflexivity.
Qed.

Lemma bootProbeOutcome_not_thrown env line tr e :
  bootProbeOutcome env line tr <> Thrown e.
Proof.
  unfold bootProbeOutcome.
  destruct (classify (child_exec env tr line)) as [r|e'|e'] eqn:Hc;
    [now destruct (length (parsePackages (stdout r)) =? 0)%nat
    | discriminate | now apply classify_not_thrown in Hc].
Qed.

Lemma pingOutcome_not_thrown env cfg tr e : pingOutcome env cfg tr <> Thrown e.
Proof.
  unfold pingOutcome.
  now destruct (yaquest env tr "get" (appServerUrl cfg "/ping") None).
Qed.

Section NeverReady.

Variable env : Env.

(** The device never answers with a non-empty package list. *)
Lemma waitUntilRunning_never_ready t line :
  adbLine env t "shell pm list packages" = Some line ->
  (forall tr, isFailure (bootProbeOutcome env line tr) = true) ->
  forall k attempt s,
    attempt + k = 60 ->
    let before := concat (repeat [EvExec line; EvSleep 1000] k) in
    waitUntilRunning env t attempt s
    = (bootProbeOutcome env line (trace s ++ before),
       extend (before ++ [EvExec line]) s).
Proof.
  intros Hline Hnever k.
  induction k as [|k IH]; intros attempt s Hk before;
    rewrite waitUntilRunning_step, (probeBoot_run env t line s Hline).
  - subst before. cbn [repeat concat List.app]. rewrite app_nil_r.
    specialize (Hnever (trace s)).
    destruct (bootProbeOutcome env line (trace s)) as [u|e|e] eqn:Ho;
      [discriminate | | reflexivity].
    replace (attempt <? 60)%nat with false; [reflexivity|].
    symmetry. apply Nat.ltb_ge. lia.
  - pose proof (Hnever (trace s)) as Hfail.
    destruct (bootProbeOutcome env line (trace s)) as [u|e|e] eqn:Ho;
      [discriminate | | now apply bootProbeOutcome_not_thrown in Ho].
    replace (attempt <? 60)%nat with true
      by (symmetry; apply Nat.ltb_lt; lia).
    rewrite log_extend, extend_extend.
    rewrite (IH (S attempt)) by lia.
    rewrite settle_not_thrown
      by (intros e'; apply bootProbeOutcome_not_thrown).
    rewrite extend_extend. subst before.
    cbn [repeat concat extend trace]. now rewrite <- !app_assoc.
Qed.

(** The app server never answers the ping. *)
Lemma waitForAppServerStart_never_ready cfg :
  (forall tr, isFailure (pingOutcome env cfg tr) = true) ->
  forall k count s,
    count + k = 50 ->
    let round := [EvSleep 200;
                  EvRequest "get" (appServerUrl cfg "/ping") None] in
    let before := concat (repeat round k) in
    waitForAppServerStart env cfg count s
    = (pingOutcome env cfg (trace s ++ before ++ [EvSleep 200]),
       extend (before ++ round) s).
Proof.
  intros Hnever k.
  induction k as [|k IH]; intros count s Hk round before;
    rewrite waitForAppServerStart_step; cbv zeta.
  - subst before round. cbn [repeat concat]. rewrite !app_nil_l.
    specialize (Hnever (trace s ++ [EvSleep 200])%list).
    destruct (pingOutcome env cfg (trace s ++ [EvSleep 200]))
      as [u|e|e] eqn:Ho; [discriminate | | reflexivity].
    replace (count <? 50)%nat with false; [reflexivity|].
    symmetry. apply Nat.ltb_ge. lia.
  - pose proof (Hnever (trace s ++ [EvSleep 200])%list) as Hfail.
    destruct (pingOutcome env cfg (trace s ++ [EvSleep 200]))
      as [u|e|e] eqn:Ho;
      [discriminate | | now apply pingOutcome_not_thrown in Ho].
    replace (count <? 50)%nat with true
      by (symmetry; apply Nat.ltb_lt; lia).
    rewrite (IH (S count)) by lia.
    rewrite settle_not_thrown
      by (intros e'; apply pingOutcome_not_thrown).
    rewrite extend_extend. subst before round.
    cbn [repeat concat extend trace]. now rewrite <- !app_assoc.
Qed.

(** Whatever the environment does, the loops are bounded. *)
Lemma waitUntilRunning_bound t :
  forall k attempt s,
    60 - attempt <= k ->
    exists evs,
      snd (waitUntilRunning env t attempt s) = extend evs s
      /\ length (filter isExec evs) <= S k.
Proof.
  induction k as [|k IH]; intros attempt s Hk;
    rewrite waitUntilRunning_step;
    (destruct (adbLine env t "shell pm list packages") as [line|] eqn:Hline;
     [rewrite (probeBoot_run env t line s Hline)
     |destruct (probeBoot_noline env t s Hline) as [e ->];
      exists []; rewrite extend_nil; cbn; split; [reflexivity | lia]]);
    (destruct (bootProbeOutcome env line (trace s)) as [u|e|e];
     [exists [EvExec line]; cbn; split; [reflexivity | lia]
     | | exists [EvExec line]; cbn; split; [reflexivity | lia]]).
  - replace (attempt <? 60)%nat with false
      by (symmetry; apply Nat.ltb_ge; lia).
    exists [EvExec line]; cbn; split; [reflexivity | lia].
  - destruct (attempt <? 60)%nat eqn:Hlt;
      [|exists [EvExec line]; cbn; split; [reflexivity | lia]].
    apply Nat.ltb_lt in Hlt. rewrite snd_settle, log_extend, extend_extend.
    destruct (IH (S attempt) (extend ([EvExec line] ++ [EvSleep 1000]) s))
      as (evs & Hevs & Hlen); [lia|].
    exists (([EvExec line] ++ [EvSleep 1000]) ++ evs)%list.
    rewrite Hevs, extend_extend. split; [reflexivity|].
    rewrite filter_app. cbn. lia.
Qed.

Lemma waitForAppServerStart_bound cfg :
  forall k count s,
    50 - count <= k ->
    exists evs,
      snd (waitForAppServerStart env cfg count s) = extend evs s
      /\ length (filter isRequest evs) <= S k.
Proof.
  induction k as [|k IH]; intros count s Hk;
    rewrite waitForAppServerStart_step; cbv zeta;
    set (round := [EvSleep 200;
                   EvRequest "get" (appServerUrl cfg "/ping") None]);
    (destruct (pingOutcome env cfg (trace s ++ [EvSleep 200])) as [u|e|e];
     [exists round; cbn; split; [reflexivity | lia]
     | | exists round; cbn; split; [reflexivity | lia]]).
  - replace (count <? 50)%nat with false
      by (symmetry; apply Nat.ltb_ge; lia).
    exists round; cbn; split; [reflexivity | lia].
  - destruct (count <? 50)%nat eqn:Hlt;
      [|exists round; cbn; split; [reflexivity | lia]].
    apply Nat.ltb_lt in Hlt. rewrite snd_settle.
    destruct (IH (S count) (extend round s)) as (evs & Hevs & Hlen); [lia|].
    exists (round ++ evs)%list.
    rewrite Hevs, extend_extend. split; [reflexivity|].
    rewrite filter_app. cbn. lia.
Qed.

End NeverReady.

(** C2, as the code has it. The retry test is made after a failed
    round, [attempt < 60] and [count < 50], with the counter starting
    at 0: a device that never lists a package is asked 61 times, the
    rounds one second apart; an app server that never answers is
    pinged 51 times, each ping 200 ms after the previous round. Then
    the loop stops and its promise is rejected with the failure of the
    last round. No environment makes either loop probe more often. *)
Theorem pollers_probe_bound_plus_one (env : Env) :
  (forall t line s,
      adbLine env t "shell pm list packages" = Some line ->
      (forall tr, isFailure (bootProbeOutcome env line tr) = true) ->
      let before := concat (repeat [EvExec line; EvSleep 1000] 60) in
      waitUntilRunning env t 0 s
      = (bootProbeOutcome env line (trace s ++ before),
         extend (before ++ [EvExec line]) s)
      /\ length (filter isExec (before ++ [EvExec line])) = 61)
  /\ (forall cfg s,
      (forall tr, isFailure (pingOutcome env cfg tr) = true) ->
      let round := [EvSleep 200;
                    EvRequest "get" (appServerUrl cfg "/ping") None] in
      let before := concat (repeat round 50) in
      waitForAppServerStart env cfg 0 s
      = (pingOutcome env cfg (trace s ++ before ++ [EvSleep 200]),
         extend (before ++ round) s)
      /\ length (filter isRequest (before ++ round)) = 51)
  /\ (forall t s,
      length (filter isExec (issued s (snd (waitUntilRunning env t 0 s))))
      <= 61)
  /\ (forall cfg s,
      length (filter isRequest
                (issued s (snd (waitForAppServerStart env cfg 0 s))))
      <= 51).
Proof.
  split; [|split; [|split]].
  - intros t line s Hline Hnever before. split; [|reflexivity].
    now apply (waitUntilRunning_never_ready env t line Hline Hnever 60 0 s).
  - intros cfg s Hnever round before. split; [|reflexivity].
    now apply (waitForAppServerStart_never_ready env cfg Hnever 50 0 s).
  - intros t s.
    destruct (waitUntilRunning_bound env t 60 0 s) as (evs & -> & Hlen);
      [lia|]. now rewrite issued_extend.
  - intros cfg s.
    destruct (waitForAppServerStart_bound env cfg 50 0 s)
      as (evs & -> & Hlen); [lia|]. now rewrite issued_extend.
Qed.

Lemma pollers_probe_bound_plus_one_witness :
  length (filter isExec
            (issued initialState
               (snd (waitUntilRunning deadEnv testTools 0 initialState))))
  = 61.
Proof.
  destruct (pollers_probe_bound_plus_one deadEnv) as (Hboot & _).
  destruct (Hboot testTools (testAdb ++ "shell pm list packages")
              initialState eq_refl (fun _ => eq_refl)) as [Hrun Hcount].
  rewrite Hrun. cbn [snd]. rewrite issued_extend. exact Hcount.
Defined.

(** C2 as stated fails: with a device that never boots and an app
    server that never answers, the probes are invoked 61 and 51 times,
    not 60 and 50. *)
Lemma never_ready_probe_counts :
  length (filter isExec
            (issued initialState
               (snd (startDevice deadEnv testTools None initialState))))
  = 61
  /\ length (filter isRequest
               (issued initialState
                  (snd (waitForAppServerStart deadEnv testConfig 0
                          initialState))))
     = 51.
Proof. split; vm_compute; reflexivity. Qed.

(** ** The emulator is spawned for an absent device only (C5) *)

Lemma bringUp_split_devices env cfg c cmd s :
  bringUp env cfg c cmd s
  = (listRunningDevices env cmd
     >>then (fun running =>
               (if negb (Js.includes running (deviceName c))
                then startDevice env cmd None
                else ret tt)
               >>then (fun _ => installAndFinish env cfg c cmd))) s.
Proof. unfold bringUp, discoverApp. rewrite 6 then_assoc. reflexivity. Qed.

Lemma listRunningDevices_run env t line s :
  adbLine env t "devices" = Some line ->
  listRunningDevices env t s
  = (match classify (child_exec env (trace s) line) with
     | Returned r => Returned (parseDevices (stdout r))
     | Rejected e => Rejected e
     | Thrown e => Thrown e
     end, extend [EvExec line] s).
Proof.
  intros H. unfold listRunningDevices, then_.
  rewrite (execAdb_line env t _ _ line s H) by reflexivity.
  unfold exec. rewrite log_extend.
  now destruct (classify (child_exec env (trace s) line)).
Qed.

Lemma adbLine_sdk env t cmd line :
  adbLine env t cmd = Some line -> exists sdk, t_sdkPath t = Some sdk.
Proof.
  unfold adbLine, adbPath, toolPath.
  destruct (Js.truthy (t_deviceName t)); [|discriminate].
  destruct (t_sdkPath t) as [sdk|]; [now exists sdk | discriminate].
Qed.

Lemma adbLine_none env t cmd cmd' :
  adbLine env t cmd = None -> adbLine env t cmd' = None.
Proof.
  unfold adbLine. destruct (Js.truthy (t_deviceName t)); [|reflexivity].
  now destruct (adbPath env t).
Qed.

Section Quiet.

Variable env : Env.
Variable F : Event -> bool.
Variable t : Tools.

Hypothesis F_exec : forall line, F (EvExec line) = false.
Hypothesis F_sleep : forall ms, F (EvSleep ms) = false.
Hypothesis F_request : forall m u b, F (EvRequest m u b) = false.

Lemma quiet_waitUntilRunning attempt :
  preservesRel (quiet F) (waitUntilRunning env t attempt).
Proof.
  apply (preserves_waitUntilRunning env (quiet F) (fun ev => F ev = false)
           (fun _ => true));
    cbn beta; intros; auto using quiet_refl, quiet_log;
    eapply quiet_trans; eassumption.
Qed.

Lemma quiet_installAndFinish cfg c :
  preservesRel (quiet F) (installAndFinish env cfg c t).
Proof.
  apply (preserves_installAndFinish env (quiet F) (fun ev => F ev = false)
           (fun _ => true));
    cbn beta; intros; auto using quiet_refl, quiet_log.
  all: try (eapply quiet_trans; eassumption).
  apply quiet_setAppInfo.
Qed.

End Quiet.

Lemma quiet_extend_issued F s0 s evs s' :
  trace s0 = trace s ->
  quiet F (extend evs s0) s' ->
  exists rest, issued s s' = (evs ++ rest)%list /\ filter F rest = [].
Proof.
  intros H0 (rest & Htr & HF). exists rest. split; [|exact HF].
  apply issued_app. rewrite Htr. cbn [extend trace].
  now rewrite H0, app_assoc.
Qed.

(** C5. When the [devices] query of a bring-up succeeds and lists the
    target device, no emulator process is spawned during the whole
    bring-up. When it succeeds and does not list the device, exactly
    one emulator process is spawned, with the configured image, right
    after the query and before any other step. When the query fails,
    nothing is spawned. *)
Theorem emulator_spawned_iff_absent (env : Env) (cfg : Config)
  (req : Request) (c : Caps) (s : State) :
  req_desiredCapabilities req = CObj c ->
  let cmd := newTools env (sdkPath cfg) (deviceName c) (avdName c) in
  let s' := snd (createSession env cfg req s) in
  match fst (listRunningDevices env cmd (setCaps (CObj c) s)) with
  | Returned running =>
      if Js.includes running (deviceName c)
      then filter isSpawn (issued s s') = []
      else exists rest,
          issued s s'
          = adbEvent env cmd "devices" :: emulatorSpawn env cmd :: rest
          /\ filter isSpawn rest = []
  | _ => filter isSpawn (issued s s') = []
  end.
Proof.
  intros Hreq cmd s'. subst s'. unfold createSession. rewrite Hreq.
  fold cmd. rewrite snd_finish, bringUp_split_devices.
  set (s0 := setCaps (CObj c) s).
  assert (Hs0 : trace s0 = trace s) by reflexivity.
  destruct (adbLine env cmd "devices") as [line|] eqn:Hline.
  2:{ destruct (execAdb_noline env cmd "devices" None s0 Hline eq_refl)
        as [e He].
      assert (Hl : listRunningDevices env cmd s0 = (Thrown e, s0))
        by (unfold listRunningDevices, then_; now rewrite He).
      rewrite (then_thrown _ _ _ _ Hl), Hl. cbn [fst snd].
      unfold issued. rewrite Hs0, skipn_all. reflexivity. }
  rewrite (then_unfold (listRunningDevices env cmd)).
  rewrite (listRunningDevices_run env cmd line s0 Hline).
  cbn [fst].
  destruct (classify (child_exec env (trace s0) line)) as [r|e|e];
    cbn [snd];
    try (rewrite (issued_app s _ [EvExec line]) by (now rewrite <- Hs0);
         reflexivity).
  rewrite snd_settle.
  destruct (Js.includes (parseDevices (stdout r)) (deviceName c)) eqn:Hin;
    cbn [negb].
  - assert (Hq : quiet isSpawn (extend [EvExec line] s0)
                   (snd ((ret tt >>then
                          (fun _ => installAndFinish env cfg c cmd))
                           (extend [EvExec line] s0)))).
    { apply (preserves_then (quiet isSpawn) (quiet_trans isSpawn));
        [intros s1; apply quiet_refl
        |intros _; now apply quiet_installAndFinish]. }
    destruct (quiet_extend_issued _ _ _ _ _ Hs0 Hq) as (rest & -> & Hrest).
    now rewrite filter_app, Hrest.
  - destruct (adbLine_sdk env cmd _ _ Hline) as [sdk Hsdk].
    assert (Hstart : forall s1,
               startDevice env cmd None s1
               = waitUntilRunning env cmd 0
                   (extend [emulatorSpawn env cmd] s1)).
    { intros s1. unfold startDevice, emulatorPath, toolPath, emulatorSpawn.
      rewrite Hsdk. cbn [spawn Js.show]. now rewrite or_none, or_idem. }
    assert (Hq : quiet isSpawn
                   (extend ([EvExec line] ++ [emulatorSpawn env cmd]) s0)
                   (snd ((startDevice env cmd None
                          >>then (fun _ => installAndFinish env cfg c cmd))
                           (extend [EvExec line] s0)))).
    { unfold then_. rewrite Hstart, extend_extend.
      assert (Hw : preservesRel (quiet isSpawn)
                     (waitUntilRunning env cmd 0))
        by (now apply quiet_waitUntilRunning).
      specialize (Hw (extend ([EvExec line] ++ [emulatorSpawn env cmd]) s0)).
      destruct (waitUntilRunning env cmd 0 _) as [[u|e|e] s2];
        cbn [snd] in *; auto.
      rewrite snd_settle. eapply quiet_trans; [exact Hw|].
      now apply quiet_installAndFinish. }
    destruct (quiet_extend_issued _ _ _ _ _ Hs0 Hq) as (rest & Hi & Hrest).
    exists rest. split; [|exact Hrest].
    rewrite Hi. unfold adbEvent. now rewrite Hline.
Qed.

Lemma emulator_spawned_iff_absent_witness :
  filter isSpawn
    (issued initialState
       (snd (createSession (testEnv devicesOutput) testConfig sessionRequest
               initialState)))
  = []
  /\ exists rest,
      issued initialState
        (snd (createSession (testEnv otherDeviceOutput) testConfig
                sessionRequest initialState))
      = EvExec (testAdb ++ "devices")
        :: EvSpawn "/foo/bar/emulator/emulator"
             [Some "-avd"; Some "super-duper-avd"] "ignore"
        :: rest
      /\ filter isSpawn rest = [].
Proof.
  split.
  - exact (emulator_spawned_iff_absent (testEnv devicesOutput) testConfig
             sessionRequest testCaps initialState eq_refl).
  - exact (emulator_spawned_iff_absent (testEnv otherDeviceOutput) testConfig
             sessionRequest testCaps initialState eq_refl).
Defined.

(** ** The grants (C3) *)

Lemma prefix_app_same x a b :
  String.prefix (x ++ a) (x ++ b) = String.prefix a b.
Proof.
  induction x as [|ch x IH]; [reflexivity|].
  cbn [String.append String.prefix].
  destruct (ascii_dec ch ch) as [_|Hne]; [exact IH | now destruct Hne].
Qed.

Lemma prefix_app_self x y : String.prefix x (x ++ y) = true.
Proof.
  induction x as [|ch x IH]; [apply prefix_empty|].
  cbn [String.append String.prefix].
  destruct (ascii_dec ch ch) as [_|Hne]; [exact IH | now destruct Hne].
Qed.

Lemma prefix_line adb device a b :
  String.prefix (adb ++ " -s " ++ device ++ " " ++ a)
                (adb ++ " -s " ++ device ++ " " ++ b)
  = String.prefix a b.
Proof. now rewrite !prefix_app_same. Qed.

Lemma isGrant_adbLine env t cmd line :
  adbLine env t cmd = Some line ->
  isGrant env t (EvExec line) = String.prefix "shell pm grant " cmd.
Proof.
  unfold isGrant, adbLine.
  destruct (Js.truthy (t_deviceName t)); [|discriminate].
  destruct (adbPath env t) as [e|adb]; [discriminate|].
  intros H. injection H as <-. exact (prefix_line adb _ _ _).
Qed.

Lemma isGrant_grantCmd package permission :
  String.prefix "shell pm grant " (grantCmd package permission) = true.
Proof. unfold grantCmd. apply prefix_app_self. Qed.

Lemma adbLine_event env t cmd line :
  adbLine env t cmd = Some line -> adbEvent env t cmd = EvExec line.
Proof. unfold adbEvent. now intros ->. Qed.

Lemma adbLine_any env t cmd line cmd' :
  adbLine env t cmd = Some line -> exists line', adbLine env t cmd' = Some line'.
Proof.
  unfold adbLine. destruct (Js.truthy (t_deviceName t)); [|discriminate].
  destruct (adbPath env t); [discriminate | now eexists].
Qed.

Lemma startAll_grants env t package line0 :
  adbLine env t "devices" = Some line0 ->
  forall permissions s,
  exists ps,
    startAll (map (fun permission =>
                     execAdb env t (grantCmd package permission)
                       (Js.or None (t_deviceName t)))
                  permissions) s
    = (Returned ps,
       extend (map (fun permission =>
                      adbEvent env t (grantCmd package permission))
                   permissions) s)
    /\ rejections ps
       = rejections
           (startedOutcomes env
              (map (fun permission =>
                      match adbLine env t (grantCmd package permission) with
                      | Some l => l
                      | None => ""
                      end) permissions)
              (trace s)).
Proof.
  intros H0. induction permissions as [|p ps IH]; intros s.
  - exists []. cbn. now rewrite extend_nil.
  - cbn [map startAll startedOutcomes].
    destruct (adbLine_any env t _ _ (grantCmd package p) H0) as [line Hl].
    rewrite (execAdb_line env t _ _ line s Hl) by apply or_or.
    rewrite (adbLine_event env t _ _ Hl), Hl.
    unfold exec. rewrite log_extend.
    destruct (IH (extend [EvExec line] s)) as (qs & -> & Hqs).
    rewrite extend_extend. cbn [extend trace] in Hqs.
    destruct (classify (child_exec env (trace s) line)) as [r|e|e] eqn:Hc;
      [| |now apply classify_not_thrown in Hc];
      eexists; (split; [reflexivity|]); cbn [rejections]; now rewrite Hqs.
Qed.

Lemma grantPermissions_events env t package permissions line0 s :
  adbLine env t "devices" = Some line0 ->
  snd (grantPermissions env t None package permissions s)
  = extend (map (fun permission =>
                   adbEvent env t (grantCmd package permission))
                (filter isDangerous permissions)) s.
Proof.
  intros H0. unfold grantPermissions.
  destruct (startAll_grants env t package line0 H0
              (filter isDangerous permissions) s) as (ps & -> & _).
  unfold promiseAll. now destruct (rejections ps).
Qed.

Section QuietGrant.

Variable env : Env.
Variable t : Tools.

Let allowedCmd (cmd : string) : bool :=
  negb (String.prefix "shell pm grant " cmd).

Let Rg := quiet (isGrant env t).
Let Qg := fun ev => isGrant env t ev = false.

Lemma Qg_adb cmd line :
  allowedCmd cmd = true -> adbLine env t cmd = Some line -> Qg (EvExec line).
Proof.
  unfold allowedCmd, Qg. intros Hc Hl.
  rewrite (isGrant_adbLine env t cmd line Hl).
  now destruct (String.prefix "shell pm grant " cmd).
Qed.

Lemma nogrant_discoverApp c : preservesRel Rg (discoverApp env c t).
Proof.
  apply (preserves_discoverApp env Rg Qg allowedCmd t);
    try reflexivity;
    try (intros; apply quiet_refl);
    try (intros; eapply quiet_trans; eassumption);
    try (intros; now apply quiet_log);
    apply Qg_adb.
Qed.

Lemma nogrant_clearApp package :
  preservesRel Rg (clearApp env t (t_deviceName t) package).
Proof.
  apply (preserves_clearApp env Rg Qg allowedCmd t);
    try reflexivity;
    try (intros; apply quiet_refl);
    try (intros; now apply quiet_log);
    apply Qg_adb.
Qed.

Lemma nogrant_launchAndWait cfg c : preservesRel Rg (launchAndWait env cfg c t).
Proof.
  apply (preserves_launchAndWait env Rg Qg allowedCmd t);
    try reflexivity;
    try (intros; apply quiet_refl);
    try (intros; eapply quiet_trans; eassumption);
    try (intros; now apply quiet_log);
    apply Qg_adb.
Qed.

Lemma nogrant_relaunchAndWait cfg c :
  preservesRel Rg (relaunchAndWait env cfg c t).
Proof.
  apply (preserves_relaunchAndWait env Rg Qg allowedCmd t);
    try reflexivity;
    try (intros; apply quiet_refl);
    try (intros; eapply quiet_trans; eassumption);
    try (intros; now apply quiet_log);
    apply Qg_adb.
Qed.

Lemma filter_expectedGrants c info line0 :
  adbLine env t "devices" = Some line0 ->
  filter (isGrant env t) (expectedGrants env t c info)
  = expectedGrants env t c info.
Proof.
  intros H0. unfold expectedGrants.
  destruct (Js.ge (platformVersion c) "6.0"); [|reflexivity].
  induction (filter isDangerous (requestedPermissions info)) as [|p ps IH];
    [reflexivity|].
  cbn [map filter].
  destruct (adbLine_any env t _ _ (grantCmd (packageName c) p) H0)
    as [line Hl].
  rewrite (adbLine_event env t _ _ Hl), (isGrant_adbLine env t _ _ Hl),
    isGrant_grantCmd.
  now rewrite IH.
Qed.

End QuietGrant.

Lemma snd_void {A} (p : M A) s : snd (void p s) = snd (p s).
Proof. unfold void. now destruct (p s) as [[a|e|e] s1]. Qed.

Lemma storeAndGrant_events env c t info line0 s :
  adbLine env t "devices" = Some line0 ->
  trace (snd (storeAndGrant env c t info s))
  = (trace s ++ expectedGrants env t c info)%list.
Proof.
  intros H0. unfold storeAndGrant, expectedGrants.
  destruct (Js.ge (platformVersion c) "6.0").
  - now rewrite snd_void, (grantPermissions_events env t _ _ line0 _ H0).
  - cbn. now rewrite app_nil_r.
Qed.

Lemma regrant_events env c t info line0 s :
  adbLine env t "devices" = Some line0 ->
  trace (snd (regrant env c info t s))
  = (trace s ++ match info with
                | Some i => expectedGrants env t c i
                | None => []
                end)%list.
Proof.
  intros H0. unfold regrant, expectedGrants.
  destruct (Js.ge (platformVersion c) "6.0"), info as [i|];
    try (cbn; now rewrite app_nil_r).
  now rewrite snd_void, (grantPermissions_events env t _ _ line0 _ H0).
Qed.

Lemma discoverApp_returned_line env c t s info :
  fst (discoverApp env c t s) = Returned info ->
  exists line, adbLine env t "devices" = Some line.
Proof.
  destruct (adbLine env t "devices") as [line|] eqn:Hl; [now exists line|].
  destruct (execAdb_noline env t "devices" None s Hl eq_refl) as [e He].
  unfold discoverApp, listRunningDevices.
  now rewrite (then_thrown _ _ _ _
                 (then_thrown _ _ _ _
                    (then_thrown _ _ _ _ (then_thrown _ _ _ _ He)))).
Qed.

Lemma clearApp_returned_line env t package s r :
  fst (clearApp env t (t_deviceName t) package s) = Returned r ->
  exists line, adbLine env t "devices" = Some line.
Proof.
  destruct (adbLine env t "devices") as [line|] eqn:Hl; [now exists line|].
  unfold clearApp.
  destruct (execAdb_noline env t ("shell pm clear " ++ Js.show package)
              (Js.or (t_deviceName t) (t_deviceName t)) s
              (adbLine_none env t _ _ Hl)) as [e He];
    [now rewrite or_or, or_idem|].
  now rewrite He.
Qed.

Lemma filter_issued_three F s s0 s1 s2 s3 mid :
  trace s0 = trace s ->
  quiet F s0 s1 ->
  trace s2 = (trace s1 ++ mid)%list ->
  quiet F s2 s3 ->
  filter F (issued s s3) = filter F mid.
Proof.
  intros H0 (e1 & H1 & F1) H2 (e3 & H3 & F3).
  rewrite (issued_app s s3 (e1 ++ mid ++ e3)%list).
  - now rewrite !filter_app, F1, F3, app_nil_r.
  - now rewrite H3, H2, H1, H0, <- !app_assoc.
Qed.

Lemma isDangerous_In p : isDangerous p = true <-> In p DANGEROUS_PERMISSIONS.
Proof.
  unfold isDangerous, Js.includes. rewrite existsb_exists. split.
  - intros (x & Hin & Heq). apply String.eqb_eq in Heq. now subst.
  - intros Hin. exists p. split; [exact Hin | apply String.eqb_refl].
Qed.

Lemma createSession_grants env cfg req c s :
  req_desiredCapabilities req = CObj c ->
  filter (isGrant env (newTools env (sdkPath cfg) (deviceName c) (avdName c)))
         (issued s (snd (createSession env cfg req s)))
  = match fst (discoverApp env c
                 (newTools env (sdkPath cfg) (deviceName c) (avdName c))
                 (setCaps (CObj c) s)) with
    | Returned info =>
        expectedGrants env
          (newTools env (sdkPath cfg) (deviceName c) (avdName c)) c info
    | _ => []
    end.
Proof.
  intros Hreq. unfold createSession. rewrite Hreq.
  set (cmd := newTools env (sdkPath cfg) (deviceName c) (avdName c)).
  set (s0 := setCaps (CObj c) s).
  assert (Hs0 : trace s0 = trace s) by reflexivity.
  rewrite snd_finish, bringUp_split, (then_unfold (discoverApp env c cmd)).
  pose proof (nogrant_discoverApp env cmd c s0) as Hq.
  destruct (discoverApp env c cmd s0) as [[info|e|e] s1] eqn:Hd;
    cbn [fst snd] in *;
    try (rewrite (filter_issued_three _ s s0 s1 s1 s1 [] Hs0 Hq);
         [reflexivity | now rewrite app_nil_r | apply quiet_refl]).
  destruct (discoverApp_returned_line env c cmd s0 info) as [line0 H0];
    [now rewrite Hd|].
  rewrite snd_settle, (then_unfold (storeAndGrant env c cmd info)).
  pose proof (storeAndGrant_events env c cmd info line0 s1 H0) as Hev.
  destruct (storeAndGrant env c cmd info s1) as [[u|e|e] s2];
    cbn [snd] in *.
  - rewrite snd_settle.
    rewrite (filter_issued_three _ s s0 s1 s2 _ _ Hs0 Hq Hev
               (nogrant_launchAndWait env cmd cfg c s2)).
    now apply filter_expectedGrants with (line0 := line0).
  - rewrite (filter_issued_three _ s s0 s1 s2 _ _ Hs0 Hq Hev
               (quiet_refl _ s2)).
    now apply filter_expectedGrants with (line0 := line0).
  - rewrite (filter_issued_three _ s s0 s1 s2 _ _ Hs0 Hq Hev
               (quiet_refl _ s2)).
    now apply filter_expectedGrants with (line0 := line0).
Qed.

Lemma resetApp_grants env cfg req c s :
  caps s = CObj c ->
  filter (isGrant env (newTools env (sdkPath cfg) (deviceName c) (avdName c)))
         (issued s (snd (resetApp env cfg req s)))
  = match fst (clearApp env
                 (newTools env (sdkPath cfg) (deviceName c) (avdName c))
                 (deviceName c) (packageName c) s), appInfo s with
    | Returned _, Some info =>
        expectedGrants env
          (newTools env (sdkPath cfg) (deviceName c) (avdName c)) c info
    | _, _ => []
    end.
Proof.
  intros Hc. unfold resetApp. rewrite Hc.
  set (cmd := newTools env (sdkPath cfg) (deviceName c) (avdName c)).
  rewrite snd_finish, resetSteps_split,
    (then_unfold (clearApp env cmd (deviceName c) (packageName c))).
  pose proof (nogrant_clearApp env cmd (packageName c) s) as Hq.
  change (t_deviceName cmd) with (deviceName c) in Hq.
  destruct (clearApp env cmd (deviceName c) (packageName c) s)
    as [[r|e|e] s1] eqn:Hd; cbn [fst snd] in *;
    try (rewrite (filter_issued_three _ s s s1 s1 s1 [] eq_refl Hq);
         [reflexivity | now rewrite app_nil_r | apply quiet_refl]).
  destruct (clearApp_returned_line env cmd (packageName c) s r) as [line0 H0];
    [change (t_deviceName cmd) with (deviceName c); now rewrite Hd|].
  rewrite snd_settle, (then_unfold (regrant env c (appInfo s) cmd)).
  pose proof (regrant_events env c cmd (appInfo s) line0 s1 H0) as Hev.
  assert (Hf : filter (isGrant env cmd)
                 match appInfo s with
                 | Some i => expectedGrants env cmd c i
                 | None => []
                 end
               = match appInfo s with
                 | Some i => expectedGrants env cmd c i
                 | None => []
                 end).
  { destruct (appInfo s); [|reflexivity].
    now apply filter_expectedGrants with (line0 := line0). }
  destruct (regrant env c (appInfo s) cmd s1) as [[u|e|e] s2];
    cbn [snd] in *.
  - rewrite snd_settle.
    now rewrite (filter_issued_three _ s s s1 s2 _ _ eq_refl Hq Hev
                   (nogrant_relaunchAndWait env cmd cfg c s2)).
  - now rewrite (filter_issued_three _ s s s1 s2 _ _ eq_refl Hq Hev
                   (quiet_refl _ s2)).
  - now rewrite (filter_issued_three _ s s s1 s2 _ _ eq_refl Hq Hev
                   (quiet_refl _ s2)).
Qed.

(** C3. In a bring-up that gets as far as the parsed package info, and
    in a reset whose [clearApp] succeeded, the grant commands that are
    run are the following. With a [platformVersion] string that
    compares [>= "6.0"] code unit by code unit: one grant per requested
    permission of the stored package info that is in
    [DANGEROUS_PERMISSIONS], so as a set the intersection of the two;
    the code starts them in the order of the request. With any other
    [platformVersion], "10.0" among them: none. A chain that fails
    earlier runs no grant either. *)
Theorem grants_are_requested_dangerous (env : Env) (cfg : Config) :
  Js.ge (Some "10.0") "6.0" = false
  /\ (forall info permission,
        In permission (filter isDangerous (requestedPermissions info))
        <-> In permission (requestedPermissions info)
            /\ In permission DANGEROUS_PERMISSIONS)
  /\ (forall t c info,
        expectedGrants env t c info
        = if Js.ge (platformVersion c) "6.0"
          then map (fun permission =>
                      adbEvent env t (grantCmd (packageName c) permission))
                   (filter isDangerous (requestedPermissions info))
          else [])
  /\ (forall req c s,
        req_desiredCapabilities req = CObj c ->
        let cmd := newTools env (sdkPath cfg) (deviceName c) (avdName c) in
        filter (isGrant env cmd) (issued s (snd (createSession env cfg req s)))
        = match fst (discoverApp env c cmd (setCaps (CObj c) s)) with
          | Returned info => expectedGrants env cmd c info
          | _ => []
          end)
  /\ (forall req c s,
        caps s = CObj c ->
        let cmd := newTools env (sdkPath cfg) (deviceName c) (avdName c) in
        filter (isGrant env cmd) (issued s (snd (resetApp env cfg req s)))
        = match fst (clearApp env cmd (deviceName c) (packageName c) s),
                appInfo s with
          | Returned _, Some info => expectedGrants env cmd c info
          | _, _ => []
          end).
Proof.
  split; [reflexivity|]. split; [|split; [reflexivity|split]].
  - intros info p. rewrite filter_In, isDangerous_In. tauto.
  - intros req c s Hreq cmd. now apply createSession_grants.
  - intros req c s Hc cmd. now apply resetApp_grants.
Qed.

Lemma grants_are_requested_dangerous_witness :
  filter (isGrant (testEnv devicesOutput) testTools)
    (issued initialState
       (snd (createSession (testEnv devicesOutput) testConfig sessionRequest
               initialState)))
  = [EvExec (testAdb ++ "shell pm grant fi.foo.bar "
             ++ "android.permission.RECORD_AUDIO");
     EvExec (testAdb ++ "shell pm grant fi.foo.bar "
             ++ "android.permission.USE_SIP")].
Proof.
  destruct (grants_are_requested_dangerous (testEnv devicesOutput) testConfig)
    as (_ & _ & _ & Hup & _).
  exact (Hup sessionRequest testCaps initialState eq_refl).
Defined.

(** ** The commands of a bring-up with the device running (C4) *)

Lemma adbLine_ok env t adb cmd :
  Js.truthy (t_deviceName t) = true ->
  adbPath env t = inr adb ->
  adbLine env t cmd
  = Some (adb ++ " -s " ++ Js.show (t_deviceName t) ++ " " ++ cmd).
Proof. unfold adbLine. now intros -> ->. Qed.

Lemma packageInfo_run env t package line s :
  adbLine env t ("shell dumpsys package " ++ Js.show package) = Some line ->
  packageInfo env t None package s
  = (match classify (child_exec env (trace s) line) with
     | Returned r => Returned (parsePackageInfo (stdout r))
     | Rejected e => Rejected e
     | Thrown e => Thrown e
     end, extend [EvExec line] s).
Proof.
  intros H. unfold packageInfo, then_.
  rewrite (execAdb_line env t _ _ line s H) by apply or_or.
  unfold exec. rewrite log_extend.
  now destruct (classify (child_exec env (trace s) line)).
Qed.

Lemma quietExec_waitForAppServerStart env cfg count :
  preservesRel (quiet isExec) (waitForAppServerStart env cfg count).
Proof.
  apply (preserves_waitForAppServerStart env (quiet isExec)
           (fun ev => isExec ev = false));
    cbn beta; intros; auto using quiet_refl, quiet_log;
    eapply quiet_trans; eassumption.
Qed.

Section DeviceRunning.

Variable env : Env.
Variable cfg : Config.
Variable req : Request.
Variable c : Caps.
Variable s : State.
Variable adb : string.
Variables p1 p2 : string.
Variables rDevices rInstall rDumpsys rGrant1 rGrant2 rMonkey : ExecResult.

Let cmd := newTools env (sdkPath cfg) (deviceName c) (avdName c).
Let line (command : string) : string :=
  adb ++ " -s " ++ Js.show (deviceName c) ++ " " ++ command.
Let devices := EvExec (line "devices").
Let uninstall := EvExec (line ("uninstall " ++ Js.show (packageName c))).
Let install := EvExec (line ("install " ++ Js.show (app c))).
Let dumpsys :=
  EvExec (line ("shell dumpsys package " ++ Js.show (packageName c))).
Let grant1 := EvExec (line (grantCmd (packageName c) p1)).
Let grant2 := EvExec (line (grantCmd (packageName c) p2)).
Let monkey :=
  EvExec (line ("shell monkey -p " ++ Js.show (packageName c)
                ++ " -c android.intent.category.LAUNCHER 1")).
Let forward :=
  EvExec (line ("forward tcp:" ++ Js.showN (localAppServerPort cfg)
                ++ " tcp:" ++ Js.showN (appServerPort cfg))).

Let answer (history : list Event) (ev : Event) : Outcome ExecResult :=
  match ev with
  | EvExec l => classify (child_exec env (trace s ++ history) l)
  | _ => Rejected (Error_ "")
  end.

Hypothesis request_caps : req_desiredCapabilities req = CObj c.
Hypothesis version : platformVersion c = Some "6.0".
Hypothesis device_set : Js.truthy (deviceName c) = true.
Hypothesis sdk_set : adbPath env cmd = inr adb.
Hypothesis devices_ok : answer [] devices = Returned rDevices.
Hypothesis device_listed :
  Js.includes (parseDevices (stdout rDevices)) (deviceName c) = true.
Hypothesis install_ok :
  answer [devices; uninstall] install = Returned rInstall.
Hypothesis dumpsys_ok :
  answer [devices; uninstall; install] dumpsys = Returned rDumpsys.
Hypothesis two_dangerous :
  filter isDangerous (requestedPermissions (parsePackageInfo (stdout rDumpsys)))
  = [p1; p2].
Hypothesis grant1_ok :
  answer [devices; uninstall; install; dumpsys] grant1 = Returned rGrant1.
Hypothesis grant2_ok :
  answer [devices; uninstall; install; dumpsys; grant1] grant2
  = Returned rGrant2.
Hypothesis monkey_ok :
  answer [devices; uninstall; install; dumpsys; grant1; grant2] monkey
  = Returned rMonkey.

Lemma cmd_line command : adbLine env cmd command = Some (line command).
Proof. now apply adbLine_ok. Qed.

(** The state after the events [evs] of this bring-up, with [ai] as
    stored package info. *)
Let st (ai : option AppInfo) (evs : list Event) : State :=
  mkState (CObj c) ai (trace s ++ evs).

Lemma exec_st l ai evs :
  exec env l (st ai evs)
  = (classify (child_exec env (trace s ++ evs) l), st ai (evs ++ [EvExec l])).
Proof.
  unfold exec, log, st. cbn [trace caps appInfo]. now rewrite <- app_assoc.
Qed.

Lemma execAdb_st command device ai evs :
  Js.or device (deviceName c) = deviceName c ->
  execAdb env cmd command device (st ai evs)
  = (classify (child_exec env (trace s ++ evs) (line command)),
     st ai (evs ++ [EvExec (line command)])).
Proof.
  intros Hd.
  rewrite (execAdb_line env cmd command device (line command) _
             (cmd_line command) Hd).
  apply exec_st.
Qed.

Lemma run_devices :
  listRunningDevices env cmd (setCaps (CObj c) s)
  = (Returned (parseDevices (stdout rDevices)), st (appInfo s) [devices]).
Proof.
  rewrite (listRunningDevices_run env cmd _ _ (cmd_line "devices")).
  pose proof devices_ok as H. unfold answer, devices in H.
  rewrite app_nil_r in H. cbn [trace setCaps]. now rewrite H.
Qed.

Lemma run_install ai :
  void (installApp env cmd None (packageName c) (app c)) (st ai [devices])
  = (Returned tt, st ai [devices; uninstall; install]).
Proof.
  unfold void, installApp, then_, catch_, void.
  rewrite !execAdb_st by apply or_or.
  destruct (classify (child_exec env (trace s ++ [devices]) _))
    as [r|e|e] eqn:Hu; [| |now apply classify_not_thrown in Hu];
    cbn [settle ret List.app]; rewrite execAdb_st by apply or_or;
    pose proof install_ok as H; unfold answer, install in H;
    cbn [List.app]; fold uninstall; now rewrite H.
Qed.

Lemma run_dumpsys ai :
  packageInfo env cmd None (packageName c)
    (st ai [devices; uninstall; install])
  = (Returned (parsePackageInfo (stdout rDumpsys)),
     st ai [devices; uninstall; install; dumpsys]).
Proof.
  unfold packageInfo, then_. rewrite execAdb_st by apply or_or.
  pose proof dumpsys_ok as H. unfold answer, dumpsys in H.
  now rewrite H.
Qed.

Lemma run_grants ai :
  storeAndGrant env c cmd (parsePackageInfo (stdout rDumpsys))
    (st ai [devices; uninstall; install; dumpsys])
  = (Returned tt,
     st (Some (parsePackageInfo (stdout rDumpsys)))
        [devices; uninstall; install; dumpsys; grant1; grant2]).
Proof.
  unfold storeAndGrant. rewrite version.
  change (Js.ge (Some "6.0") "6.0") with true. cbv iota.
  change (setAppInfo (parsePackageInfo (stdout rDumpsys))
            (st ai [devices; uninstall; install; dumpsys]))
    with (st (Some (parsePackageInfo (stdout rDumpsys)))
            [devices; uninstall; install; dumpsys]).
  unfold void, grantPermissions. rewrite two_dangerous.
  cbn [map startAll]. rewrite execAdb_st by apply or_or.
  pose proof grant1_ok as H1. unfold answer, grant1 in H1. rewrite H1.
  cbn [List.app]. rewrite execAdb_st by apply or_or.
  pose proof grant2_ok as H2. unfold answer, grant2 in H2.
  fold grant1. rewrite H2. reflexivity.
Qed.

Lemma run_monkey ai :
  void (startApp env cmd None (packageName c))
    (st ai [devices; uninstall; install; dumpsys; grant1; grant2])
  = (Returned tt,
     st ai [devices; uninstall; install; dumpsys; grant1; grant2; monkey]).
Proof.
  unfold void, startApp. rewrite execAdb_st by apply or_or.
  pose proof monkey_ok as H. unfold answer, monkey in H. now rewrite H.
Qed.

Lemma run_forward ai :
  snd (void (tcpPortForward env cmd None (localAppServerPort cfg)
               (appServerPort cfg))
         (st ai [devices; uninstall; install; dumpsys; grant1; grant2;
                 monkey]))
  = st ai [devices; uninstall; install; dumpsys; grant1; grant2; monkey;
           forward].
Proof.
  rewrite snd_void. unfold tcpPortForward.
  now rewrite execAdb_st by apply or_or.
Qed.

Lemma device_running_commands :
  filter isExec (issued s (snd (createSession env cfg req s)))
  = [devices; uninstall; install; dumpsys; grant1; grant2; monkey; forward].
Proof.
  unfold createSession. rewrite request_caps. fold cmd.
  rewrite snd_finish, bringUp_split_devices.
  rewrite (then_unfold (listRunningDevices env cmd)), run_devices.
  rewrite device_listed. cbn [negb].
  rewrite snd_settle, (then_unfold (ret tt)). unfold ret at 1.
  rewrite snd_settle. unfold installAndFinish.
  rewrite (then_unfold (void _)), run_install, snd_settle.
  rewrite (then_unfold (packageInfo _ _ _ _)), run_dumpsys, snd_settle.
  rewrite (then_unfold (storeAndGrant _ _ _ _)), run_grants, snd_settle.
  unfold launchAndWait.
  rewrite (then_unfold (void _)), run_monkey, snd_settle.
  rewrite (then_unfold (void _)).
  pose proof (run_forward
                (Some (parsePackageInfo (stdout rDumpsys)))) as Hf.
  destruct (void (tcpPortForward env cmd None (localAppServerPort cfg)
                    (appServerPort cfg)) _) as [[u|e|e] s8];
    cbn [snd] in Hf; subst s8;
    try (rewrite (issued_app s _ [devices; uninstall; install; dumpsys;
                                 grant1; grant2; monkey; forward])
           by reflexivity; reflexivity).
  rewrite snd_settle.
  destruct (quietExec_waitForAppServerStart env cfg 0
              (st (Some (parsePackageInfo (stdout rDumpsys)))
                  [devices; uninstall; install; dumpsys; grant1; grant2;
                   monkey; forward])) as (evs & Htr & Hq).
  rewrite (issued_app s _ ([devices; uninstall; install; dumpsys;
                            grant1; grant2; monkey; forward] ++ evs))
    by (rewrite Htr; cbn [st trace]; now rewrite <- app_assoc).
  rewrite filter_app, Hq. reflexivity.
Qed.

End DeviceRunning.

(** C4. A bring-up for platform version "6.0" whose [devices] query
    lists the target device, whose install, package query, grants and
    launch succeed, and whose package info has exactly the two
    dangerous permissions [p1] and [p2], runs exactly these commands,
    in this order: devices, uninstall, install, dumpsys package, the
    grant of [p1], the grant of [p2], monkey, forward. Whether the
    uninstall and the forward succeed does not matter. *)
Theorem bringUp_command_sequence (env : Env) (cfg : Config) (req : Request)
  (c : Caps) (s : State) (adb p1 p2 : string)
  (rDevices rInstall rDumpsys rGrant1 rGrant2 rMonkey : ExecResult) :
  let cmd := newTools env (sdkPath cfg) (deviceName c) (avdName c) in
  let ev command :=
    EvExec (adb ++ " -s " ++ Js.show (deviceName c) ++ " " ++ command) in
  let run history command :=
    classify (child_exec env (trace s ++ history)
                (adb ++ " -s " ++ Js.show (deviceName c) ++ " " ++ command)) in
  let devices := "devices" in
  let uninstall := "uninstall " ++ Js.show (packageName c) in
  let install := "install " ++ Js.show (app c) in
  let dumpsys := "shell dumpsys package " ++ Js.show (packageName c) in
  let grant1 := "shell pm grant " ++ Js.show (packageName c) ++ " " ++ p1 in
  let grant2 := "shell pm grant " ++ Js.show (packageName c) ++ " " ++ p2 in
  let monkey := "shell monkey -p " ++ Js.show (packageName c)
                ++ " -c android.intent.category.LAUNCHER 1" in
  let forward := "forward tcp:" ++ Js.showN (localAppServerPort cfg)
                 ++ " tcp:" ++ Js.showN (appServerPort cfg) in
  req_desiredCapabilities req = CObj c ->
  platformVersion c = Some "6.0" ->
  Js.truthy (deviceName c) = true ->
  adbPath env cmd = inr adb ->
  run [] devices = Returned rDevices ->
  Js.includes (parseDevices (stdout rDevices)) (deviceName c) = true ->
  run [ev devices; ev uninstall] install = Returned rInstall ->
  run [ev devices; ev uninstall; ev install] dumpsys = Returned rDumpsys ->
  filter isDangerous (requestedPermissions (parsePackageInfo (stdout rDumpsys)))
  = [p1; p2] ->
  run [ev devices; ev uninstall; ev install; ev dumpsys] grant1
  = Returned rGrant1 ->
  run [ev devices; ev uninstall; ev install; ev dumpsys; ev grant1] grant2
  = Returned rGrant2 ->
  run [ev devices; ev uninstall; ev install; ev dumpsys; ev grant1; ev grant2]
      monkey
  = Returned rMonkey ->
  filter isExec (issued s (snd (createSession env cfg req s)))
  = map ev [devices; uninstall; install; dumpsys; grant1; grant2; monkey;
            forward].
Proof.
  intros cmd ev run devices uninstall install dumpsys grant1 grant2 monkey
    forward Hreq Hver Hdev Hadb H1 Hin H3 H4 Htwo H5 H6 H7.
  exact (device_running_commands env cfg req c s adb p1 p2
           rDevices rInstall rDumpsys rGrant1 rGrant2 rMonkey
           Hreq Hver Hdev Hadb H1 Hin H3 H4 Htwo H5 H6 H7).
Qed.

Lemma bringUp_command_sequence_witness :
  filter isExec
    (issued initialState
       (snd (createSession (testEnv devicesOutput) testConfig sessionRequest
               initialState)))
  = map (fun command => EvExec (testAdb ++ command))
      ["devices";
       "uninstall fi.foo.bar";
       "install /path/to/app.apk";
       "shell dumpsys package fi.foo.bar";
       "shell pm grant fi.foo.bar android.permission.RECORD_AUDIO";
       "shell pm grant fi.foo.bar android.permission.USE_SIP";
       "shell monkey -p fi.foo.bar -c android.intent.category.LAUNCHER 1";
       "forward tcp:6100 tcp:7100"].
Proof.
  exact (bringUp_command_sequence (testEnv devicesOutput) testConfig
           sessionRequest testCaps initialState
           "/foo/bar/platform-tools/adb"
           "android.permission.RECORD_AUDIO" "android.permission.USE_SIP"
           (mkResult devicesOutput "") (mkResult "" "")
           (mkResult dumpsysOutput "") (mkResult "" "") (mkResult "" "")
           (mkResult "" "")
           eq_refl eq_refl eq_refl eq_refl eq_refl eq_refl eq_refl eq_refl
           eq_refl eq_refl eq_refl eq_refl).
Defined.

(** * Further properties of the code *)

(** ** Strings: reversal and trimming *)

Lemma append_nil_r s : s ++ "" = s.
Proof. induction s as [|c s IH]; [reflexivity|]. cbn. now rewrite IH. Qed.

Lemma append_assoc a b c : (a ++ b) ++ c = a ++ (b ++ c).
Proof. induction a as [|x a IH]; [reflexivity|]. cbn. now rewrite IH. Qed.

Lemma revString_acc s acc : Js.revString s acc = Js.revString s "" ++ acc.
Proof.
  revert acc. induction s as [|c s IH]; intros acc; [reflexivity|].
  cbn [Js.revString]. rewrite IH, (IH (String c "")), append_assoc.
  reflexivity.
Qed.

Lemma revString_app a b acc :
  Js.revString (a ++ b) acc = Js.revString b (Js.revString a acc).
Proof.
  revert acc. induction a as [|x a IH]; intros acc; [reflexivity|].
  cbn [String.append Js.revString]. apply IH.
Qed.

Lemma revString_twice s a b :
  Js.revString (Js.revString s a) b = Js.revString a (s ++ b).
Proof.
  revert a b. induction s as [|c s IH]; intros a b; [reflexivity|].
  cbn [Js.revString String.append]. now rewrite IH.
Qed.

Lemma revString_involutive s : Js.revString (Js.revString s "") "" = s.
Proof. rewrite revString_twice. cbn. apply append_nil_r. Qed.

Lemma allChars_revString P s acc :
  allChars P (Js.revString s acc) = allChars P s && allChars P acc.
Proof.
  revert acc. induction s as [|c s IH]; intros acc; [reflexivity|].
  cbn [Js.revString allChars]. rewrite IH. cbn [allChars].
  now destruct (P c), (allChars P s), (allChars P acc).
Qed.

Lemma dropSpace_startsClean s : startsClean (Js.dropSpace s) = true.
Proof.
  induction s as [|c s IH]; [reflexivity|]. cbn [Js.dropSpace].
  destruct (Js.isSpace c) eqn:Hc; [exact IH|]. cbn. now rewrite Hc.
Qed.

Lemma dropSpace_clean s : startsClean s = true -> Js.dropSpace s = s.
Proof.
  destruct s as [|c s]; [reflexivity|]. cbn.
  now destruct (Js.isSpace c).
Qed.

Lemma dropSpace_suffix s : exists pre, s = pre ++ Js.dropSpace s.
Proof.
  induction s as [|c s (pre & IH)]; [now exists ""|]. cbn [Js.dropSpace].
  destruct (Js.isSpace c); [|now exists ""].
  exists (String c pre). cbn. now rewrite <- IH.
Qed.

Lemma dropSpace_blank s : allChars Js.isSpace s = true -> Js.dropSpace s = "".
Proof.
  induction s as [|c s IH]; [reflexivity|]. cbn.
  destruct (Js.isSpace c); [exact IH | discriminate].
Qed.

Lemma noSpace_startsClean s : noSpace s = true -> startsClean s = true.
Proof.
  destruct s as [|c s]; [reflexivity|]. unfold noSpace. cbn.
  now destruct (Js.isSpace c).
Qed.

Lemma trim_noSpace s : noSpace s = true -> Js.trim s = s.
Proof.
  intros H. unfold Js.trim.
  rewrite (dropSpace_clean s) by now apply noSpace_startsClean.
  rewrite dropSpace_clean; [apply revString_involutive|].
  apply noSpace_startsClean. unfold noSpace in *.
  now rewrite allChars_revString, H.
Qed.

Lemma trim_blank s : allChars Js.isSpace s = true -> Js.trim s = "".
Proof. intros H. unfold Js.trim. now rewrite (dropSpace_blank s H). Qed.

(** What [trim] returns neither starts nor ends with white space. *)
Lemma trim_clean s :
  startsClean (Js.trim s) = true
  /\ startsClean (Js.revString (Js.trim s) "") = true.
Proof.
  unfold Js.trim.
  set (u := Js.dropSpace s).
  set (v := Js.dropSpace (Js.revString u "")).
  assert (Hu : startsClean u = true) by apply dropSpace_startsClean.
  assert (Hv : startsClean v = true) by apply dropSpace_startsClean.
  split; [|now rewrite revString_involutive].
  destruct (dropSpace_suffix (Js.revString u "")) as [pre Hpre].
  fold v in Hpre.
  assert (Hueq : u = Js.revString v "" ++ Js.revString pre "").
  { rewrite <- (revString_involutive u), Hpre, revString_app.
    apply revString_acc. }
  destruct v as [|c v']; [reflexivity|].
  cbn [Js.revString] in *. rewrite revString_acc in Hueq |- *.
  rewrite Hueq in Hu.
  destruct (Js.revString v' "") as [|d w]; cbn in *; exact Hu.
Qed.

Lemma trim_idempotent s : Js.trim (Js.trim s) = Js.trim s.
Proof.
  destruct (trim_clean s) as [H1 H2].
  unfold Js.trim at 1. rewrite (dropSpace_clean _ H1), (dropSpace_clean _ H2).
  apply revString_involutive.
Qed.

(** ** The parsers of the tool output *)

Lemma hd_splitSpaceAux s cur :
  noSpace cur = true -> noSpace (hd "" (Js.splitSpaceAux s cur)) = true.
Proof.
  revert cur. unfold noSpace.
  induction s as [|c s IH]; intros cur Hcur; cbn [Js.splitSpaceAux hd].
  - now rewrite allChars_revString, Hcur.
  - destruct (Js.isSpace c) eqn:Hc; cbn [hd].
    + now rewrite allChars_revString, Hcur.
    + apply IH. cbn [allChars]. now rewrite Hc, Hcur.
Qed.

Lemma splitLinesAux_single s cur :
  allChars (fun c => negb (c =? "010")%char) s = true ->
  Js.splitLinesAux s cur = [Js.revString cur "" ++ s].
Proof.
  revert cur. induction s as [|c s IH]; intros cur H.
  - cbn. now rewrite append_nil_r.
  - cbn [allChars] in H. apply andb_prop in H as [Hc Hs].
    apply negb_true_iff in Hc. cbn [Js.splitLinesAux]. rewrite Hc.
    assert (Hrec : Js.splitLinesAux s (String c cur)
                   = [Js.revString cur "" ++ String c s]).
    { rewrite (IH _ Hs). cbn [Js.revString].
      rewrite (revString_acc cur (String c "")), append_assoc.
      reflexivity. }
    destruct (c =? "013")%char; [|exact Hrec].
    destruct s as [|d s']; [exact Hrec|].
    cbn [allChars] in Hs. apply andb_prop in Hs as [Hd _].
    apply negb_true_iff in Hd. now rewrite Hd.
Qed.

Lemma splitLinesAux_blank n :
  forall s cur,
    String.length s <= n ->
    allChars Js.isSpace s = true ->
    allChars Js.isSpace cur = true ->
    Forall (fun piece => allChars Js.isSpace piece = true)
           (Js.splitLinesAux s cur).
Proof.
  induction n as [|n IH]; intros s cur Hlen Hs Hcur.
  - destruct s; [|cbn in Hlen; lia]. cbn. constructor; [|constructor].
    now rewrite allChars_revString, Hcur.
  - destruct s as [|c s]; cbn [Js.splitLinesAux].
    + constructor; [|constructor]. now rewrite allChars_revString, Hcur.
    + cbn [allChars String.length] in *. apply andb_prop in Hs as [Hc Hs].
      assert (Hpiece : allChars Js.isSpace (Js.revString cur "") = true)
        by now rewrite allChars_revString, Hcur.
      assert (Hrec : Forall (fun piece => allChars Js.isSpace piece = true)
                       (Js.splitLinesAux s (String c cur))).
      { apply IH; [lia | exact Hs|]. cbn [allChars]. now rewrite Hc, Hcur. }
      destruct (c =? "010")%char.
      { constructor; [exact Hpiece|]. apply IH; [lia | exact Hs | reflexivity]. }
      destruct (c =? "013")%char; [|exact Hrec].
      destruct s as [|d s']; [exact Hrec|].
      destruct (d =? "010")%char; [|exact Hrec].
      cbn [allChars String.length] in *. apply andb_prop in Hs as [_ Hs'].
      constructor; [exact Hpiece|]. apply IH; [lia | exact Hs' | reflexivity].
Qed.

Lemma truthy_nonempty d : Js.truthy (Some d) = true -> d <> "".
Proof.
  cbn. intros H ->. discriminate.
Qed.

(** X1. Every name [listRunningDevices] returns is non-empty and free
    of white space, and an output of a single line, the header, gives
    no device. *)
Theorem listRunningDevices_names_clean (env : Env) (t : Tools) (s : State)
  (devices : list string) :
  fst (listRunningDevices env t s) = Returned devices ->
  (forall d, In d devices -> d <> "" /\ noSpace d = true)
  /\ (forall out,
        allChars (fun c => negb (c =? "010")%char) out = true ->
        parseDevices out = []).
Proof.
  intros Hrun. split.
  - assert (Hparse : exists out, devices = parseDevices out).
    { unfold listRunningDevices, then_ in Hrun.
      destruct (execAdb env t "devices" None s) as [[r|e|e] s1];
        cbn in Hrun; try discriminate.
      injection Hrun as <-. now exists (stdout r). }
    destruct Hparse as [out ->]. intros d Hin. unfold parseDevices in Hin.
    apply filter_In in Hin as [Hin Htruthy].
    split; [now apply truthy_nonempty|].
    apply in_map_iff in Hin as (line & <- & _).
    pose proof (hd_splitSpaceAux (Js.trim line) "" eq_refl) as Hhd.
    fold (Js.splitSpace (Js.trim line)) in Hhd.
    now rewrite (trim_noSpace _ Hhd).
  - intros out Hout. unfold parseDevices, Js.splitLines.
    now rewrite (splitLinesAux_single out "" Hout).
Qed.

Lemma listRunningDevices_names_clean_witness :
  "emulator-5554" <> "" /\ noSpace "emulator-5554" = true.
Proof.
  exact (proj1 (listRunningDevices_names_clean (testEnv devicesOutput)
                  testTools initialState ["emulator-5554"] eq_refl)
           "emulator-5554" (or_introl eq_refl)).
Defined.

(** X2. Every entry [listPackages] returns is non-empty and is its own
    trimmed form: it neither starts nor ends with white space. *)
Theorem listPackages_entries_clean (env : Env) (t : Tools)
  (device : Js.JsStr) (s : State) (packages : list string) :
  fst (listPackages env t device s) = Returned packages ->
  forall p,
    In p packages ->
    p <> "" /\ Js.trim p = p
    /\ startsClean p = true /\ startsClean (Js.revString p "") = true.
Proof.
  intros Hrun p Hin.
  assert (Hparse : exists out, packages = parsePackages out).
  { unfold listPackages, then_ in Hrun.
    destruct (execAdb env t "shell pm list packages" _ s) as [[r|e|e] s1];
      cbn in Hrun; try discriminate.
    injection Hrun as <-. now exists (stdout r). }
  destruct Hparse as [out ->]. unfold parsePackages in Hin.
  apply filter_In in Hin as [Hin Htruthy].
  split; [now apply truthy_nonempty|].
  apply in_map_iff in Hin as (line & <- & _).
  split; [apply trim_idempotent | apply trim_clean].
Qed.

Lemma listPackages_entries_clean_witness :
  "package:fi.foo.bar" <> ""
  /\ Js.trim "package:fi.foo.bar" = "package:fi.foo.bar"
  /\ startsClean "package:fi.foo.bar" = true
  /\ startsClean (Js.revString "package:fi.foo.bar" "") = true.
Proof.
  exact (listPackages_entries_clean untidyEnv testTools None initialState
           ["package:fi.foo.bar"; "package:fi.other.app"] eq_refl
           "package:fi.foo.bar" (or_introl eq_refl)).
Defined.

Lemma findIndexFrom_first {A} (pred : A -> bool) pre x rest k :
  (forall y, In y pre -> pred y = false) ->
  pred x = true ->
  Js.findIndexFrom pred (pre ++ x :: rest) k = (k + Z.of_nat (length pre))%Z.
Proof.
  revert k. induction pre as [|y pre IH]; intros k Hpre Hx.
  - cbn. rewrite Hx. lia.
  - cbn [List.app Js.findIndexFrom length].
    rewrite (Hpre y) by now left.
    rewrite IH by (intros; auto using in_cons). lia.
Qed.

Lemma findIndexFrom_none {A} (pred : A -> bool) l k :
  (forall y, In y l -> pred y = false) ->
  Js.findIndexFrom pred l k = (-1)%Z.
Proof.
  revert k. induction l as [|y l IH]; intros k Hl; [reflexivity|].
  cbn [Js.findIndexFrom]. rewrite (Hl y) by now left.
  apply IH. intros; auto using in_cons.
Qed.

Lemma slice_middle {A} (pre mid post : list A) :
  Js.slice (pre ++ mid ++ post) (Z.of_nat (length pre))
           (Z.of_nat (length pre) + Z.of_nat (length mid))
  = mid.
Proof.
  unfold Js.slice, Js.clampIndex. rewrite !length_app.
  destruct (Z.ltb_spec (Z.of_nat (length pre)) 0) as [H|_]; [lia|].
  destruct (Z.ltb_spec (Z.of_nat (length pre) + Z.of_nat (length mid)) 0)
    as [H|_]; [lia|].
  replace (Z.to_nat (Z.min (Z.of_nat (length pre))
                       (Z.of_nat (length pre + (length mid + length post)))))
    with (length pre) by lia.
  replace (Z.to_nat (Z.max _ 0)) with (length mid) by lia.
  rewrite skipn_app, skipn_all, Nat.sub_diag. cbn [skipn List.app].
  rewrite firstn_app, firstn_all, Nat.sub_diag. cbn. apply app_nil_r.
Qed.

Lemma slice_all_but_last {A} (l : list A) : Js.slice l 0 (-1) = removelast l.
Proof.
  unfold Js.slice, Js.clampIndex. cbn [Z.ltb Z.compare Z.min].
  rewrite removelast_firstn_len.
  replace (Z.to_nat (Z.min 0 (Z.of_nat (length l)))) with 0 by lia.
  cbn [skipn]. f_equal. lia.
Qed.

Lemma slice_backwards {A} (l : list A) (start stop : Z) :
  (0 <= stop <= start)%Z -> Js.slice l start stop = [].
Proof.
  intros H. unfold Js.slice, Js.clampIndex.
  destruct (Z.ltb_spec start 0) as [H1|_]; [lia|].
  destruct (Z.ltb_spec stop 0) as [H1|_]; [lia|].
  replace (Z.to_nat (Z.max _ 0)) with 0 by lia. reflexivity.
Qed.

Lemma slice_rest_but_last {A} (pre post : list A) :
  Js.slice (pre ++ post) (Z.of_nat (length pre)) (-1) = removelast post.
Proof.
  unfold Js.slice, Js.clampIndex. rewrite length_app.
  destruct (Z.ltb_spec (Z.of_nat (length pre)) 0) as [H|_]; [lia|].
  cbn [Z.ltb Z.compare].
  replace (Z.to_nat (Z.min _ _)) with (length pre) by lia.
  rewrite skipn_app, skipn_all, Nat.sub_diag. cbn [skipn List.app].
  rewrite removelast_firstn_len. f_equal. lia.
Qed.

(** X3. What [packageInfo] returns, by the first row that reads
    "requested permissions:" and the first row that reads
    "install permissions:" among the trimmed rows of the output; both
    are looked up from the start of the rows. When the install marker
    comes after the requested marker, the result is exactly the rows
    between the two. When the install marker comes first, the result
    is empty. With the install marker alone it is the rows before it;
    with the requested marker alone it is the rows after it but the
    last; with neither marker it is every row but the last. *)
Theorem packageInfo_rows_between_markers (out : string)
  (pre perms post : list string) :
  let rows := map Js.trim (Js.splitLines out) in
  (rows = (pre ++ "requested permissions:"
               :: perms ++ "install permissions:" :: post)%list ->
   ~ In "requested permissions:" pre ->
   ~ In "install permissions:" pre ->
   ~ In "install permissions:" perms ->
   requestedPermissions (parsePackageInfo out) = perms)
  /\ (rows = (pre ++ "install permissions:"
                  :: perms ++ "requested permissions:" :: post)%list ->
      ~ In "install permissions:" pre ->
      ~ In "requested permissions:" pre ->
      ~ In "requested permissions:" perms ->
      requestedPermissions (parsePackageInfo out) = [])
  /\ (rows = (pre ++ "install permissions:" :: post)%list ->
      ~ In "install permissions:" pre ->
      ~ In "requested permissions:" rows ->
      requestedPermissions (parsePackageInfo out) = pre)
  /\ (rows = (pre ++ "requested permissions:" :: post)%list ->
      ~ In "requested permissions:" pre ->
      ~ In "install permissions:" rows ->
      requestedPermissions (parsePackageInfo out) = removelast post)
  /\ (~ In "requested permissions:" rows ->
      ~ In "install permissions:" rows ->
      requestedPermissions (parsePackageInfo out) = removelast rows).
Proof.
  intros rows. unfold parsePackageInfo. fold rows. cbn [requestedPermissions].
  unfold Js.findIndex.
  assert (Hnot : forall (marker : string) (l : list string),
             ~ In marker l ->
             forall y, In y l -> String.eqb y marker = false).
  { intros marker l Hl y Hy. apply String.eqb_neq. now intros ->. }
  split; [|split; [|split; [|split]]].
  - intros Hrows Hreq Hinst Hperms. rewrite Hrows.
    rewrite (findIndexFrom_first _ pre);
      [|now apply Hnot|apply String.eqb_refl].
    change (pre ++ "requested permissions:"
                :: perms ++ "install permissions:" :: post)%list
      with (pre ++ ["requested permissions:"]
                ++ perms ++ "install permissions:" :: post)%list.
    rewrite (app_assoc pre), (app_assoc _ perms).
    rewrite (findIndexFrom_first _ ((pre ++ ["requested permissions:"]) ++ perms));
      [|intros y Hy; apply String.eqb_neq; intros ->;
        apply in_app_or in Hy as [Hy|Hy];
        [apply in_app_or in Hy as [Hy|[Hy|[]]];
         [now apply Hinst | discriminate]
        |now apply Hperms]
       |apply String.eqb_refl].
    rewrite <- (app_assoc _ perms).
    replace (0 + Z.of_nat (length pre) + 1)%Z
      with (Z.of_nat (length (pre ++ ["requested permissions:"])))
      by (rewrite length_app; cbn; lia).
    replace (0 + Z.of_nat (length ((pre ++ ["requested permissions:"])
                                     ++ perms)))%Z
      with (Z.of_nat (length (pre ++ ["requested permissions:"]))
            + Z.of_nat (length perms))%Z
      by (rewrite !length_app; cbn; lia).
    apply slice_middle.
  - intros Hrows Hinst Hreq Hperms. rewrite Hrows.
    rewrite (findIndexFrom_first
               (fun row => String.eqb row "install permissions:") pre);
      [|now apply Hnot|apply String.eqb_refl].
    change (pre ++ "install permissions:"
                :: perms ++ "requested permissions:" :: post)%list
      with (pre ++ ["install permissions:"]
                ++ perms ++ "requested permissions:" :: post)%list.
    rewrite (app_assoc pre), (app_assoc _ perms).
    rewrite (findIndexFrom_first
               (fun row => String.eqb row "requested permissions:")
               ((pre ++ ["install permissions:"]) ++ perms));
      [|intros y Hy; apply String.eqb_neq; intros ->;
        apply in_app_or in Hy as [Hy|Hy];
        [apply in_app_or in Hy as [Hy|[Hy|[]]];
         [now apply Hreq | discriminate]
        |now apply Hperms]
       |apply String.eqb_refl].
    apply slice_backwards. rewrite !length_app. lia.
  - intros Hrows Hinst Hreq.
    rewrite (findIndexFrom_none
               (fun row => String.eqb row "requested permissions:") rows)
      by now apply Hnot.
    rewrite Hrows.
    rewrite (findIndexFrom_first _ pre);
      [|now apply Hnot|apply String.eqb_refl].
    exact (slice_middle [] pre ("install permissions:" :: post)).
  - intros Hrows Hreq Hinst.
    rewrite (findIndexFrom_none (fun row => String.eqb row "install permissions:") rows)
      by now apply Hnot.
    rewrite Hrows.
    rewrite (findIndexFrom_first _ pre);
      [|now apply Hnot|apply String.eqb_refl].
    change (pre ++ "requested permissions:" :: post)%list
      with (pre ++ ["requested permissions:"] ++ post)%list.
    rewrite app_assoc.
    replace (0 + Z.of_nat (length pre) + 1)%Z
      with (Z.of_nat (length (pre ++ ["requested permissions:"])))
      by (rewrite length_app; cbn; lia).
    apply slice_rest_but_last.
  - intros Hreq Hinst.
    rewrite !findIndexFrom_none;
      [apply slice_all_but_last | now apply Hnot | now apply Hnot].
Qed.

Lemma packageInfo_rows_between_markers_witness :
  requestedPermissions (parsePackageInfo dumpsysOutput)
  = ["android.permission.RECORD_AUDIO"; "android.permission.USE_SIP"]
  /\ requestedPermissions (parsePackageInfo swappedDumpsysOutput) = []
  /\ requestedPermissions (parsePackageInfo installOnlyOutput)
     = ["Packages:"; "android.permission.CAMERA"]
  /\ requestedPermissions (parsePackageInfo truncatedDumpsysOutput)
     = ["android.permission.RECORD_AUDIO"]
  /\ requestedPermissions (parsePackageInfo untidyOutput)
     = ["package:fi.foo.bar"; ""].
Proof.
  split; [|split; [|split; [|split]]].
  - apply (proj1 (packageInfo_rows_between_markers dumpsysOutput [""]
                    ["android.permission.RECORD_AUDIO";
                     "android.permission.USE_SIP"] [""]));
      [reflexivity | | |];
      cbn; intuition discriminate.
  - apply (proj1 (proj2 (packageInfo_rows_between_markers
                           swappedDumpsysOutput [""]
                           ["android.permission.CAMERA"]
                           ["android.permission.USE_SIP"])));
      [reflexivity | | |];
      cbn; intuition discriminate.
  - apply (proj1 (proj2 (proj2 (packageInfo_rows_between_markers
                                  installOnlyOutput
                                  ["Packages:"; "android.permission.CAMERA"]
                                  [] ["android.permission.USE_SIP"]))));
      [reflexivity | |];
      cbn; intuition discriminate.
  - apply (proj1 (proj2 (proj2 (proj2 (packageInfo_rows_between_markers
                                         truncatedDumpsysOutput [""] []
                                         ["android.permission.RECORD_AUDIO";
                                          "android.permission.USE_SIP"])))));
      [reflexivity | |];
      cbn; intuition discriminate.
  - apply (proj2 (proj2 (proj2 (proj2 (packageInfo_rows_between_markers
                                         untidyOutput [] [] [])))));
      cbn; intuition discriminate.
Defined.

(** X4. A package list that consists of white space and line breaks
    only has no entries, so a boot probe whose command succeeded with
    such an output counts as not ready and fails with the message-less
    error that [waitUntilRunning] throws itself. *)
Theorem blank_package_list_is_not_ready (env : Env) (line : string)
  (tr : list Event) (res : ExecResult) :
  classify (child_exec env tr line) = Returned res ->
  allChars Js.isSpace (stdout res) = true ->
  parsePackages (stdout res) = []
  /\ bootProbeOutcome env line tr = Rejected (Error_ "").
Proof.
  intros Hrun Hblank.
  assert (Hparse : parsePackages (stdout res) = []).
  { unfold parsePackages, Js.splitLines.
    pose proof (splitLinesAux_blank (String.length (stdout res))
                  (stdout res) "" (le_n _) Hblank eq_refl) as Hall.
    induction Hall as [|piece pieces Hpiece _ IH]; [reflexivity|].
    cbn [map filter]. now rewrite (trim_blank _ Hpiece). }
  split; [exact Hparse|].
  unfold bootProbeOutcome. now rewrite Hrun, Hparse.
Qed.

Lemma blank_package_list_is_not_ready_witness :
  bootProbeOutcome (testEnvWith (nl ++ "   " ++ nl) "")
    (testAdb ++ "devices") []
  = Rejected (Error_ "").
Proof.
  exact (proj2 (blank_package_list_is_not_ready
                  (testEnvWith (nl ++ "   " ++ nl) "")
                  (testAdb ++ "devices") []
                  (mkResult (nl ++ "   " ++ nl) "") eq_refl eq_refl)).
Defined.

(** ** The polling loops: first success and time budget *)

Lemma concat_repeat_S {A} (round : list A) k :
  concat (repeat round (S k)) = (round ++ concat (repeat round k))%list.
Proof. reflexivity. Qed.

Lemma waitForAppServerStart_first_success env cfg :
  forall k count s,
    count + k <= 50 ->
    (forall j, j < k ->
       isFailure
         (pingOutcome env cfg
            (trace s
             ++ concat (repeat [EvSleep 200;
                                EvRequest "get" (appServerUrl cfg "/ping")
                                  None] j)
             ++ [EvSleep 200])) = true) ->
    pingOutcome env cfg
      (trace s
       ++ concat (repeat [EvSleep 200;
                          EvRequest "get" (appServerUrl cfg "/ping") None] k)
       ++ [EvSleep 200]) = Returned tt ->
    waitForAppServerStart env cfg count s
    = (Returned tt,
       extend (concat (repeat [EvSleep 200;
                               EvRequest "get" (appServerUrl cfg "/ping")
                                 None] (S k))) s).
Proof.
  set (round := [EvSleep 200;
                 EvRequest "get" (appServerUrl cfg "/ping") None]).
  induction k as [|k IH]; intros count s Hk Hfail Hok;
    rewrite waitForAppServerStart_step; cbv zeta; fold round.
  - cbn [repeat concat] in Hok. rewrite app_nil_l in Hok. rewrite Hok.
    cbn [repeat concat]. now rewrite app_nil_r.
  - pose proof (Hfail 0 (Nat.lt_0_succ k)) as H0.
    cbn [repeat concat] in H0. rewrite app_nil_l in H0.
    destruct (pingOutcome env cfg (trace s ++ [EvSleep 200]))
      as [u|e|e] eqn:Ho;
      [discriminate | | now apply pingOutcome_not_thrown in Ho].
    replace (count <? 50)%nat with true
      by (symmetry; apply Nat.ltb_lt; lia).
    rewrite (IH (S count) (extend round s)); [| lia | |].
    + cbn [settle]. rewrite extend_extend.
      now rewrite <- (concat_repeat_S round (S k)).
    + intros j Hj. specialize (Hfail (S j) ltac:(lia)).
      rewrite concat_repeat_S in Hfail. cbn [extend trace].
      now rewrite <- !app_assoc in *.
    + rewrite concat_repeat_S in Hok. cbn [extend trace].
      now rewrite <- !app_assoc in *.
Qed.

(** X5. When the first [k] pings fail, [k <= 50], and the next one is
    answered, [waitForAppServerStart] is fulfilled after exactly
    [k + 1] rounds of a 200 ms delay and a ping; no further ping is
    sent. The 51st ping is the last that can still succeed. *)
Theorem health_poll_stops_at_first_success (env : Env) (cfg : Config)
  (k : nat) (s : State) :
  let round := [EvSleep 200;
                EvRequest "get" (appServerUrl cfg "/ping") None] in
  k <= 50 ->
  (forall j, j < k ->
     isFailure
       (pingOutcome env cfg
          (trace s ++ concat (repeat round j) ++ [EvSleep 200])) = true) ->
  pingOutcome env cfg (trace s ++ concat (repeat round k) ++ [EvSleep 200])
  = Returned tt ->
  waitForAppServerStart env cfg 0 s
  = (Returned tt, extend (concat (repeat round (S k))) s)
  /\ length (filter isRequest (concat (repeat round (S k)))) = S k.
Proof.
  intros round Hk Hfail Hok. split.
  - now apply waitForAppServerStart_first_success.
  - clear. induction k as [|k IH]; [reflexivity|].
    rewrite concat_repeat_S. subst round. cbn [List.app filter isRequest].
    cbn [length]. now rewrite IH.
Qed.

Lemma health_poll_stops_at_first_success_witness :
  waitForAppServerStart (slowEnv 5) testConfig 0 initialState
  = (Returned tt,
     extend [EvSleep 200; EvRequest "get" "http://localhost:6100/ping" None;
             EvSleep 200; EvRequest "get" "http://localhost:6100/ping" None;
             EvSleep 200; EvRequest "get" "http://localhost:6100/ping" None]
            initialState).
Proof.
  apply (proj1 (health_poll_stops_at_first_success (slowEnv 5) testConfig 2
                  initialState ltac:(lia)
                  (fun j Hj =>
                     match j as n return
                       n < 2 ->
                       isFailure
                         (pingOutcome (slowEnv 5) testConfig
                            (trace initialState
                             ++ concat
                                  (repeat
                                     [EvSleep 200;
                                      EvRequest "get"
                                        (appServerUrl testConfig "/ping")
                                        None] n)
                             ++ [EvSleep 200])) = true
                     with
                     | 0 => fun _ => eq_refl
                     | 1 => fun _ => eq_refl
                     | S (S n) => fun H => ltac:(lia)
                     end Hj)
                  eq_refl)).
Defined.

Lemma waitUntilRunning_first_success env t line :
  adbLine env t "shell pm list packages" = Some line ->
  forall k attempt s,
    attempt + k <= 60 ->
    (forall j, j < k ->
       isFailure
         (bootProbeOutcome env line
            (trace s ++ concat (repeat [EvExec line; EvSleep 1000] j)))
       = true) ->
    bootProbeOutcome env line
      (trace s ++ concat (repeat [EvExec line; EvSleep 1000] k))
    = Returned tt ->
    waitUntilRunning env t attempt s
    = (Returned tt,
       extend (concat (repeat [EvExec line; EvSleep 1000] k)
               ++ [EvExec line]) s).
Proof.
  intros Hline.
  set (round := [EvExec line; EvSleep 1000]).
  induction k as [|k IH]; intros attempt s Hk Hfail Hok;
    rewrite waitUntilRunning_step, (probeBoot_run env t line s Hline).
  - cbn [repeat concat] in Hok. rewrite app_nil_r in Hok. now rewrite Hok.
  - pose proof (Hfail 0 (Nat.lt_0_succ k)) as H0.
    cbn [repeat concat] in H0. rewrite app_nil_r in H0.
    destruct (bootProbeOutcome env line (trace s)) as [u|e|e] eqn:Ho;
      [discriminate | | now apply bootProbeOutcome_not_thrown in Ho].
    replace (attempt <? 60)%nat with true
      by (symmetry; apply Nat.ltb_lt; lia).
    rewrite log_extend, extend_extend.
    change ([EvExec line] ++ [EvSleep 1000])%list with round.
    rewrite (IH (S attempt) (extend round s)); [| lia | |].
    + cbn [settle]. rewrite extend_extend, concat_repeat_S.
      now rewrite <- app_assoc.
    + intros j Hj. specialize (Hfail (S j) ltac:(lia)).
      rewrite concat_repeat_S in Hfail. cbn [extend trace].
      now rewrite <- !app_assoc in *.
    + rewrite concat_repeat_S in Hok. cbn [extend trace].
      now rewrite <- !app_assoc in *.
Qed.

(** X6. When the package query of the first [k] rounds fails or lists
    nothing, [k <= 60], and the next round lists a package, the boot
    poll is fulfilled after exactly [k + 1] queries, the rounds one
    second apart, and asks no more. *)
Theorem boot_poll_stops_at_first_success (env : Env) (t : Tools)
  (line : string) (k : nat) (s : State) :
  let round := [EvExec line; EvSleep 1000] in
  adbLine env t "shell pm list packages" = Some line ->
  k <= 60 ->
  (forall j, j < k ->
     isFailure
       (bootProbeOutcome env line (trace s ++ concat (repeat round j)))
     = true) ->
  bootProbeOutcome env line (trace s ++ concat (repeat round k))
  = Returned tt ->
  waitUntilRunning env t 0 s
  = (Returned tt, extend (concat (repeat round k) ++ [EvExec line]) s)
  /\ length (filter isExec (concat (repeat round k) ++ [EvExec line])) = S k.
Proof.
  intros round Hline Hk Hfail Hok. split.
  - now apply waitUntilRunning_first_success.
  - clear. rewrite filter_app, length_app. cbn [filter isExec length].
    induction k as [|k IH]; [reflexivity|].
    rewrite concat_repeat_S. subst round. cbn [List.app filter isExec].
    cbn [length]. lia.
Qed.

Lemma boot_poll_stops_at_first_success_witness :
  waitUntilRunning (slowEnv 2) testTools 0 initialState
  = (Returned tt,
     extend [EvExec (testAdb ++ "shell pm list packages"); EvSleep 1000;
             EvExec (testAdb ++ "shell pm list packages")]
            initialState).
Proof.
  apply (proj1 (boot_poll_stops_at_first_success (slowEnv 2) testTools
                  (testAdb ++ "shell pm list packages") 1 initialState
                  eq_refl ltac:(lia)
                  (fun j Hj =>
                     match j as n return
                       n < 1 ->
                       isFailure
                         (bootProbeOutcome (slowEnv 2)
                            (testAdb ++ "shell pm list packages")
                            (trace initialState
                             ++ concat
                                  (repeat
                                     [EvExec (testAdb
                                              ++ "shell pm list packages");
                                      EvSleep 1000] n))) = true
                     with
                     | 0 => fun _ => eq_refl
                     | S n => fun H => ltac:(lia)
                     end Hj)
                  eq_refl)).
Defined.

Lemma sleepTotal_app a b :
  sleepTotal (a ++ b) = (sleepTotal a + sleepTotal b)%N.
Proof.
  induction a as [|ev a IH]; [reflexivity|].
  destruct ev; cbn [List.app sleepTotal]; rewrite IH; lia.
Qed.

Lemma waitUntilRunning_sleep env t :
  forall k attempt s,
    60 - attempt <= k ->
    exists evs,
      snd (waitUntilRunning env t attempt s) = extend evs s
      /\ (sleepTotal evs <= 1000 * N.of_nat k)%N.
Proof.
  induction k as [|k IH]; intros attempt s Hk;
    rewrite waitUntilRunning_step;
    (destruct (adbLine env t "shell pm list packages") as [line|] eqn:Hline;
     [rewrite (probeBoot_run env t line s Hline)
     |destruct (probeBoot_noline env t s Hline) as [e ->];
      exists []; rewrite extend_nil; cbn; split; [reflexivity | lia]]);
    (destruct (bootProbeOutcome env line (trace s)) as [u|e|e];
     [exists [EvExec line]; cbn; split; [reflexivity | lia]
     | | exists [EvExec line]; cbn; split; [reflexivity | lia]]).
  - replace (attempt <? 60)%nat with false
      by (symmetry; apply Nat.ltb_ge; lia).
    exists [EvExec line]; cbn; split; [reflexivity | lia].
  - destruct (attempt <? 60)%nat eqn:Hlt;
      [|exists [EvExec line]; cbn; split; [reflexivity | lia]].
    apply Nat.ltb_lt in Hlt. rewrite snd_settle, log_extend, extend_extend.
    destruct (IH (S attempt) (extend ([EvExec line] ++ [EvSleep 1000]) s))
      as (evs & Hevs & Hlen); [lia|].
    exists (([EvExec line] ++ [EvSleep 1000]) ++ evs)%list.
    rewrite Hevs, extend_extend. split; [reflexivity|].
    rewrite sleepTotal_app. cbn [List.app sleepTotal]. lia.
Qed.

Lemma waitForAppServerStart_sleep env cfg :
  forall k count s,
    50 - count <= k ->
    exists evs,
      snd (waitForAppServerStart env cfg count s) = extend evs s
      /\ (sleepTotal evs <= 200 * N.of_nat (S k))%N.
Proof.
  induction k as [|k IH]; intros count s Hk;
    rewrite waitForAppServerStart_step; cbv zeta;
    set (round := [EvSleep 200;
                   EvRequest "get" (appServerUrl cfg "/ping") None]);
    (destruct (pingOutcome env cfg (trace s ++ [EvSleep 200])) as [u|e|e];
     [exists round; cbn [round sleepTotal]; split; [reflexivity | lia]
     | | exists round; cbn [round sleepTotal]; split; [reflexivity | lia]]).
  - replace (count <? 50)%nat with false
      by (symmetry; apply Nat.ltb_ge; lia).
    exists round; cbn [round sleepTotal]; split; [reflexivity | lia].
  - destruct (count <? 50)%nat eqn:Hlt;
      [|exists round; cbn [round sleepTotal]; split; [reflexivity | lia]].
    apply Nat.ltb_lt in Hlt. rewrite snd_settle.
    destruct (IH (S count) (extend round s)) as (evs & Hevs & Hlen); [lia|].
    exists (round ++ evs)%list.
    rewrite Hevs, extend_extend. split; [reflexivity|].
    rewrite sleepTotal_app. cbn [round sleepTotal]. lia.
Qed.

(** X7. Whatever the device and the app server do, the timers of one
    boot poll add up to at most 60 seconds and those of one health
    poll to at most 10.2 seconds. *)
Theorem pollers_sleep_budget (env : Env) (t : Tools) (cfg : Config)
  (s : State) :
  (sleepTotal (issued s (snd (waitUntilRunning env t 0 s))) <= 60000)%N
  /\ (sleepTotal (issued s (snd (waitForAppServerStart env cfg 0 s)))
      <= 10200)%N.
Proof.
  split.
  - destruct (waitUntilRunning_sleep env t 60 0 s) as (evs & -> & H); [lia|].
    rewrite issued_extend. lia.
  - destruct (waitForAppServerStart_sleep env cfg 50 0 s) as (evs & -> & H);
      [lia|].
    rewrite issued_extend. lia.
Qed.

(** ** Misconfigured tools *)

Lemma probeBoot_missing_device env t s :
  Js.truthy (t_deviceName t) = false ->
  probeBoot env t s = (Thrown (Error_ "missing deviceName"), s).
Proof.
  intros H. unfold probeBoot, listPackages.
  apply then_thrown, then_thrown, execAdb_missing.
  now rewrite or_or, or_none.
Qed.

(** X8. [startDevice] on tools without an SDK path throws the
    TypeError of [path.join] before it spawns anything. On tools with
    an SDK path but without a device name it spawns the emulator and
    then throws "missing deviceName" out of the first package query:
    the emulator process is left running and nothing is polled. *)
Theorem startDevice_misconfigured (env : Env) (t : Tools) (avd : Js.JsStr)
  (s : State) :
  (t_sdkPath t = None ->
   startDevice env t avd s = (Thrown (TypeErrorArg "path"), s))
  /\ (forall sdk,
        t_sdkPath t = Some sdk ->
        Js.truthy (t_deviceName t) = false ->
        startDevice env t avd s
        = (Thrown (Error_ "missing deviceName"),
           extend [EvSpawn (path_join env [sdk; "emulator"; "emulator"])
                     [Some "-avd"; Js.or avd (t_avdName t)] "ignore"] s)).
Proof.
  split.
  - intros Hsdk. unfold startDevice, emulatorPath, toolPath. now rewrite Hsdk.
  - intros sdk Hsdk Hdev. unfold startDevice, emulatorPath, toolPath.
    rewrite Hsdk. cbn [spawn]. rewrite or_or, waitUntilRunning_step.
    now rewrite (probeBoot_missing_device env t _ Hdev), log_extend.
Qed.

Lemma startDevice_misconfigured_witness :
  startDevice (testEnv devicesOutput) noSdkTools None initialState
  = (Thrown (TypeErrorArg "path"), initialState)
  /\ startDevice (testEnv devicesOutput) noDeviceTools (Some "my-avd")
       initialState
     = (Thrown (Error_ "missing deviceName"),
        extend [EvSpawn "/foo/bar/emulator/emulator"
                  [Some "-avd"; Some "my-avd"] "ignore"] initialState).
Proof.
  split.
  - exact (proj1 (startDevice_misconfigured (testEnv devicesOutput)
                    noSdkTools None initialState) eq_refl).
  - exact (proj2 (startDevice_misconfigured (testEnv devicesOutput)
                    noDeviceTools (Some "my-avd") initialState)
             "/foo/bar" eq_refl eq_refl).
Defined.

(** X9. Tools created with an empty or missing [sdkPath] take
    [ANDROID_HOME]. When that is missing too, a command for a known
    device is not executed: [execAdb] throws the TypeError of
    [path.join], and [installApp] lets it escape although it comes
    from its uninstall step. The device name is checked first: without
    one, "missing deviceName" is thrown instead. *)
Theorem adb_without_sdk_path (env : Env) (t : Tools) (cmd : string)
  (device : Js.JsStr) (s : State) :
  (forall sdk dev avd,
      Js.truthy sdk = false ->
      t_sdkPath (newTools env sdk dev avd) = ANDROID_HOME env)
  /\ (t_sdkPath t = None ->
      (Js.truthy (Js.or device (t_deviceName t)) = true ->
       execAdb env t cmd device s = (Thrown (TypeErrorArg "path"), s)
       /\ forall package apk,
           installApp env t device package apk s
           = (Thrown (TypeErrorArg "path"), s))
      /\ (Js.truthy (Js.or device (t_deviceName t)) = false ->
          execAdb env t cmd device s
          = (Thrown (Error_ "missing deviceName"), s))).
Proof.
  split.
  - intros sdk dev avd H. unfold newTools, Js.or. cbn. now rewrite H.
  - intros Hsdk. split.
    + intros Hdev.
      assert (Hexec : forall c,
                 execAdb env t c (Js.or device (t_deviceName t)) s
                 = (Thrown (TypeErrorArg "path"), s)).
      { intros c. unfold execAdb, adbPath, toolPath.
        now rewrite or_or, Hdev, Hsdk. }
      split.
      * unfold execAdb, adbPath, toolPath. now rewrite Hdev, Hsdk.
      * intros package apk. unfold installApp.
        apply then_thrown. unfold catch_, void. now rewrite Hexec.
    + intros Hdev. now apply execAdb_missing.
Qed.

Lemma adb_without_sdk_path_witness :
  installApp (testEnv devicesOutput) noSdkTools None (Some "fi.foo.bar")
    (Some "/path/to/app.apk") initialState
  = (Thrown (TypeErrorArg "path"), initialState).
Proof.
  destruct (adb_without_sdk_path (testEnv devicesOutput) noSdkTools
              "devices" None initialState) as [_ H].
  destruct (H eq_refl) as [Hset _].
  exact (proj2 (Hset eq_refl) (Some "fi.foo.bar") (Some "/path/to/app.apk")).
Defined.

(** ** [grantPermissions] and [Promise.all] *)

Lemma startAll_grants_exact env t package line0 :
  adbLine env t "devices" = Some line0 ->
  forall permissions s,
    startAll (map (fun permission =>
                     execAdb env t (grantCmd package permission)
                       (Js.or None (t_deviceName t)))
                  permissions) s
    = (Returned
         (startedOutcomes env
            (map (fun permission =>
                    match adbLine env t (grantCmd package permission) with
                    | Some l => l
                    | None => ""
                    end) permissions)
            (trace s)),
       extend (map (fun permission =>
                      adbEvent env t (grantCmd package permission))
                   permissions) s).
Proof.
  intros H0. induction permissions as [|p ps IH]; intros s.
  - cbn. now rewrite extend_nil.
  - cbn [map startAll startedOutcomes].
    destruct (adbLine_any env t _ _ (grantCmd package p) H0) as [line Hl].
    rewrite (execAdb_line env t _ _ line s Hl) by apply or_or.
    rewrite (adbLine_event env t _ _ Hl), Hl.
    unfold exec. rewrite log_extend, IH, extend_extend.
    cbn [extend trace].
    destruct (classify (child_exec env (trace s) line)) as [r|e|e] eqn:Hc;
      [reflexivity | reflexivity | now apply classify_not_thrown in Hc].
Qed.

(** X10. With a device and an SDK path, [grantPermissions] starts the
    grant of every dangerous permission of its list, in order, whether
    or not earlier grants fail. It is fulfilled with the results of
    all grants when none is rejected, and otherwise rejected with the
    error of one of the rejected grants. *)
Theorem grantPermissions_settles (env : Env) (t : Tools)
  (package : Js.JsStr) (permissions : list string) (line0 : string)
  (s : State) :
  adbLine env t "devices" = Some line0 ->
  let lines :=
    map (fun permission =>
           match adbLine env t (grantCmd package permission) with
           | Some l => l
           | None => ""
           end) (filter isDangerous permissions) in
  let outcomes := startedOutcomes env lines (trace s) in
  let run := grantPermissions env t None package permissions s in
  snd run = extend (map EvExec lines) s
  /\ (rejections outcomes = [] -> fst run = Returned (fulfilments outcomes))
  /\ (rejections outcomes <> [] ->
      exists e, fst run = Rejected e /\ In e (rejections outcomes)).
Proof.
  intros H0 lines outcomes run. subst run. unfold grantPermissions.
  rewrite (startAll_grants_exact env t package line0 H0).
  fold lines. fold outcomes.
  assert (Hev : map (fun permission =>
                       adbEvent env t (grantCmd package permission))
                    (filter isDangerous permissions)
                = map EvExec lines).
  { subst lines. rewrite map_map. apply map_ext. intros p.
    unfold adbEvent. reflexivity. }
  rewrite Hev. unfold promiseAll.
  destruct (rejections outcomes) as [|e es] eqn:Hrej; cbn [fst snd].
  - split; [reflexivity|]. split; [reflexivity | now intros []].
  - split; [reflexivity|]. split; [discriminate|].
    intros _. eexists. split; [reflexivity|].
    apply nth_In. apply Nat.mod_upper_bound. discriminate.
Qed.

Lemma grantPermissions_settles_witness :
  grantPermissions grantFailsEnv testTools None (Some "fi.foo.bar")
    ["android.permission.RECORD_AUDIO"; "fi.some.permission";
     "android.permission.USE_SIP"] initialState
  = (Rejected (External "grant refused" None),
     extend [EvExec (testAdb ++ "shell pm grant fi.foo.bar "
                     ++ "android.permission.RECORD_AUDIO");
             EvExec (testAdb ++ "shell pm grant fi.foo.bar "
                     ++ "android.permission.USE_SIP")] initialState).
Proof.
  destruct (grantPermissions_settles grantFailsEnv testTools
              (Some "fi.foo.bar")
              ["android.permission.RECORD_AUDIO"; "fi.some.permission";
               "android.permission.USE_SIP"]
              (testAdb ++ "devices") initialState eq_refl)
    as (Hsnd & _ & Hrej).
  destruct (Hrej ltac:(discriminate)) as (e & Hfst & [<-|[]]).
  rewrite (surjective_pairing (grantPermissions _ _ _ _ _ _)), Hsnd, Hfst.
  reflexivity.
Defined.

(** ** Reset *)

Section ResetPreservation.

Variable env : Env.
Variable R : State -> State -> Prop.
Variable Q : Event -> Prop.
Variable cfg : Config.
Variable c : Caps.

Let cmd := newTools env (sdkPath cfg) (deviceName c) (avdName c).

Hypothesis R_refl : forall s, R s s.
Hypothesis R_trans : forall s1 s2 s3, R s1 s2 -> R s2 s3 -> R s1 s3.
Hypothesis R_log : forall ev s, Q ev -> R s (log ev s).
Hypothesis Q_sleep : forall ms, Q (EvSleep ms).
Hypothesis Q_request : forall m u b, Q (EvRequest m u b).
Hypothesis Q_exec : forall line, Q (EvExec line).

Lemma preserves_resetSteps info :
  preservesRel R (resetSteps env cfg c info cmd).
Proof.
  assert (Hadb : forall command line,
             (fun _ : string => true) command = true ->
             adbLine env cmd command = Some line -> Q (EvExec line))
    by (intros; apply Q_exec).
  intros s. rewrite resetSteps_split. revert s.
  apply (preserves_then R R_trans).
  - apply (preserves_clearApp env R Q (fun _ => true) cmd R_refl R_log Hadb).
    reflexivity.
  - intros _. apply (preserves_then R R_trans).
    + unfold regrant. destruct (Js.ge (platformVersion c) "6.0");
        [|intros s; apply R_refl].
      destruct info as [i|]; [|intros s; apply R_refl].
      apply preserves_void.
      apply (preserves_grantPermissions env R Q (fun _ => true) cmd);
        auto.
    + intros _.
      apply (preserves_relaunchAndWait env R Q (fun _ => true) cmd); auto.
Qed.

End ResetPreservation.

(** X11. Neither a reset nor the relay of a request changes what the
    server has stored: the capabilities and the package info after
    [resetApp] and after [forwardRequestToAppServer] are those before,
    whatever the environment does. *)
Theorem reset_and_proxy_keep_session (env : Env) (cfg : Config)
  (req : Request) (s : State) :
  caps (snd (resetApp env cfg req s)) = caps s
  /\ appInfo (snd (resetApp env cfg req s)) = appInfo s
  /\ caps (snd (forwardRequestToAppServer env cfg req s)) = caps s
  /\ appInfo (snd (forwardRequestToAppServer env cfg req s)) = appInfo s.
Proof.
  assert (Hreset : sameCaps s (snd (resetApp env cfg req s))
                   /\ sameAppInfo s (snd (resetApp env cfg req s))).
  { unfold resetApp. destruct (caps s) as [| |c]; [now split | now split|].
    rewrite snd_finish. split.
    - apply (preserves_resetSteps env sameCaps (fun _ => True));
        unfold sameCaps; try easy. intros; congruence.
    - apply (preserves_resetSteps env sameAppInfo (fun _ => True));
        unfold sameAppInfo; try easy. intros; congruence. }
  destruct Hreset as [H1 H2]. split; [exact H1|]. split; [exact H2|].
  unfold forwardRequestToAppServer.
  destruct (yaquest env (trace s) _ _ _) as [r|e];
    [now split|].
  destruct (err_res e); now split.
Qed.

(** X12. The commands of a reset are, in this order, the clearing of
    the app data, the grants for the stored package info (none when no
    info is stored) and the launch; a reset that fails on the way ran
    a front part of that list. A reset never queries devices or
    packages, never installs, never forwards a port, and never spawns
    an emulator. *)
Theorem resetApp_commands (env : Env) (cfg : Config) (req : Request)
  (c : Caps) (s : State) :
  caps s = CObj c ->
  let cmd := newTools env (sdkPath cfg) (deviceName c) (avdName c) in
  let grants :=
    match appInfo s with
    | Some info => expectedGrants env cmd c info
    | None => []
    end in
  let all :=
    adbEvent env cmd ("shell pm clear " ++ Js.show (packageName c))
    :: grants
    ++ [adbEvent env cmd ("shell monkey -p " ++ Js.show (packageName c)
                          ++ " -c android.intent.category.LAUNCHER 1")] in
  (exists rest,
      all = (filter isExec (issued s (snd (resetApp env cfg req s)))
             ++ rest)%list)
  /\ (fst (resetApp env cfg req s) = CallsNext ->
      filter isExec (issued s (snd (resetApp env cfg req s))) = all)
  /\ filter isSpawn (issued s (snd (resetApp env cfg req s))) = [].
Proof.
  intros Hc cmd grants all.
  assert (Hspawn : filter isSpawn (issued s (snd (resetApp env cfg req s)))
                   = []).
  { apply quiet_issued. unfold resetApp. rewrite Hc, snd_finish.
    apply (preserves_resetSteps env (quiet isSpawn)
             (fun ev => isSpawn ev = false));
      cbn beta; intros; auto using quiet_refl, quiet_log.
    eapply quiet_trans; eassumption. }
  assert (Hgrants : filter isExec grants = grants).
  { subst grants. destruct (appInfo s) as [info|]; [|reflexivity].
    unfold expectedGrants.
    destruct (Js.ge (platformVersion c) "6.0"); [|reflexivity].
    induction (filter isDangerous (requestedPermissions info)) as [|p ps IH];
      [reflexivity|].
    cbn [map filter]. unfold adbEvent at 1. cbn [isExec]. now rewrite IH. }
  enough (Hmain :
            (exists rest,
                all = (filter isExec
                         (issued s (snd (resetApp env cfg req s)))
                       ++ rest)%list)
            /\ (fst (resetApp env cfg req s) = CallsNext ->
                filter isExec (issued s (snd (resetApp env cfg req s)))
                = all)) by (destruct Hmain; auto).
  unfold resetApp. rewrite Hc. fold cmd.
  rewrite resetSteps_split,
    (then_unfold (clearApp env cmd (deviceName c) (packageName c))).
  destruct (adbLine env cmd "devices") as [line0|] eqn:H0.
  2:{ unfold clearApp.
      destruct (execAdb_noline env cmd
                  ("shell pm clear " ++ Js.show (packageName c))
                  (Js.or (deviceName c) (t_deviceName cmd)) s
                  (adbLine_none env cmd _ _ H0)) as [e He];
        [now rewrite or_or, or_idem|].
      rewrite He. cbn [finish fst snd].
      rewrite (issued_app s s []) by now rewrite app_nil_r.
      split; [now exists all | discriminate]. }
  destruct (adbLine_any env cmd _ _
              ("shell pm clear " ++ Js.show (packageName c)) H0)
    as [lc Hlc].
  destruct (adbLine_any env cmd _ _
              ("shell monkey -p " ++ Js.show (packageName c)
               ++ " -c android.intent.category.LAUNCHER 1") H0)
    as [lm Hlm].
  assert (Hall : all = (EvExec lc :: grants ++ [EvExec lm])%list).
  { subst all. now rewrite (adbLine_event _ _ _ _ Hlc),
      (adbLine_event _ _ _ _ Hlm). }
  rewrite Hall. unfold clearApp.
  rewrite (execAdb_line env cmd _ _ lc s Hlc) by now rewrite or_or, or_idem.
  unfold exec. rewrite log_extend.
  destruct (classify (child_exec env (trace s) lc)) as [r|e|e];
    cbn [finish fst snd];
    try (rewrite issued_extend; cbn [filter isExec List.app];
         split; [now exists (grants ++ [EvExec lm])%list | discriminate]).
  rewrite (then_unfold (regrant env c (appInfo s) cmd)).
  pose proof (regrant_events env c cmd (appInfo s) line0
                (extend [EvExec lc] s) H0) as Hev.
  fold grants in Hev. cbn [extend trace] in Hev.
  destruct (regrant env c (appInfo s) cmd (extend [EvExec lc] s))
    as [[u|e|e] s2]; cbn [snd settle finish fst] in *;
    try (rewrite (issued_app s s2 ([EvExec lc] ++ grants))
           by (now rewrite Hev, <- app_assoc);
         rewrite filter_app, Hgrants; cbn [filter isExec List.app];
         split; [exists [EvExec lm]; reflexivity | discriminate]).
  unfold relaunchAndWait.
  rewrite (then_unfold (void (startApp env cmd None (packageName c)))).
  unfold void, startApp.
  rewrite (execAdb_line env cmd _ _ lm s2 Hlm) by apply or_or.
  unfold exec. rewrite log_extend.
  destruct (classify (child_exec env (trace s2) lm)) as [r'|e|e];
    cbn [snd settle finish fst];
    try (rewrite (issued_app s _ ([EvExec lc] ++ grants ++ [EvExec lm]))
           by (cbn [extend trace]; now rewrite Hev, <- !app_assoc);
         rewrite !filter_app, Hgrants; cbn [filter isExec List.app];
         split; [exists []; now rewrite app_nil_r | discriminate]).
  destruct (quietExec_waitForAppServerStart env cfg 0
              (extend [EvExec lm] s2)) as (evs & Htr & Hq).
  assert (Hi : issued s (snd (settle
                                (waitForAppServerStart env cfg 0
                                   (extend [EvExec lm] s2))))
               = ([EvExec lc] ++ grants ++ [EvExec lm] ++ evs)%list).
  { apply issued_app. rewrite snd_settle, Htr. cbn [extend trace].
    now rewrite Hev, <- !app_assoc. }
  assert (Hf : filter isExec ([EvExec lc] ++ grants ++ [EvExec lm] ++ evs)
               = (EvExec lc :: grants ++ [EvExec lm])%list).
  { rewrite !filter_app, Hgrants, Hq. cbn [filter isExec List.app].
    now rewrite ?app_nil_r. }
  destruct (settle (waitForAppServerStart env cfg 0 (extend [EvExec lm] s2)))
    as [[u'|e|e] s3]; cbn [finish settle fst snd] in *; rewrite Hi, Hf;
    (split; [exists []; now rewrite app_nil_r | auto]).
Qed.

Lemma resetApp_commands_witness :
  filter isExec
    (issued sessionState
       (snd (resetApp (testEnv devicesOutput) testConfig resetRequest
               sessionState)))
  = map (fun command => EvExec (testAdb ++ command))
      ["shell pm clear fi.foo.bar";
       "shell pm grant fi.foo.bar android.permission.RECORD_AUDIO";
       "shell pm grant fi.foo.bar android.permission.USE_SIP";
       "shell monkey -p fi.foo.bar -c android.intent.category.LAUNCHER 1"].
Proof.
  destruct (resetApp_commands (testEnv devicesOutput) testConfig resetRequest
              testCaps sessionState eq_refl) as (_ & H & _).
  exact (H eq_refl).
Defined.

(** X13. A reset for platform version ">= 6.0" when capabilities are
    stored but no package info is (the bring-up failed before the
    package query): the app data is cleared first, and only then the
    chain is rejected with the TypeError of reading
    [requestedPermissions] from [null]; the app is not launched
    again. *)
Theorem resetApp_without_package_info (env : Env) (cfg : Config)
  (req : Request) (c : Caps) (s s1 : State) (r : ExecResult) :
  caps s = CObj c ->
  appInfo s = None ->
  Js.ge (platformVersion c) "6.0" = true ->
  clearApp env (newTools env (sdkPath cfg) (deviceName c) (avdName c))
    (deviceName c) (packageName c) s = (Returned r, s1) ->
  resetApp env cfg req s
  = (CallsNextErr (TypeErrorRead JsNull "requestedPermissions"), s1).
Proof.
  intros Hc Hinfo Hge Hclear. unfold resetApp. rewrite Hc, Hinfo.
  rewrite resetSteps_split, (then_unfold (clearApp _ _ _ _)), Hclear.
  unfold regrant. rewrite Hge. reflexivity.
Qed.

Lemma resetApp_without_package_info_witness :
  resetApp (testEnv devicesOutput) testConfig resetRequest halfSessionState
  = (CallsNextErr (TypeErrorRead JsNull "requestedPermissions"),
     extend [EvExec (testAdb ++ "shell pm clear fi.foo.bar")]
            halfSessionState).
Proof.
  exact (resetApp_without_package_info (testEnv devicesOutput) testConfig
           resetRequest testCaps halfSessionState _ (mkResult "" "")
           eq_refl eq_refl eq_refl eq_refl).
Defined.

(** ** The middleware stack *)

Lemma forward_event env cfg req s :
  snd (toErrorHandler (forwardRequestToAppServer env cfg req s))
  = extend [EvRequest (Js.toLowerCase (req_method req))
              (appServerUrl cfg (req_path req)) (Some (req_body req))] s.
Proof.
  unfold forwardRequestToAppServer.
  destruct (yaquest env (trace s) _ _ _) as [r|e]; [reflexivity|].
  now destruct (err_res e).
Qed.

(** X14. A control request reaches the app server only after its
    handler has succeeded. When [createSession] or [resetApp] passes
    an error to [next] or throws, the request is answered with status
    500 and that error, and the state is the one the handler left:
    the request is not forwarded. When the handler calls [next()], the
    request itself is forwarded from the state the handler left, as
    one more request to the app server, and the answer is the
    proxy's. *)
Theorem control_request_forwarded_after_success (env : Env) (cfg : Config)
  (req : Request) (s : State) :
  isPost req = true ->
  let forwarded :=
    EvRequest (Js.toLowerCase (req_method req))
      (appServerUrl cfg (req_path req)) (Some (req_body req)) in
  (route_match env (sessionRoute cfg) (req_path req) = true ->
   let handled := createSession env cfg req s in
   (forall e,
       fst handled = CallsNextErr e \/ fst handled = Throws e ->
       dispatch env cfg req s = (Responds 500 (ErrorReport e), snd handled))
   /\ (route_match env (resetRoute cfg) (req_path req) = false ->
       fst handled = CallsNext ->
       dispatch env cfg req s
       = toErrorHandler (forwardRequestToAppServer env cfg req (snd handled))
       /\ snd (dispatch env cfg req s) = extend [forwarded] (snd handled)))
  /\ (route_match env (sessionRoute cfg) (req_path req) = false ->
      route_match env (resetRoute cfg) (req_path req) = true ->
      let handled := resetApp env cfg req s in
      (forall e,
          fst handled = CallsNextErr e \/ fst handled = Throws e ->
          dispatch env cfg req s = (Responds 500 (ErrorReport e), snd handled))
      /\ (fst handled = CallsNext ->
          dispatch env cfg req s
          = toErrorHandler
              (forwardRequestToAppServer env cfg req (snd handled))
          /\ snd (dispatch env cfg req s) = extend [forwarded] (snd handled))).
Proof.
  intros Hp forwarded. split.
  - intros Hm handled. split.
    + intros e H. unfold dispatch. rewrite Hp, Hm. cbn [andb].
      fold handled. destruct handled as [h s1]; cbn [fst snd] in *.
      now destruct H as [-> | ->].
    + intros Hr H.
      assert (Hd : dispatch env cfg req s
                   = toErrorHandler
                       (forwardRequestToAppServer env cfg req (snd handled))).
      { unfold dispatch. rewrite Hp, Hm, Hr. cbn [andb].
        fold handled. destruct handled as [h s1]; cbn [fst snd] in *.
        now subst h. }
      split; [exact Hd|]. rewrite Hd. apply forward_event.
  - intros Hm Hr handled. split.
    + intros e H. unfold dispatch. rewrite Hp, Hm, Hr. cbn [andb].
      fold handled. destruct handled as [h s1]; cbn [fst snd] in *.
      now destruct H as [-> | ->].
    + intros H.
      assert (Hd : dispatch env cfg req s
                   = toErrorHandler
                       (forwardRequestToAppServer env cfg req (snd handled))).
      { unfold dispatch. rewrite Hp, Hm, Hr. cbn [andb].
        fold handled. destruct handled as [h s1]; cbn [fst snd] in *.
        now subst h. }
      split; [exact Hd|]. rewrite Hd. apply forward_event.
Qed.

Lemma control_request_forwarded_after_success_witness :
  dispatch deadEnv testConfig sessionRequest initialState
  = (Responds 500 (ErrorReport (External "spawn ENOENT" None)),
     snd (createSession deadEnv testConfig sessionRequest initialState))
  /\ snd (dispatch (testEnv devicesOutput) testConfig resetRequest
            sessionState)
     = extend [EvRequest "post"
                 "http://localhost:6100/wd/hub/session/session-id/appium/app/reset"
                 (Some "{}")]
         (snd (resetApp (testEnv devicesOutput) testConfig resetRequest
                 sessionState)).
Proof.
  split.
  - apply (proj1 (proj1 (control_request_forwarded_after_success deadEnv
                           testConfig sessionRequest initialState eq_refl)
                    eq_refl));
      left; reflexivity.
  - apply (proj2 (proj2 (control_request_forwarded_after_success
                           (testEnv devicesOutput) testConfig resetRequest
                           sessionState eq_refl)
                    eq_refl eq_refl));
      reflexivity.
Defined.

(** X15. A start-session request whose body has no
    [desiredCapabilities] is answered with status 500 and the
    TypeError of reading [deviceName] from [undefined], runs nothing,
    and still replaces the stored capabilities: a reset that follows
    fails with the same TypeError, also when a session had been
    established before. *)
Theorem session_without_capabilities (env : Env) (cfg : Config)
  (req reset : Request) (s : State) :
  req_desiredCapabilities req = CUndefined ->
  isPost req = true ->
  route_match env (sessionRoute cfg) (req_path req) = true ->
  let s1 := snd (dispatch env cfg req s) in
  dispatch env cfg req s
  = (Responds 500 (ErrorReport (TypeErrorRead JsUndefined "deviceName")),
     setCaps CUndefined s)
  /\ resetApp env cfg reset s1
     = (Throws (TypeErrorRead JsUndefined "deviceName"), s1).
Proof.
  intros Hreq Hp Hm s1.
  assert (Hd : dispatch env cfg req s
               = (Responds 500
                    (ErrorReport (TypeErrorRead JsUndefined "deviceName")),
                  setCaps CUndefined s)).
  { unfold dispatch, createSession. now rewrite Hp, Hm, Hreq. }
  split; [exact Hd|]. subst s1. now rewrite Hd.
Qed.

Lemma session_without_capabilities_witness :
  dispatch (testEnv devicesOutput) testConfig emptySessionRequest sessionState
  = (Responds 500 (ErrorReport (TypeErrorRead JsUndefined "deviceName")),
     setCaps CUndefined sessionState)
  /\ resetApp (testEnv devicesOutput) testConfig resetRequest
       (setCaps CUndefined sessionState)
     = (Throws (TypeErrorRead JsUndefined "deviceName"),
        setCaps CUndefined sessionState).
Proof.
  exact (session_without_capabilities (testEnv devicesOutput) testConfig
           emptySessionRequest resetRequest sessionState
           eq_refl eq_refl eq_refl).
Defined.

(** ** More on single commands *)

(** X16. What the promise of [exec] is rejected with: the error of the
    execution when there is one; otherwise an Error whose message is
    the whole standard output when that begins with "error" in any
    letter case; otherwise an Error whose message is the whole
    standard error when that does. Standard output is looked at
    before standard error. *)
Theorem exec_rejection_reason (env : Env) (cmd : string) (s : State) :
  let raw := child_exec env (trace s) cmd in
  fst (exec env cmd s)
  = match raw_err raw with
    | Some err => Rejected err
    | None =>
        if beginsWithToken "error" (raw_stdout raw)
        then Rejected (Error_ (raw_stdout raw))
        else if beginsWithToken "error" (raw_stderr raw)
             then Rejected (Error_ (raw_stderr raw))
             else Returned (mkResult (raw_stdout raw) (raw_stderr raw))
    end.
Proof.
  intros raw. unfold exec, classify. cbn [fst]. fold raw.
  now rewrite !begins_with_error.
Qed.

(** X17. A device name given to a call takes precedence over the
    configured one: with a non-empty per-call name and an SDK path,
    [clearApp], [startApp], [tcpPortForward] and
    [reverseTcpPortForward] each run exactly one command, addressed to
    that device; the reverse forward names the device port first. *)
Theorem per_call_device_wins (env : Env) (t : Tools) (device : string)
  (adb : string) (s : State) :
  device <> "" ->
  adbPath env t = inr adb ->
  let run command := exec env (adb ++ " -s " ++ device ++ " " ++ command) s in
  (forall package,
      clearApp env t (Some device) package s
      = run ("shell pm clear " ++ Js.show package))
  /\ (forall package,
        startApp env t (Some device) package s
        = run ("shell monkey -p " ++ Js.show package
               ++ " -c android.intent.category.LAUNCHER 1"))
  /\ (forall hostPort devicePort,
        tcpPortForward env t (Some device) hostPort devicePort s
        = run ("forward tcp:" ++ Js.showN hostPort
               ++ " tcp:" ++ Js.showN devicePort))
  /\ (forall hostPort devicePort,
        reverseTcpPortForward env t (Some device) hostPort devicePort s
        = run ("reverse tcp:" ++ Js.showN devicePort
               ++ " tcp:" ++ Js.showN hostPort)).
Proof.
  intros Hdev Hadb run.
  assert (Htruthy : Js.truthy (Some device) = true).
  { cbn. destruct (String.eqb_spec device ""); [contradiction | reflexivity]. }
  assert (Hor : Js.or (Some device) (t_deviceName t) = Some device)
    by (unfold Js.or; now rewrite Htruthy).
  assert (Hexec : forall command,
             execAdb env t command (Js.or (Some device) (t_deviceName t)) s
             = run command).
  { intros command. rewrite Hor.
    rewrite (execAdb_run env t command (Some device) adb s);
      [now rewrite Hor | now rewrite Hor | exact Hadb]. }
  repeat split; intros;
    unfold clearApp, startApp, tcpPortForward, reverseTcpPortForward;
    apply Hexec.
Qed.

Lemma per_call_device_wins_witness :
  reverseTcpPortForward (testEnv devicesOutput) testTools
    (Some "emulator-5556") 6100 7100 initialState
  = exec (testEnv devicesOutput)
      "/foo/bar/platform-tools/adb -s emulator-5556 reverse tcp:7100 tcp:6100"
      initialState.
Proof.
  destruct (per_call_device_wins (testEnv devicesOutput) testTools
              "emulator-5556" "/foo/bar/platform-tools/adb" initialState
              ltac:(discriminate) eq_refl) as (_ & _ & _ & H).
  exact (H 6100%N 7100%N).
Defined.

(** ** Bring-up followed by reset *)

Lemma createSession_next_discovered env cfg req c s :
  req_desiredCapabilities req = CObj c ->
  fst (createSession env cfg req s) = CallsNext ->
  exists info,
    fst (discoverApp env c
           (newTools env (sdkPath cfg) (deviceName c) (avdName c))
           (setCaps (CObj c) s)) = Returned info
    /\ caps (snd (createSession env cfg req s)) = CObj c
    /\ appInfo (snd (createSession env cfg req s)) = Some info.
Proof.
  intros Hreq Hnext. unfold createSession in *. rewrite Hreq in *.
  set (cmd := newTools env (sdkPath cfg) (deviceName c) (avdName c)) in *.
  set (s0 := setCaps (CObj c) s) in *.
  rewrite snd_finish. rewrite bringUp_split in Hnext.
  pose proof (bringUp_sameCaps env cfg c cmd s0) as Hcaps.
  rewrite bringUp_split in *.
  rewrite (then_unfold (discoverApp env c cmd)) in *.
  destruct (discoverApp env c cmd s0) as [[info|e|e] s1];
    cbn [finish fst] in Hnext; try discriminate.
  exists info. split; [reflexivity|]. split; [exact Hcaps|].
  rewrite snd_settle. apply afterDiscover_appInfo.
Qed.

(** X18. A reset re-grants what the bring-up granted: after a
    bring-up that succeeded, a reset from any later state that still
    holds the stored capabilities and package info, and whose
    [clearApp] succeeds, runs the same grant commands as the bring-up
    did, without asking the device for the package info again. *)
Theorem reset_regrants_bringUp_grants (env : Env) (cfg : Config)
  (req reset : Request) (c : Caps) (s s2 : State) (r : ExecResult) :
  req_desiredCapabilities req = CObj c ->
  fst (createSession env cfg req s) = CallsNext ->
  caps s2 = caps (snd (createSession env cfg req s)) ->
  appInfo s2 = appInfo (snd (createSession env cfg req s)) ->
  let cmd := newTools env (sdkPath cfg) (deviceName c) (avdName c) in
  fst (clearApp env cmd (deviceName c) (packageName c) s2) = Returned r ->
  filter (isGrant env cmd) (issued s2 (snd (resetApp env cfg reset s2)))
  = filter (isGrant env cmd) (issued s (snd (createSession env cfg req s))).
Proof.
  intros Hreq Hnext Hcaps Hinfo cmd Hclear.
  destruct (createSession_next_discovered env cfg req c s Hreq Hnext)
    as (info & Hd & Hc & Hi).
  rewrite Hc in Hcaps. rewrite Hi in Hinfo. subst cmd.
  rewrite (resetApp_grants env cfg reset c s2 Hcaps).
  rewrite (createSession_grants env cfg req c s Hreq).
  now rewrite Hclear, Hinfo, Hd.
Qed.

Lemma reset_regrants_bringUp_grants_witness :
  filter (isGrant (testEnv devicesOutput) testTools)
    (issued sessionState
       (snd (resetApp (testEnv devicesOutput) testConfig resetRequest
               sessionState)))
  = filter (isGrant (testEnv devicesOutput) testTools)
      (issued initialState
         (snd (createSession (testEnv devicesOutput) testConfig
                 sessionRequest initialState))).
Proof.
  exact (reset_regrants_bringUp_grants (testEnv devicesOutput) testConfig
           sessionRequest resetRequest testCaps initialState sessionState
           (mkResult "" "") eq_refl eq_refl eq_refl eq_refl eq_refl).
Defined.

(** ** Bring-up stops at the first failure *)

(** X19. When the device is listed and the install command fails, the
    bring-up stops there: the commands run are the device query, the
    uninstall and the install, the failure of the install is passed to
    [next], and no package query, grant, launch or port forward
    follows. The stored package info is the one from before. *)
Theorem bringUp_stops_at_failed_install (env : Env) (cfg : Config)
  (req : Request) (c : Caps) (s : State) (adb : string)
  (rDevices : ExecResult) (e : JsError) :
  let cmd := newTools env (sdkPath cfg) (deviceName c) (avdName c) in
  let ev command :=
    EvExec (adb ++ " -s " ++ Js.show (deviceName c) ++ " " ++ command) in
  let run history command :=
    classify (child_exec env (trace s ++ history)
                (adb ++ " -s " ++ Js.show (deviceName c) ++ " " ++ command)) in
  let devices := "devices" in
  let uninstall := "uninstall " ++ Js.show (packageName c) in
  let install := "install " ++ Js.show (app c) in
  req_desiredCapabilities req = CObj c ->
  Js.truthy (deviceName c) = true ->
  adbPath env cmd = inr adb ->
  run [] devices = Returned rDevices ->
  Js.includes (parseDevices (stdout rDevices)) (deviceName c) = true ->
  run [ev devices; ev uninstall] install = Rejected e ->
  createSession env cfg req s
  = (CallsNextErr e,
     extend [ev devices; ev uninstall; ev install] (setCaps (CObj c) s)).
Proof.
  intros cmd ev run devices uninstall install Hreq Hdev Hadb H1 Hin H3.
  unfold createSession. rewrite Hreq. fold cmd.
  set (s0 := setCaps (CObj c) s).
  rewrite bringUp_split_devices.
  rewrite (then_unfold (listRunningDevices env cmd)).
  rewrite (listRunningDevices_run env cmd (adb ++ " -s "
             ++ Js.show (deviceName c) ++ " " ++ devices) s0)
    by (now apply adbLine_ok).
  unfold run in H1. rewrite app_nil_r in H1.
  change (trace s0) with (trace s). rewrite H1, Hin. cbn [negb].
  rewrite (then_unfold (ret tt)). unfold ret at 1. unfold installAndFinish.
  rewrite (then_unfold (void _)). unfold void.
  rewrite (installApp_run env cmd None (packageName c) (app c) adb _ Hdev Hadb).
  unfold exec. rewrite !log_extend, !extend_extend.
  cbn [extend trace List.app]. change (trace s0) with (trace s).
  match goal with
  | |- context [classify ?raw] =>
      assert (Hfail : classify raw = Rejected e) by exact H3;
      rewrite Hfail
  end.
  reflexivity.
Qed.

Lemma bringUp_stops_at_failed_install_witness :
  createSession installFailsEnv testConfig sessionRequest initialState
  = (CallsNextErr (Error_ "Error: INSTALL_FAILED_INVALID_APK"),
     extend [EvExec (testAdb ++ "devices");
             EvExec (testAdb ++ "uninstall fi.foo.bar");
             EvExec (testAdb ++ "install /path/to/app.apk")]
            (setCaps (CObj testCaps) initialState)).
Proof.
  exact (bringUp_stops_at_failed_install installFailsEnv testConfig
           sessionRequest testCaps initialState "/foo/bar/platform-tools/adb"
           (mkResult devicesOutput "")
           (Error_ "Error: INSTALL_FAILED_INVALID_APK")
           eq_refl eq_refl eq_refl eq_refl eq_refl eq_refl).
Defined.

(** X20. When the device is not listed and never answers the package
    query with a package, the bring-up spawns the emulator, asks 61
    times and gives up with the failure of the last query: nothing is
    uninstalled or installed, and no later step runs. *)
Theorem bringUp_gives_up_on_dead_device (env : Env) (cfg : Config)
  (req : Request) (c : Caps) (s : State) (ld lp : string)
  (rDevices : ExecResult) :
  let cmd := newTools env (sdkPath cfg) (deviceName c) (avdName c) in
  let before :=
    EvExec ld :: emulatorSpawn env cmd
    :: concat (repeat [EvExec lp; EvSleep 1000] 60) in
  req_desiredCapabilities req = CObj c ->
  adbLine env cmd "devices" = Some ld ->
  adbLine env cmd "shell pm list packages" = Some lp ->
  classify (child_exec env (trace s) ld) = Returned rDevices ->
  Js.includes (parseDevices (stdout rDevices)) (deviceName c) = false ->
  (forall tr, isFailure (bootProbeOutcome env lp tr) = true) ->
  snd (createSession env cfg req s)
  = extend (before ++ [EvExec lp]) (setCaps (CObj c) s)
  /\ exists e,
      fst (createSession env cfg req s) = CallsNextErr e
      /\ bootProbeOutcome env lp (trace s ++ before) = Rejected e.
Proof.
  intros cmd before Hreq Hld Hlp Hdev Hin Hnever.
  unfold createSession. rewrite Hreq. fold cmd.
  set (s0 := setCaps (CObj c) s).
  rewrite bringUp_split_devices.
  rewrite (then_unfold (listRunningDevices env cmd)).
  rewrite (listRunningDevices_run env cmd ld s0 Hld).
  change (trace s0) with (trace s). rewrite Hdev, Hin. cbn [negb].
  destruct (adbLine_sdk env cmd _ _ Hld) as [sdk Hsdk].
  assert (Hstart : forall s1,
             startDevice env cmd None s1
             = waitUntilRunning env cmd 0
                 (extend [emulatorSpawn env cmd] s1)).
  { intros s1. unfold startDevice, emulatorPath, toolPath, emulatorSpawn.
    rewrite Hsdk. cbn [spawn Js.show]. now rewrite or_none, or_idem. }
  rewrite (then_unfold (startDevice env cmd None)), Hstart, extend_extend.
  rewrite (waitUntilRunning_never_ready env cmd lp Hlp Hnever 60 0)
    by reflexivity.
  rewrite extend_extend. cbn [extend trace].
  change (trace s0) with (trace s).
  assert (Htr : ((trace s ++ [EvExec ld] ++ [emulatorSpawn env cmd])
                 ++ concat (repeat [EvExec lp; EvSleep 1000] 60))%list
                = (trace s ++ before)%list)
    by (subst before; now rewrite <- app_assoc).
  rewrite Htr.
  pose proof (Hnever (trace s ++ before)%list) as Hlast.
  destruct (bootProbeOutcome env lp (trace s ++ before)) as [u|e|e] eqn:Ho;
    [discriminate | | now apply bootProbeOutcome_not_thrown in Ho].
  cbn [settle finish fst snd]. split.
  - reflexivity.
  - now exists e.
Qed.

Lemma bringUp_gives_up_on_dead_device_witness :
  fst (createSession (testEnvWith otherDeviceOutput "") testConfig
         (mkRequest "POST" "/wd/hub/session" "{}"
            (CObj (mkCaps (Some "emulator-5556") None (Some "fi.foo.bar")
                     (Some "/path/to/app.apk") (Some "6.0"))))
         initialState)
  = CallsNextErr (Error_ "")
  /\ length (filter isExec
               (issued initialState
                  (snd (createSession (testEnvWith otherDeviceOutput "")
                          testConfig
                          (mkRequest "POST" "/wd/hub/session" "{}"
                             (CObj (mkCaps (Some "emulator-5556") None
                                      (Some "fi.foo.bar")
                                      (Some "/path/to/app.apk")
                                      (Some "6.0"))))
                          initialState))))
     = 62.
Proof.
  destruct (bringUp_gives_up_on_dead_device
              (testEnvWith otherDeviceOutput "") testConfig
              (mkRequest "POST" "/wd/hub/session" "{}"
                 (CObj (mkCaps (Some "emulator-5556") None (Some "fi.foo.bar")
                          (Some "/path/to/app.apk") (Some "6.0"))))
              (mkCaps (Some "emulator-5556") None (Some "fi.foo.bar")
                 (Some "/path/to/app.apk") (Some "6.0"))
              initialState
              "/foo/bar/platform-tools/adb -s emulator-5556 devices"
              "/foo/bar/platform-tools/adb -s emulator-5556 shell pm list packages"
              (mkResult "" "") eq_refl eq_refl eq_refl eq_refl eq_refl
              (fun _ => eq_refl))
    as (Hsnd & e & Hfst & He).
  split.
  - rewrite Hfst. f_equal. vm_compute in He. now injection He as <-.
  - rewrite Hsnd. vm_compute. reflexivity.
Defined.
